(** * Order lifecycle of the thinkorswim/Schwab trading bot

    A shallow embedding of [api_trader/__init__.py] (class [ApiTrader]),
    [api_trader/order_builder.py] (class [OrderBuilder]) and the
    state-machine part of [api_trader/tasks.py] (class [Tasks]), followed by
    the properties of the order lifecycle.

    Modelling conventions.
    - A Python [dict] with string keys is a [gmap string value]; MongoDB
      documents are such dicts and a collection is the list of its documents
      in insertion order.  The [_id] field that the server adds is left out;
      since every stored document carries it, a document returned by
      [find_one] is always truthy, and the model tests [find_one] results
      with [is_Some].
    - A Python [float] is an IEEE 754 binary64 number, given by its exact
      rational value or as an infinity or a not-a-number; every operation
      that produces a float rounds its exact result to the nearest double.
    - Strings are sequences of ASCII characters.
    - Calls that leave the process (broker, clock, random numbers, token
      check) read an oracle of type [world], indexed by a counter of the
      external calls made so far, so that every call may answer differently.
    - A method is a function [state -> res A * state]; an exception keeps the
      writes made before it was raised. *)

From Stdlib Require Import Ascii String ZArith QArith Qround Qabs Lia Lqa.
From stdpp Require Import gmap strings list fin_maps pretty.

Local Open Scope Z_scope.

(* ===================================================================== *)
(** ** Python values                                                      *)
(* ===================================================================== *)

(** A [float]: [Fin q] is the finite double whose exact value is [q].  The
    sign of a zero is not kept; nothing the trader computes reads it. *)
Inductive float :=
| Fin (q : Q)
| Inf (negative : bool)
| NaN.

#[warnings="-register-all"]
Inductive value :=
| VNone
| VBool (b : bool)
| VInt (z : Z)
| VFloat (f : float)
| VStr (s : string)
| VDate (t : Z)                      (* a [datetime]; only compared and stored *)
| VList (l : list value)
| VDict (d : gmap string value)
| VIdMap (m : list (value * value)). (* a dict filled key by key, with keys
                                        of any hashable type: its items in
                                        the order of insertion *)

Abbreviation doc := (gmap string value).

Inductive exn :=
| KeyError (k : string)
| TypeError
| ValueError
| IndexError
| AttributeError
| NameError
| ZeroDivisionError
| OverflowError
| ExternalError.                     (* raised inside a collaborator *)

Inductive res (A : Type) :=
| Ok (a : A)
| Raise (e : exn).
Arguments Ok {A} a.
Arguments Raise {A} e.

Definition rbind {A B} (r : res A) (k : A -> res B) : res B :=
  match r with
  | Ok a => k a
  | Raise e => Raise e
  end.

Notation "'let+' x ':=' r 'in' k" := (rbind r (fun x => k))
  (at level 10, x name, r at level 100, k at level 200).

(** [d[k]] on a dict. *)
Definition getitem (d : doc) (k : string) : res value :=
  match d !! k with
  | Some v => Ok v
  | None => Raise (KeyError k)
  end.

(** The number a numeric value stands for ([True] is 1). *)
Definition num_of (v : value) : option float :=
  match v with
  | VBool b => Some (Fin (inject_Z (if b then 1 else 0)))
  | VInt z => Some (Fin (inject_Z z))
  | VFloat f => Some f
  | _ => None
  end.

(** [==] on numbers: by value, and a not-a-number equals nothing. *)
Definition float_eq (a b : float) : bool :=
  match a, b with
  | Fin x, Fin y => Qeq_bool x y
  | Inf n, Inf m => bool_decide (n = m)
  | _, _ => false
  end.

Definition num_eq (v w : value) : bool :=
  match num_of v, num_of w with
  | Some a, Some b => float_eq a b
  | _, _ => false
  end.

(** Python [==].  Two dicts are equal when they have as many items and
    every key of the one has an equal value in the other. *)
Fixpoint py_eq (v w : value) {struct v} : bool :=
  match v, w with
  | VNone, VNone => true
  | VStr a, VStr b => bool_decide (a = b)
  | VDate a, VDate b => bool_decide (a = b)
  | VBool _, (VBool _ | VInt _ | VFloat _) => num_eq v w
  | VInt _, (VBool _ | VInt _ | VFloat _) => num_eq v w
  | VFloat _, (VBool _ | VInt _ | VFloat _) => num_eq v w
  | VList l, VList l' =>
      (fix go (l l' : list value) : bool :=
         match l, l' with
         | [], [] => true
         | x :: l, y :: l' => py_eq x y && go l l'
         | _, _ => false
         end) l l'
  | VDict d, VDict d' =>
      bool_decide (dom d = dom d') &&
      map_fold (fun k x acc =>
                  acc && match d' !! k with Some y => py_eq x y | None => false end)
               true d
  | VDict d, VIdMap m' =>
      bool_decide (size d = length m') &&
      map_fold (fun k x acc =>
                  acc && (fix find (m' : list (value * value)) : bool :=
                            match m' with
                            | [] => false
                            | (VStr k', y) :: m' =>
                                if bool_decide (k = k') then py_eq x y else find m'
                            | _ :: m' => find m'
                            end) m')
               true d
  | VIdMap m, VDict d' =>
      bool_decide (length m = size d') &&
      (fix all (m : list (value * value)) : bool :=
         match m with
         | [] => true
         | (VStr k, x) :: m =>
             match d' !! k with Some y => py_eq x y | None => false end && all m
         | _ :: _ => false
         end) m
  | VIdMap m, VIdMap m' =>
      bool_decide (length m = length m') &&
      (fix all (m : list (value * value)) : bool :=
         match m with
         | [] => true
         | (k, x) :: m =>
             (fix find (m' : list (value * value)) : bool :=
                match m' with
                | [] => false
                | (k', y) :: m' => if py_eq k k' then py_eq x y else find m'
                end) m' && all m
         end) m
  | _, _ => false
  end.

(** [k in m] and [m[k]] on the items of a dict. *)
Fixpoint items_get (k : value) (m : list (value * value)) : option value :=
  match m with
  | [] => None
  | (k', x) :: m' => if py_eq k' k then Some x else items_get k m'
  end.

(** [m[k] = x]: the value of an equal key is replaced, a new key goes to
    the end. *)
Fixpoint items_set (k x : value) (m : list (value * value)) : list (value * value) :=
  match m with
  | [] => [(k, x)]
  | (k', y) :: m' => if py_eq k' k then (k', x) :: m' else (k', y) :: items_set k x m'
  end.

(** Keys must be hashable: lists and dicts are not. *)
Definition hashable (v : value) : bool :=
  match v with
  | VList _ | VDict _ | VIdMap _ => false
  | _ => true
  end.

(** [v[k]] on an arbitrary value with a string key. *)
Definition subscript (v : value) (k : string) : res value :=
  match v with
  | VDict d => getitem d k
  | VIdMap m =>
      match items_get (VStr k) m with
      | Some x => Ok x
      | None => Raise (KeyError k)
      end
  | _ => Raise TypeError
  end.

(** [v[i]] with a non-negative integer index. *)
Definition index (v : value) (i : nat) : res value :=
  match v with
  | VList l => match l !! i with Some x => Ok x | None => Raise IndexError end
  | VStr s =>
      match list_ascii_of_string s !! i with
      | Some c => Ok (VStr (String c EmptyString))
      | None => Raise IndexError
      end
  | VDict _ => Raise (KeyError "")
  | VIdMap m =>
      match items_get (VInt (Z.of_nat i)) m with
      | Some x => Ok x
      | None => Raise (KeyError "")
      end
  | _ => Raise TypeError
  end.

(** [x in [a; b; ...]] on a list literal. *)
Definition py_in_list (x : value) (l : list value) : bool :=
  existsb (py_eq x) l.

(** Truth value of an object. *)
Definition truthy (v : value) : bool :=
  match v with
  | VNone => false
  | VBool b => b
  | VInt z => negb (z =? 0)
  | VFloat (Fin q) => negb (Qeq_bool q 0)
  | VFloat _ => true
  | VStr s => negb (bool_decide (s = ""%string))
  | VDate _ => true
  | VList l => match l with [] => false | _ => true end
  | VDict d => negb (bool_decide (d = ∅))
  | VIdMap m => match m with [] => false | _ => true end
  end.

(* --------------------------------------------------------------------- *)
(** *** Numbers *)

(** [int(x)] of a finite float: truncation toward zero. *)
Definition trunc (q : Q) : Z := Z.quot (Qnum q) (Zpos (Qden q)).

(** The nearest integer, ties to the even one. *)
Definition round_half_even (y : Q) : Z :=
  let f := Qfloor y in
  let r := (y - inject_Z f)%Q in
  match (r ?= 1 # 2)%Q with
  | Lt => f
  | Gt => f + 1
  | Eq => if Z.even f then f else f + 1
  end.

Definition pow2 (k : Z) : Q := Qpower 2 k.

(** The double nearest to the rational [x], ties to the even significand.
    A double has 53 significant bits; [e] is the exponent of [x], kept at
    -1022 for the subnormal numbers, and a result of [2^1024] or more is an
    infinity. *)
Definition b64 (x : Q) : float :=
  if Qeq_bool x 0 then Fin 0
  else
    let a := Qabs x in
    let g := Z.log2 (Qnum a) - Z.log2 (Zpos (Qden a)) in
    let e := if Qle_bool (pow2 g) a then g else g - 1 in
    let u := pow2 (Z.max e (-1022) - 52) in
    let r := (inject_Z (round_half_even (a / u)) * u)%Q in
    let negative := negb (Qle_bool 0 x) in
    if Qle_bool (pow2 1024) r then Inf negative
    else Fin (Qred (if negative then - r else r)).

Definition float_negative (f : float) : bool :=
  match f with
  | Fin q => negb (Qle_bool 0 q)
  | Inf n => n
  | NaN => false
  end.

Definition float_is_zero (f : float) : bool :=
  match f with
  | Fin q => Qeq_bool q 0
  | _ => false
  end.

(** [a * b] on floats. *)
Definition float_mul (a b : float) : float :=
  match a, b with
  | NaN, _ | _, NaN => NaN
  | Fin x, Fin y => b64 (x * y)
  | Inf n, Inf m => Inf (xorb n m)
  | Inf n, Fin y | Fin y, Inf n =>
      if Qeq_bool y 0 then NaN else Inf (xorb n (negb (Qle_bool 0 y)))
  end.

(** [a / b] on floats. *)
Definition float_div (a b : float) : res float :=
  if float_is_zero b then Raise ZeroDivisionError
  else Ok match a, b with
          | NaN, _ | _, NaN => NaN
          | Fin x, Fin y => b64 (x / y)
          | Fin _, Inf _ => Fin 0
          | Inf n, Fin y => Inf (xorb n (negb (Qle_bool 0 y)))
          | Inf _, Inf _ => NaN
          end.

(** [f >= z] for an integer [z]. *)
Definition float_ge (f : float) (z : Z) : bool :=
  match f with
  | Fin q => Qle_bool (inject_Z z) q
  | Inf n => negb n
  | NaN => false
  end.

(** [round(x, n)] of a float, [n >= 0]: the decimal with [n] places nearest
    to the exact value of [x], ties to the even one, and then the double
    nearest to that decimal. *)
Definition py_round (x : float) (n : nat) : float :=
  match x with
  | Fin q =>
      b64 (Qmake (round_half_even (q * inject_Z (10 ^ Z.of_nat n)))
                 (Z.to_pos (10 ^ Z.of_nat n)))
  | Inf _ | NaN => x
  end.

(** [int(x)] of a float. *)
Definition float_int (x : float) : res Z :=
  match x with
  | Fin q => Ok (trunc q)
  | Inf _ => Raise OverflowError
  | NaN => Raise ValueError
  end.

(** [float(z)] of an int. *)
Definition float_of_Z (z : Z) : res float :=
  match b64 (inject_Z z) with
  | Inf _ => Raise OverflowError
  | f => Ok f
  end.

(** [a / b] on ints: the double nearest to the exact quotient. *)
Definition int_div (a b : Z) : res float :=
  if b =? 0 then Raise ZeroDivisionError
  else match b64 (inject_Z a / inject_Z b) with
       | Inf _ => Raise OverflowError
       | f => Ok f
       end.

(* --------------------------------------------------------------------- *)
(** *** Strings *)

Definition is_ws (c : ascii) : bool :=
  let n := nat_of_ascii c in
  ((9 <=? n) && (n <=? 13) || (n =? 32) || ((28 <=? n) && (n <=? 31)))%nat.

Fixpoint lstrip (l : list ascii) : list ascii :=
  match l with
  | c :: l' => if is_ws c then lstrip l' else l
  | [] => []
  end.

(** [s.strip()]. *)
Definition strip (s : string) : string :=
  string_of_list_ascii (rev (lstrip (rev (lstrip (list_ascii_of_string s))))).

(** [s.split(sep)[-1]] for a one-character separator: what follows the last
    occurrence of [sep], the whole string when there is none. *)
Fixpoint last_segment_aux (sep : ascii) (l acc : list ascii) : list ascii :=
  match l with
  | [] => rev acc
  | c :: l' =>
      if bool_decide (c = sep) then last_segment_aux sep l' []
      else last_segment_aux sep l' (c :: acc)
  end.

Definition last_segment (sep : ascii) (s : string) : string :=
  string_of_list_ascii (last_segment_aux sep (list_ascii_of_string s) []).

Definition digit_of (c : ascii) : option Z :=
  let n := nat_of_ascii c in
  if ((48 <=? n) && (n <=? 57))%nat then Some (Z.of_nat n - 48) else None.

(** Digits with single underscores between them, as [int] accepts. *)
Fixpoint parse_digits (l : list ascii) (acc : Z) (after_digit : bool) : option Z :=
  match l with
  | [] => if after_digit then Some acc else None
  | c :: l' =>
      match digit_of c with
      | Some d => parse_digits l' (10 * acc + d) true
      | None =>
          if bool_decide (c = "_"%char) && after_digit
          then parse_digits l' acc false
          else None
      end
  end.

(** [int(s)] of a string in base 10. *)
Definition parse_int (s : string) : option Z :=
  match list_ascii_of_string (strip s) with
  | "-"%char :: l => Z.opp <$> parse_digits l 0 false
  | "+"%char :: l => parse_digits l 0 false
  | l => parse_digits l 0 false
  end.

(** [int(v)]. *)
Definition py_int (v : value) : res Z :=
  match v with
  | VBool b => Ok (if b then 1 else 0)
  | VInt z => Ok z
  | VFloat f => float_int f
  | VStr s => match parse_int s with Some z => Ok z | None => Raise ValueError end
  | _ => Raise TypeError
  end.

Definition is_digit (c : ascii) : bool :=
  match digit_of c with Some _ => true | None => false end.

Definition lower (c : ascii) : ascii :=
  let n := nat_of_ascii c in
  if ((65 <=? n) && (n <=? 90))%nat then ascii_of_nat (n + 32) else c.

(** In the argument of [float] an underscore may only stand between two
    digits; it is dropped before the number is read. *)
Fixpoint drop_underscores (l : list ascii) (prev : option ascii) : option (list ascii) :=
  match l with
  | [] => if bool_decide (prev = Some "_"%char) then None else Some []
  | c :: l' =>
      if bool_decide (c = "_"%char) then
        match prev with
        | Some p => if is_digit p then drop_underscores l' (Some c) else None
        | None => None
        end
      else if bool_decide (prev = Some "_"%char) && negb (is_digit c) then None
      else cons c <$> drop_underscores l' (Some c)
  end.

(** The digits at the head of [l] read after [acc], their number, and what
    follows them. *)
Fixpoint read_digits (l : list ascii) (acc : Z) (n : nat) : Z * nat * list ascii :=
  match l with
  | [] => (acc, n, [])
  | c :: l' =>
      match digit_of c with
      | Some d => read_digits l' (10 * acc + d) (S n)
      | None => (acc, n, l)
      end
  end.

(** An unsigned decimal: digits with an optional point, at least one digit,
    and an optional exponent that has at least one digit. *)
Definition parse_decimal (l : list ascii) : option Q :=
  let '(ip, ni, r1) := read_digits l 0 0 in
  let '(m, nf, r2) :=
    match r1 with
    | "."%char :: r => read_digits r ip 0
    | _ => (ip, 0%nat, r1)
    end in
  if (ni + nf =? 0)%nat then None
  else
    match r2 with
    | [] => Some (inject_Z m * Qpower 10 (- Z.of_nat nf))%Q
    | c :: r3 =>
        if bool_decide (lower c = "e"%char) then
          let '(negative, r4) :=
            match r3 with
            | "-"%char :: r => (true, r)
            | "+"%char :: r => (false, r)
            | _ => (false, r3)
            end in
          let '(ex, ne, r5) := read_digits r4 0 0 in
          match ne, r5 with
          | S _, [] =>
              Some (inject_Z m * Qpower 10 ((if negative then - ex else ex) - Z.of_nat nf))%Q
          | _, _ => None
          end
        else None
    end.

(** [float(s)] of a string: surrounding whitespace, a sign, and then a
    decimal or one of the words inf, infinity and nan in any case. *)
Definition parse_float (s : string) : option float :=
  match drop_underscores (list_ascii_of_string (strip s)) None with
  | None => None
  | Some l =>
      let '(negative, body) :=
        match l with
        | "-"%char :: r => (true, r)
        | "+"%char :: r => (false, r)
        | _ => (false, l)
        end in
      let word := string_of_list_ascii (map lower body) in
      if bool_decide (word = "inf"%string) || bool_decide (word = "infinity"%string)
      then Some (Inf negative)
      else if bool_decide (word = "nan"%string) then Some NaN
      else match parse_decimal body with
           | Some q => Some (b64 (if negative then - q else q))
           | None => None
           end
  end.

(** [float(v)]. *)
Definition py_float (v : value) : res float :=
  match v with
  | VBool b => Ok (Fin (inject_Z (if b then 1 else 0)))
  | VInt z => float_of_Z z
  | VFloat f => Ok f
  | VStr s => match parse_float s with Some f => Ok f | None => Raise ValueError end
  | _ => Raise TypeError
  end.

(** [len(v)]. *)
Definition py_len (v : value) : res nat :=
  match v with
  | VStr s => Ok (String.length s)
  | VList l => Ok (length l)
  | VDict d => Ok (size d)
  | VIdMap m => Ok (length m)
  | _ => Raise TypeError
  end.

(** [v[len(v)-3:]]: a slice never raises on a sequence; a negative start
    counts from the end and is then clamped at 0. *)
Definition slice_start (len : nat) : nat :=
  if (3 <=? len)%nat then (len - 3)%nat else (2 * len - 3)%nat.

Definition py_slice_from (v : value) (start : nat) : res value :=
  match v with
  | VStr s => Ok (VStr (string_of_list_ascii (drop start (list_ascii_of_string s))))
  | VList l => Ok (VList (drop start l))
  | _ => Raise TypeError
  end.

(* ===================================================================== *)
(** ** The document store                                                 *)
(* ===================================================================== *)

(** One condition of a query document: [{k: v}] or [{k: {"$ne": v}}]. *)
Inductive cond :=
| CEq (v : value)
| CNe (v : value).

Abbreviation query := (list (string * cond)).

(** Equality of a stored value with a queried one: numbers compare by
    value (a not-a-number matches a not-a-number), booleans only with
    booleans, and a stored array also matches when one of its elements
    does. *)
Definition bson_scalar_eq (stored q : value) : bool :=
  match stored, q with
  | VBool a, VBool b => bool_decide (a = b)
  | VBool _, _ | _, VBool _ => false
  | VFloat NaN, VFloat NaN => true
  | _, _ => py_eq stored q
  end.

Definition bson_eq (stored q : value) : bool :=
  bson_scalar_eq stored q ||
  match stored with
  | VList l => existsb (fun x => bson_scalar_eq x q) l
  | _ => false
  end.

(** A missing field matches the query value [None]. *)
Definition field_eq (d : doc) (k : string) (v : value) : bool :=
  match d !! k with
  | Some x => bson_eq x v
  | None => match v with VNone => true | _ => false end
  end.

Definition holds (d : doc) (c : string * cond) : bool :=
  match c.2 with
  | CEq v => field_eq d c.1 v
  | CNe v => negb (field_eq d c.1 v)
  end.

Definition matches (q : query) (d : doc) : bool := forallb (holds d) q.

(** [find], [find_one], [insert_one], [delete_one] (with its
    [deleted_count]) and [update_one] on a collection. *)
Definition find (q : query) (c : list doc) : list doc := List.filter (matches q) c.

Definition find_one (q : query) (c : list doc) : option doc := head (find q c).

Definition insert_one (d : doc) (c : list doc) : list doc := c ++ [d].

Fixpoint delete_one (q : query) (c : list doc) : list doc * Z :=
  match c with
  | [] => ([], 0)
  | d :: c' =>
      if matches q d then (c', 1)
      else let r := delete_one q c' in (d :: r.1, r.2)
  end.

(** The equality fields of a query, which an upsert copies into the
    document it inserts. *)
Fixpoint eq_fields (q : query) : doc :=
  match q with
  | [] => ∅
  | (k, CEq v) :: q' => <[k := v]> (eq_fields q')
  | (_, CNe _) :: q' => eq_fields q'
  end.

Fixpoint update_first (q : query) (f : doc -> doc) (c : list doc) : option (list doc) :=
  match c with
  | [] => None
  | d :: c' =>
      if matches q d then Some (f d :: c')
      else cons d <$> update_first q f c'
  end.

(** [update_one(q, {"$set": fields}, upsert)]. *)
Definition update_one_set (q : query) (fields : doc) (upsert : bool) (c : list doc) : list doc :=
  match update_first q (fun d => fields ∪ d) c with
  | Some c' => c'
  | None => if upsert then c ++ [fields ∪ eq_fields q] else c
  end.

(** [update_one(q, {"$setOnInsert": fields}, upsert=True)]. *)
Definition update_one_set_on_insert (q : query) (fields : doc) (c : list doc) : list doc :=
  match find_one q c with
  | Some _ => c
  | None => c ++ [fields ∪ eq_fields q]
  end.

Record db := {
  open_positions : list doc;
  closed_positions : list doc;
  queue : list doc;
  rejected : list doc;
  canceled : list doc;
  strategies : list doc;
  forbidden : list doc;
  users : list doc;
}.

(* ===================================================================== *)
(** ** Broker payload                                                     *)
(* ===================================================================== *)

(** [self.order]: the keys are fixed by [OrderBuilder.__init__] and by the
    assignments of [standardOrder] and [OCOorder], so the payload is a
    record of values; [None] stands for a key that is not there. *)
Record leg := {
  instruction : value;
  quantity : value;
  instrument_symbol : value;
  instrument_assetType : value;
  instrument_putCall : option value;
}.

Record child_order := {
  c_orderType : string;              (* "LIMIT" with price, "STOP" with stopPrice *)
  c_price : float;
  c_leg : leg;
}.

Record order_payload := {
  orderType : value;
  price : value;
  session : value;
  duration : value;
  orderStrategyType : value;
  orderLegCollection0 : leg;
  childOrderStrategies : option (child_order * child_order);
}.

(** The HTTP response of an order placement. *)
Record response := {
  status_code : Z;
  resp_json : res value;             (* [resp.json()] *)
  header : string -> option string;  (* [resp.headers[k]], case-insensitive *)
}.

(* ===================================================================== *)
(** ** The world outside the process                                      *)
(* ===================================================================== *)

Record world := {
  checkTokenValidity : nat -> bool;
  (* [OptionSymbol(symbol, exp_date, right, strike).build()] of schwab-py *)
  OptionSymbol_build : value -> value -> value -> value -> res string;
  (* [self.client.quote(s).json()] *)
  client_quote : nat -> string -> res doc;
  (* [self.client.account_linked().json()] *)
  client_account_linked : nat -> res value;
  client_order_place : nat -> value -> order_payload -> res response;
  (* [self.schwab.get_order(id)] *)
  schwab_get_order : nat -> value -> res doc;
  getDatetime : nat -> value;
  random : nat -> Z;
}.

(** The configuration of one [ApiTrader] instance and of the environment
    file. *)
Record config := {
  account_id : value;
  account_id_str : string;           (* [str(self.account_id)] *)
  RUN_LIVE_TRADER : bool;
  TAKE_PROFIT_PERCENTAGE : float;
  STOP_LOSS_PERCENTAGE : float;
}.

Inductive level := INFO | WARNING | ERROR.

(** What an instance can change: the store, its own attributes, and the
    trace of what it sent outside. *)
Record state := {
  store : db;
  self_user : value;                 (* [self.user]; [None] after a failed reload *)
  self_order : order_payload;
  self_obj : doc;
  logged : list (level * string * list value);
  pushed : list (list value);        (* [self.push.send] *)
  placed : list order_payload;       (* [self.client.order_place] *)
  clock : nat;
}.

(* ===================================================================== *)
(** ** Methods as state transformers                                      *)
(* ===================================================================== *)

Definition M (A : Type) : Type := state -> res A * state.

Definition ret {A} (a : A) : M A := fun s => (Ok a, s).

Definition raise {A} (e : exn) : M A := fun s => (Raise e, s).

Definition lift {A} (r : res A) : M A := fun s => (r, s).

Definition bind {A B} (m : M A) (k : A -> M B) : M B :=
  fun s =>
    match m s with
    | (Ok a, s') => k a s'
    | (Raise e, s') => (Raise e, s')
    end.

Notation "'let*' x ':=' m 'in' k" := (bind m (fun x => k))
  (at level 10, x name, m at level 100, k at level 200).

Definition modify (f : state -> state) : M unit := fun s => (Ok tt, f s).

Definition get {A} (f : state -> A) : M A := fun s => (Ok (f s), s).

Definition set_store (f : db -> db) (s : state) : state :=
  {| store := f (store s); self_user := self_user s; self_order := self_order s;
     self_obj := self_obj s; logged := logged s; pushed := pushed s;
     placed := placed s; clock := clock s |}.

Definition set_self_user (u : value) (s : state) : state :=
  {| store := store s; self_user := u; self_order := self_order s;
     self_obj := self_obj s; logged := logged s; pushed := pushed s;
     placed := placed s; clock := clock s |}.

Definition set_self_order (f : order_payload -> order_payload) (s : state) : state :=
  {| store := store s; self_user := self_user s; self_order := f (self_order s);
     self_obj := self_obj s; logged := logged s; pushed := pushed s;
     placed := placed s; clock := clock s |}.

Definition set_self_obj (f : doc -> doc) (s : state) : state :=
  {| store := store s; self_user := self_user s; self_order := self_order s;
     self_obj := f (self_obj s); logged := logged s; pushed := pushed s;
     placed := placed s; clock := clock s |}.

Definition add_log (e : level * string * list value) (s : state) : state :=
  {| store := store s; self_user := self_user s; self_order := self_order s;
     self_obj := self_obj s; logged := logged s ++ [e]; pushed := pushed s;
     placed := placed s; clock := clock s |}.

Definition add_pushed (m : list value) (s : state) : state :=
  {| store := store s; self_user := self_user s; self_order := self_order s;
     self_obj := self_obj s; logged := logged s; pushed := pushed s ++ [m];
     placed := placed s; clock := clock s |}.

Definition add_placed (o : order_payload) (s : state) : state :=
  {| store := store s; self_user := self_user s; self_order := self_order s;
     self_obj := self_obj s; logged := logged s; pushed := pushed s;
     placed := placed s ++ [o]; clock := clock s |}.

Definition tick (s : state) : state :=
  {| store := store s; self_user := self_user s; self_order := self_order s;
     self_obj := self_obj s; logged := logged s; pushed := pushed s;
     placed := placed s; clock := S (clock s) |}.

Definition on_open_positions (f : list doc -> list doc) (d : db) : db :=
  {| open_positions := f (open_positions d); closed_positions := closed_positions d;
     queue := queue d; rejected := rejected d; canceled := canceled d;
     strategies := strategies d; forbidden := forbidden d; users := users d |}.

Definition on_closed_positions (f : list doc -> list doc) (d : db) : db :=
  {| open_positions := open_positions d; closed_positions := f (closed_positions d);
     queue := queue d; rejected := rejected d; canceled := canceled d;
     strategies := strategies d; forbidden := forbidden d; users := users d |}.

Definition on_queue (f : list doc -> list doc) (d : db) : db :=
  {| open_positions := open_positions d; closed_positions := closed_positions d;
     queue := f (queue d); rejected := rejected d; canceled := canceled d;
     strategies := strategies d; forbidden := forbidden d; users := users d |}.

Definition on_rejected (f : list doc -> list doc) (d : db) : db :=
  {| open_positions := open_positions d; closed_positions := closed_positions d;
     queue := queue d; rejected := f (rejected d); canceled := canceled d;
     strategies := strategies d; forbidden := forbidden d; users := users d |}.

Definition on_canceled (f : list doc -> list doc) (d : db) : db :=
  {| open_positions := open_positions d; closed_positions := closed_positions d;
     queue := queue d; rejected := rejected d; canceled := f (canceled d);
     strategies := strategies d; forbidden := forbidden d; users := users d |}.

Definition on_strategies (f : list doc -> list doc) (d : db) : db :=
  {| open_positions := open_positions d; closed_positions := closed_positions d;
     queue := queue d; rejected := rejected d; canceled := canceled d;
     strategies := f (strategies d); forbidden := forbidden d; users := users d |}.

(** A call that leaves the process reads the oracle at the current count
    and advances it. *)
Definition ask {A} (f : nat -> A) : M A := fun s => (Ok (f (clock s)), tick s).

Definition ask_res {A} (f : nat -> res A) : M A := fun s => (f (clock s), tick s).

Definition info (tag : string) (vs : list value) : M unit := modify (add_log (INFO, tag, vs)).
Definition warning (tag : string) (vs : list value) : M unit := modify (add_log (WARNING, tag, vs)).
Definition error (tag : string) (vs : list value) : M unit := modify (add_log (ERROR, tag, vs)).

(** Modelled from the spec: [assets/exception_handler.py] is not among the
    sources.  Every failure is caught at the operation boundary and logged
    with trader and account context, and none is raised to the caller: the
    decorated method then returns [None].  The writes made before the
    exception stay. *)
Definition exception_handler {A} (m : M A) : M (option A) :=
  fun s =>
    match m s with
    | (Ok a, s') => (Ok (Some a), s')
    | (Raise e, s') => (Ok None, add_log (ERROR, "exception_handler"%string, []) s')
    end.

(** [self.user["Name"]]. *)
Definition user_name : M value :=
  let* u := get self_user in lift (subscript u "Name").

(** [d[k]] with a key that is itself a value. *)
Definition getitem_v (d : doc) (k : value) : res value :=
  match k with
  | VStr s => getitem d s
  | VList _ | VDict _ | VIdMap _ => Raise TypeError
  | _ => Raise (KeyError "")
  end.

(* ===================================================================== *)
(** ** [OrderBuilder]                                                     *)
(* ===================================================================== *)

Definition on_leg0 (f : leg -> leg) (o : order_payload) : order_payload :=
  {| orderType := orderType o; price := price o; session := session o;
     duration := duration o; orderStrategyType := orderStrategyType o;
     orderLegCollection0 := f (orderLegCollection0 o);
     childOrderStrategies := childOrderStrategies o |}.

Definition set_session (v : value) (o : order_payload) : order_payload :=
  {| orderType := orderType o; price := price o; session := v;
     duration := duration o; orderStrategyType := orderStrategyType o;
     orderLegCollection0 := orderLegCollection0 o;
     childOrderStrategies := childOrderStrategies o |}.

Definition set_duration (v : value) (o : order_payload) : order_payload :=
  {| orderType := orderType o; price := price o; session := session o;
     duration := v; orderStrategyType := orderStrategyType o;
     orderLegCollection0 := orderLegCollection0 o;
     childOrderStrategies := childOrderStrategies o |}.

Definition set_price (v : value) (o : order_payload) : order_payload :=
  {| orderType := orderType o; price := v; session := session o;
     duration := duration o; orderStrategyType := orderStrategyType o;
     orderLegCollection0 := orderLegCollection0 o;
     childOrderStrategies := childOrderStrategies o |}.

Definition set_orderStrategyType (v : value) (o : order_payload) : order_payload :=
  {| orderType := orderType o; price := price o; session := session o;
     duration := duration o; orderStrategyType := v;
     orderLegCollection0 := orderLegCollection0 o;
     childOrderStrategies := childOrderStrategies o |}.

Definition set_children (cs : child_order * child_order) (o : order_payload) : order_payload :=
  {| orderType := orderType o; price := price o; session := session o;
     duration := duration o; orderStrategyType := orderStrategyType o;
     orderLegCollection0 := orderLegCollection0 o;
     childOrderStrategies := Some cs |}.

Definition set_instruction (v : value) (l : leg) : leg :=
  {| instruction := v; quantity := quantity l; instrument_symbol := instrument_symbol l;
     instrument_assetType := instrument_assetType l; instrument_putCall := instrument_putCall l |}.

Definition set_quantity (v : value) (l : leg) : leg :=
  {| instruction := instruction l; quantity := v; instrument_symbol := instrument_symbol l;
     instrument_assetType := instrument_assetType l; instrument_putCall := instrument_putCall l |}.

Definition set_symbol (v : value) (l : leg) : leg :=
  {| instruction := instruction l; quantity := quantity l; instrument_symbol := v;
     instrument_assetType := instrument_assetType l; instrument_putCall := instrument_putCall l |}.

Definition set_assetType (v : value) (l : leg) : leg :=
  {| instruction := instruction l; quantity := quantity l; instrument_symbol := instrument_symbol l;
     instrument_assetType := v; instrument_putCall := instrument_putCall l |}.

Definition set_putCall (v : value) (l : leg) : leg :=
  {| instruction := instruction l; quantity := quantity l; instrument_symbol := instrument_symbol l;
     instrument_assetType := instrument_assetType l; instrument_putCall := Some v |}.

(** [OrderBuilder.__init__]. *)
Definition init_order : order_payload :=
  {| orderType := VStr "LIMIT"; price := VNone; session := VNone; duration := VNone;
     orderStrategyType := VStr "SINGLE";
     orderLegCollection0 :=
       {| instruction := VNone; quantity := VNone; instrument_symbol := VNone;
          instrument_assetType := VNone; instrument_putCall := None |};
     childOrderStrategies := None |}.

Definition init_obj (name acct : value) : doc :=
  list_to_map
    [("Symbol", VNone); ("Qty", VNone); ("Position_Size", VNone); ("Strategy", VNone);
     ("Trader", name); ("Order_ID", VNone); ("Order_Status", VNone); ("Side", VNone);
     ("Asset_Type", VNone); ("account_id", acct); ("Position_Type", VNone);
     ("Direction", VNone)]%string.

(** What [standardOrder] returns: [Built] is the pair of references
    [(self.order, self.obj)], which the caller reads and writes through the
    instance; [NotBuilt] is [(None, None)]. *)
Inductive built := Built | NotBuilt.

Definition obj_set (k : string) (v : value) : M unit :=
  modify (set_self_obj (insert k v)).

Definition order_set (f : order_payload -> order_payload) : M unit :=
  modify (set_self_order f).

Definition buy_sides : list value :=
  [VStr "BUY"; VStr "BUY_TO_OPEN"; VStr "BUY_TO_CLOSE"].

(** [round(price, 2) if price >= 1 else round(price, 2)], lines 134-135 of
    [order_builder.py]: the two arms are the same. *)
Definition builder_round (p : float) : float :=
  if float_ge p 1 then py_round p 2 else py_round p 2.

(** [int(position_size/price) if asset_type == "EQUITY" else
    int((position_size / 100)/price)]. *)
Definition compute_shares (asset_type : value) (position_size : Z) (p : float) : res Z :=
  if py_eq asset_type (VStr "EQUITY")
  then
    let+ size := float_of_Z position_size in
    let+ q := float_div size p in
    float_int q
  else
    let+ hundredth := int_div position_size 100 in
    let+ q := float_div hundredth p in
    float_int q.

(** The document written to the Rejected or Canceled store, the dict
    [other] of [sendOrder] and of [updateStatus]. *)
Definition audit_record (symbol order_type status strategy name date acct : value) : doc :=
  list_to_map
    [("Symbol", symbol); ("Order_Type", order_type); ("Order_Status", status);
     ("Strategy", strategy); ("Trader", name); ("Date", date); ("account_id", acct)]%string.

(** The dict [custom] that [updateStatus] passes to [pushOrder] in place of
    the broker's order when the order id is not found. *)
Definition custom_fill (p shares : value) : doc :=
  list_to_map [("price", p); ("shares", shares)]%string.

Section Trader.

Variable w : world.
Variable cfg : config.

(** [OptionSymbol(trade_data["Symbol"], trade_data["Exp_Date"],
    trade_data["Option_Type"][0], split_strike).build()]. *)
Definition format_symbol (trade_data : doc) (split_strike : value) : M string :=
  let* sym := lift (getitem trade_data "Symbol") in
  let* exp := lift (getitem trade_data "Exp_Date") in
  let* ot := lift (getitem trade_data "Option_Type") in
  let* ot0 := lift (index ot 0) in
  lift (OptionSymbol_build w sym exp ot0 split_strike).

Definition standardOrder (trade_data strategy_object : doc) (direction : value)
    (OCOorder : bool) : M built :=
  let* symbol := lift (getitem trade_data "Symbol") in
  let* pre := lift (getitem trade_data "Pre_Symbol") in
  let* length := lift (py_len pre) in
  let* pre := lift (getitem trade_data "Pre_Symbol") in
  let* split_strike := lift (py_slice_from pre (slice_start length)) in
  let* formatted_symbol := format_symbol trade_data split_strike in
  let* side := lift (getitem trade_data "Side") in
  let* strategy := lift (getitem trade_data "Strategy") in
  let asset_type :=
    if bool_decide (is_Some (trade_data !! "Pre_Symbol")) then VStr "OPTION" else VStr "EQUITY" in
  let is_equity := py_eq asset_type (VStr "EQUITY") in
  (* SCHWAB ORDER OBJECT *)
  let* _ := order_set (set_session (VStr "NORMAL")) in
  let* _ := order_set (set_duration (if is_equity then VStr "GOOD_TILL_CANCEL" else VStr "DAY")) in
  let* _ := order_set (on_leg0 (set_instruction side)) in
  let* _ := order_set (on_leg0 (set_symbol (if is_equity then symbol else VStr formatted_symbol))) in
  let* _ := order_set (on_leg0 (set_assetType asset_type)) in
  (* MONGO OBJECT *)
  let* _ := obj_set "Symbol" symbol in
  let* _ := obj_set "Strategy" strategy in
  let* _ := obj_set "Side" side in
  let* _ := obj_set "Asset_Type" asset_type in
  let* pt := lift (getitem strategy_object "Position_Type") in
  let* _ := obj_set "Position_Type" pt in
  let* ot := lift (getitem strategy_object "Order_Type") in
  let* _ := obj_set "Order_Type" ot in
  let* _ := obj_set "Direction" direction in
  (* IF OPTION *)
  let* _ :=
    if py_eq asset_type (VStr "OPTION") then
      let* _ := obj_set "Pre_Symbol" (VStr formatted_symbol) in
      let* exp := lift (getitem trade_data "Exp_Date") in
      let* _ := obj_set "Exp_Date" exp in
      let* opt := lift (getitem trade_data "Option_Type") in
      let* _ := obj_set "Option_Type" opt in
      let* opt := lift (getitem trade_data "Option_Type") in
      order_set (on_leg0 (set_putCall opt))
    else ret tt in
  (* GET QUOTE FOR SYMBOL: [symbol.json()] does not exist on a symbol *)
  let* resp :=
    if is_equity then raise AttributeError
    else ask_res (fun t => client_quote w t formatted_symbol) in
  let key := if is_equity then symbol else VStr formatted_symbol in
  let quote_field (f : string) : M float :=
    let* r := lift (getitem_v resp key) in
    let* q := lift (subscript r "quote") in
    let* a := lift (subscript q f) in
    lift (py_float a) in
  let* p :=
    if py_in_list side buy_sides then quote_field "askPrice" else quote_field "bidPrice" in
  let* p :=
    if OCOorder then
      let* _ := format_symbol trade_data split_strike in
      quote_field "bidPrice"
    else ret p in
  let* _ := order_set (set_price (VFloat (builder_round p))) in
  if py_eq direction (VStr "OPEN POSITION") then
    let* ps := lift (getitem strategy_object "Position_Size") in
    let* position_size := lift (py_int ps) in
    let* shares := lift (compute_shares asset_type position_size p) in
    let* active := lift (getitem strategy_object "Active") in
    if truthy active && (0 <? shares) then
      let* _ := order_set (on_leg0 (set_quantity (VInt shares))) in
      let* _ := obj_set "Qty" (VInt shares) in
      let* _ := obj_set "Position_Size" (VInt position_size) in
      let* _ := obj_set "Entry_Price" (VFloat p) in
      let* now := ask (getDatetime w) in
      let* _ := obj_set "Entry_Date" now in
      ret Built
    else
      let* active := lift (getitem strategy_object "Active") in
      let* _ := warning "ORDER STOPPED" [side; active; VInt shares] in
      ret NotBuilt
  else if py_eq direction (VStr "CLOSE POSITION") then
    let* qty := lift (getitem trade_data "Qty") in
    let* _ := order_set (on_leg0 (set_quantity qty)) in
    let* ep := lift (getitem trade_data "Entry_Price") in
    let* _ := obj_set "Entry_Price" ep in
    let* ed := lift (getitem trade_data "Entry_Date") in
    let* _ := obj_set "Entry_Date" ed in
    let* _ := obj_set "Exit_Price" (VFloat p) in
    let* now := ask (getDatetime w) in
    let* _ := obj_set "Exit_Date" now in
    let* qty := lift (getitem trade_data "Qty") in
    let* _ := obj_set "Qty" qty in
    let* psz := lift (getitem trade_data "Position_Size") in
    let* _ := obj_set "Position_Size" psz in
    ret Built
  else ret Built.

(** [round(x, 2) if x >= 1 else round(x, 2)] for the bracket legs. *)
Definition leg_price (p factor : float) : float := builder_round (float_mul p factor).

(** The inverse of the side; any other side leaves [instruction] unbound. *)
Definition inverse_side (side : value) : option string :=
  if py_eq side (VStr "BUY_TO_OPEN") then Some "SELL_TO_CLOSE"
  else if py_eq side (VStr "BUY") then Some "SELL"
  else if py_eq side (VStr "SELL") then Some "BUY"
  else if py_eq side (VStr "SELL_TO_OPEN") then Some "BUY_TO_CLOSE"
  else None.

Definition OCOorder (trade_data strategy_object : doc) (direction : value) : M built :=
  let* b := standardOrder trade_data strategy_object direction true in
  let asset_type :=
    if bool_decide (is_Some (trade_data !! "Pre_Symbol")) then VStr "OPTION" else VStr "EQUITY" in
  let* side := lift (getitem trade_data "Side") in
  let instruction := inverse_side side in
  let* symbol := lift (getitem trade_data "Symbol") in
  let* pre := lift (getitem trade_data "Pre_Symbol") in
  let* length := lift (py_len pre) in
  let* pre := lift (getitem trade_data "Pre_Symbol") in
  let* split_strike := lift (py_slice_from pre (slice_start length)) in
  let* formatted_symbol := format_symbol trade_data split_strike in
  match b with
  | NotBuilt => raise TypeError        (* [order] is [None] *)
  | Built =>
      let* _ := order_set (set_orderStrategyType (VStr "TRIGGER")) in
      let* o := get self_order in
      let* p := lift (match price o with VFloat f => Ok f | _ => Raise TypeError end) in
      let child (kind : string) (factor : float) : M child_order :=
        match instruction with
        | None => raise NameError
        | Some i =>
            let* obj := get self_obj in
            let* qty := lift (getitem obj "Qty") in
            let* sym :=
              if py_eq asset_type (VStr "EQUITY") then lift (getitem trade_data "Symbol")
              else ret (VStr formatted_symbol) in
            ret {| c_orderType := kind; c_price := leg_price p factor;
                   c_leg := {| instruction := VStr i; quantity := qty;
                               instrument_symbol := sym;
                               instrument_assetType := asset_type;
                               instrument_putCall := None |} |}
        end in
      let* take_profit := child "LIMIT" (TAKE_PROFIT_PERCENTAGE cfg) in
      let* stop_loss := child "STOP" (STOP_LOSS_PERCENTAGE cfg) in
      let* _ := order_set (set_children (take_profit, stop_loss)) in
      ret Built
  end.

(* ===================================================================== *)
(** ** [ApiTrader]                                                        *)
(* ===================================================================== *)

Definition key_query (name symbol strategy : value) : query :=
  [("Trader", CEq name); ("Symbol", CEq symbol); ("Strategy", CEq strategy)]%string.

Definition key_query_acct (name symbol strategy : value) : query :=
  key_query name symbol strategy ++ [("account_id"%string, CEq (account_id cfg))].

(** STEP TWO: [queueOrder(order)], where [order] is [self.obj]. *)
Definition queueOrder : M (option unit) :=
  exception_handler (
    let* order := get self_obj in
    let* name := user_name in
    let* symbol := lift (getitem order "Symbol") in
    let* strategy := lift (getitem order "Strategy") in
    modify (set_store (on_queue (update_one_set (key_query name symbol strategy) order true)))).

(** [resp.json().get("error", "Unknown error")] under its [try]. *)
Definition error_message (r : response) : value :=
  match resp_json r with
  | Ok (VDict d) => default (VStr "Unknown error") (d !! "error")
  | _ => VStr "Unknown error"
  end.

(** [int((resp.headers["Location"]).split("/")[-1].strip())]. *)
Definition order_id_of (r : response) : res Z :=
  match header r "Location" with
  | None => Raise (KeyError "Location")
  | Some loc =>
      match parse_int (strip (last_segment "/" loc)) with
      | Some z => Ok z
      | None => Raise ValueError
      end
  end.

(** [randint(100_000_000, 999_999_999)]. *)
Definition randint (t : nat) : Z := 100000000 + (random w t) mod 900000000.

(** The second half of [sendOrder] (from "PLACE ORDER IF LIVE TRADER" on),
    reached when [standardOrder] or [OCOorder] returned the pair
    [(self.order, self.obj)]. *)
Definition place_and_queue (symbol strategy side : value) : M unit :=
  let* placed_ok :=
    if RUN_LIVE_TRADER cfg then
      let* accountNumber := ask_res (client_account_linked w) in
      let* first := lift (index accountNumber 0) in
      let* accountHash := lift (subscript first "hashValue") in
      let* order := get self_order in
      let* _ := modify (add_placed order) in
      let* resp := ask_res (fun t => client_order_place w t accountHash order) in
      if negb (py_in_list (VInt (status_code resp)) [VInt 200; VInt 201]) then
        let* name := user_name in
        let* now := ask (getDatetime w) in
        let other :=
          audit_record symbol side (VStr "REJECTED") strategy name now (account_id cfg) in
        let* name := user_name in
        let* _ := info "Rejected" [symbol; name; error_message resp] in
        let* _ := modify (set_store (on_rejected (insert_one other))) in
        ret false
      else
        let* id := lift (order_id_of resp) in
        let* _ := obj_set "Order_ID" (VInt id) in
        let* _ := obj_set "Account_Position" (VStr "Live") in
        ret true
    else
      let* r := ask randint in
      let* _ := obj_set "Order_ID" (VInt (-1 * r)) in
      let* _ := obj_set "Account_Position" (VStr "Paper") in
      ret true in
  if placed_ok then
    let* _ := obj_set "Order_Status" (VStr "QUEUED") in
    let* _ := queueOrder in
    info "Order for Symbol" [VBool (RUN_LIVE_TRADER cfg); side; symbol]
  else ret tt.

(** STEP ONE: [sendOrder]. *)
Definition sendOrder (trade_data strategy_object : doc) (direction : value) : M (option unit) :=
  exception_handler (
    let* valid := ask (checkTokenValidity w) in
    if negb valid then error "Token validity check failed in sendOrder" []
    else
      let* symbol := lift (getitem trade_data "Symbol") in
      let* strategy := lift (getitem trade_data "Strategy") in
      let* side := lift (getitem trade_data "Side") in
      let* order_type := lift (getitem strategy_object "Order_Type") in
      let* b :=
        if py_eq order_type (VStr "STANDARD")
        then let* r := standardOrder trade_data strategy_object direction false in ret (Some r)
        else if py_eq order_type (VStr "OCO")
        then let* r := OCOorder trade_data strategy_object direction in ret (Some r)
        else ret None in
      match b with
      | None => error "Unknown order type" [order_type]
      | Some NotBuilt => ret tt
      | Some Built => place_and_queue symbol strategy side
      end).

(** [round(price, 2) if price >= 1 else round(price, 4)], line 309 of
    [api_trader/__init__.py]; [round] of an [int] is that [int]. *)
Definition fill_round (p : float) : float :=
  if float_ge p 1 then py_round p 2 else py_round p 4.

Definition resolve_price (v : value) : res value :=
  match v with
  | VFloat f => Ok (VFloat (fill_round f))
  | VInt z => Ok (VInt z)
  | VBool b => Ok (VInt (if b then 1 else 0))
  | _ => Raise TypeError
  end.

(** The price and the quantity of the fill: the broker's execution leg
    when the order carries one, the queued record's own otherwise. *)
Definition fill_of (queue_order spec_order : doc) : res (value * Z) :=
  if bool_decide (is_Some (spec_order !! "orderActivityCollection")) then
    let+ oac := getitem spec_order "orderActivityCollection" in
    let+ a0 := index oac 0 in
    let+ legs := subscript a0 "executionLegs" in
    let+ l0 := index legs 0 in
    let+ p := subscript l0 "price" in
    let+ q := getitem spec_order "quantity" in
    let+ shares := py_int q in
    Ok (p, shares)
  else
    let+ p := getitem spec_order "price" in
    let+ q := getitem queue_order "Qty" in
    let+ shares := py_int q in
    Ok (p, shares).

(** STEP FOUR: [pushOrder(queue_order, spec_order, data_integrity)]. *)
Definition pushOrder (queue_order spec_order : doc) (data_integrity : value) : M (option unit) :=
  exception_handler (
    let* symbol := lift (getitem queue_order "Symbol") in
    let* fill := lift (fill_of queue_order spec_order) in
    let shares := fill.2 in
    let* p := lift (resolve_price fill.1) in
    let* strategy := lift (getitem queue_order "Strategy") in
    let* side := lift (getitem queue_order "Side") in
    let* acct := lift (getitem queue_order "account_id") in
    let* position_size := lift (getitem queue_order "Position_Size") in
    let* asset_type := lift (getitem queue_order "Asset_Type") in
    let* position_type := lift (getitem queue_order "Position_Type") in
    let* direction := lift (getitem queue_order "Direction") in
    let* account_position := lift (getitem queue_order "Account_Position") in
    let* order_type := lift (getitem queue_order "Order_Type") in
    let* name := user_name in
    let obj : doc :=
      list_to_map
        [("Symbol", symbol); ("Strategy", strategy); ("Position_Size", position_size);
         ("Position_Type", position_type); ("Data_Integrity", data_integrity);
         ("Trader", name); ("account_id", acct); ("Asset_Type", asset_type);
         ("Account_Position", account_position); ("Order_Type", order_type)]%string in
    let* obj :=
      if py_eq asset_type (VStr "OPTION") then
        let* pre := lift (getitem queue_order "Pre_Symbol") in
        let* exp := lift (getitem queue_order "Exp_Date") in
        let* opt := lift (getitem queue_order "Option_Type") in
        ret (<["Option_Type" := opt]> (<["Exp_Date" := exp]> (<["Pre_Symbol" := pre]> obj)))
      else ret obj in
    let live := VBool (RUN_LIVE_TRADER cfg) in
    let* r :=
      if py_eq direction (VStr "OPEN POSITION") then
        let* now := ask (getDatetime w) in
        let obj := <["Entry_Date" := now]> (<["Entry_Price" := p]> (<["Qty" := VInt shares]> obj)) in
        let* now := ask (getDatetime w) in
        let* name := user_name in
        ret (obj, Some on_open_positions,
             [VStr ">>>>"; side; symbol; VInt shares; p; strategy; asset_type; now; name; live])
      else if py_eq direction (VStr "CLOSE POSITION") then
        let* name := user_name in
        let* opens := get (fun s => open_positions (store s)) in
        let* position :=
          lift (match find_one (key_query name symbol strategy) opens with
                | Some d => Ok d
                | None => Raise TypeError
                end) in
        let* qty := lift (getitem position "Qty") in
        let* ep := lift (getitem position "Entry_Price") in
        let* ed := lift (getitem position "Entry_Date") in
        let* now := ask (getDatetime w) in
        let obj :=
          <["Exit_Date" := now]> (<["Exit_Price" := p]> (<["Entry_Date" := ed]>
            (<["Entry_Price" := ep]> (<["Qty" := qty]> obj)))) in
        let* qty := lift (getitem position "Qty") in
        let* ep := lift (getitem position "Entry_Price") in
        let* ed := lift (getitem position "Entry_Date") in
        let* now := ask (getDatetime w) in
        let* name' := user_name in
        let message :=
          [VStr "____"; side; symbol; qty; ep; ed; p; now; strategy; asset_type; name'; live] in
        (* REMOVE FROM OPEN POSITIONS *)
        let* name := user_name in
        let* opens := get (fun s => open_positions (store s)) in
        let removed := delete_one (key_query name symbol strategy) opens in
        let* _ := modify (set_store (on_open_positions (fun _ => removed.1))) in
        let* _ :=
          if removed.2 =? 0 then
            let* _ := error "INITIAL FAIL OF DELETING OPEN POSITION" [symbol] in
            let* retry := exception_handler (
              let* name := user_name in
              modify (set_store (on_open_positions
                (fun c => (delete_one (key_query name symbol strategy) c).1)))) in
            ret tt
          else ret tt in
        ret (obj, Some on_closed_positions, message)
      else ret (obj, None, [VNone]) in
    let '(obj, collection_insert, message_to_push) := r in
    let* _ :=
      match collection_insert with
      | Some on_collection => modify (set_store (on_collection (insert_one obj)))
      | None => error "insert failed" []
      end in
    let* _ := info "Pushing Order" [side; symbol; direction] in
    (* REMOVE FROM QUEUE *)
    let* name := user_name in
    let* _ := modify (set_store (on_queue
      (fun c => (delete_one (key_query_acct name symbol strategy) c).1))) in
    modify (add_pushed message_to_push)).

(* --------------------------------------------------------------------- *)
(** *** [Tasks.extractOCOchildren] and [Tasks.addNewStrategy] *)

(** [k in v] for a string [k]: a key of a dict, an element of a list, a
    substring of a string. *)
Fixpoint is_prefix (p l : list ascii) : bool :=
  match p, l with
  | [], _ => true
  | c :: p', d :: l' => bool_decide (c = d) && is_prefix p' l'
  | _ :: _, [] => false
  end.

Fixpoint is_infix (p l : list ascii) : bool :=
  is_prefix p l || match l with [] => false | _ :: l' => is_infix p l' end.

Definition has_key (v : value) (k : string) : res bool :=
  match v with
  | VDict d => Ok (bool_decide (is_Some (d !! k)))
  | VIdMap m => Ok (bool_decide (is_Some (items_get (VStr k) m)))
  | VList l => Ok (py_in_list (VStr k) l)
  | VStr s => Ok (is_infix (list_ascii_of_string k) (list_ascii_of_string s))
  | _ => Raise TypeError
  end.

(** What [for x in v] goes through: the elements of a list, the characters
    of a string, the keys of a dict. *)
Definition py_iter (v : value) : res (list value) :=
  match v with
  | VList l => Ok l
  | VStr s => Ok ((fun c => VStr (String c EmptyString)) <$> list_ascii_of_string s)
  | VDict d => Ok ((fun kv => VStr kv.1) <$> map_to_list d)
  | VIdMap m => Ok (fst <$> m)
  | _ => Raise TypeError
  end.

(** The entry written for one child order, and the id it is written under:
    the value is built first, then the key is read and hashed. *)
Definition oco_entry (child : value) : res (value * value) :=
  let+ legs := subscript child "orderLegCollection" in
  let+ l0 := index legs 0 in
  let+ side := subscript l0 "instruction" in
  let+ stop := has_key child "stopPrice" in
  let+ exit_price := subscript child (if stop then "stopPrice" else "price") in
  let+ status := subscript child "status" in
  let+ id := subscript child "orderId" in
  if hashable id then
    Ok (id, VDict (list_to_map
              [("Side", side); ("Exit_Price", exit_price);
               ("Exit_Type", VStr (if stop then "STOP LOSS" else "TAKE PROFIT"));
               ("Order_Status", status)]%string))
  else Raise TypeError.

(** The loop over the children, filling the map in order. *)
Fixpoint oco_loop (children : list value) (acc : list (value * value))
    : res (list (value * value)) :=
  match children with
  | [] => Ok acc
  | child :: rest =>
      match oco_entry child with
      | Ok (id, e) => oco_loop rest (items_set id e acc)
      | Raise e => Raise e
      end
  end.

Definition extractOCOchildren (spec_order : doc) : M (option doc) :=
  exception_handler (
    let* cs := lift (getitem spec_order "childOrderStrategies") in
    let* c0 := lift (index cs 0) in
    let* children := lift (subscript c0 "childOrderStrategies") in
    let* l := lift (py_iter children) in
    let* m := lift (oco_loop l []) in
    ret ({["childOrderStrategies"%string := VIdMap m]} : doc)).

Definition addNewStrategy (strategy asset_type : value) : M (option unit) :=
  exception_handler (
    let obj : doc :=
      list_to_map
        [("Active", VBool true); ("Order_Type", VStr "STANDARD"); ("Asset_Type", asset_type);
         ("Position_Size", VInt 500); ("Position_Type", VStr "LONG");
         ("account_id", account_id cfg); ("Strategy", strategy)]%string in
    modify (set_store (on_strategies
      (update_one_set_on_insert [("Strategy"%string, CEq strategy)] obj)))).

(* --------------------------------------------------------------------- *)
(** *** STEP THREE: [updateStatus] *)

(** [spec_order.get(k)]. *)
Definition dict_get (d : doc) (k : string) : value := default VNone (d !! k).

(** The body of the loop over the queued orders. *)
Definition updateStatus_body (queue_order : doc) : M unit :=
  let* id := lift (getitem queue_order "Order_ID") in
  let* spec_order := ask_res (fun t => schwab_get_order w t id) in
  (* ORDER ID NOT FOUND. ASSUME REMOVED OR PAPER TRADING *)
  if bool_decide (is_Some (spec_order !! "error")) then
    let* direction := lift (getitem queue_order "Direction") in
    let* p :=
      if py_eq direction (VStr "OPEN POSITION")
      then lift (getitem queue_order "Entry_Price")
      else lift (getitem queue_order "Exit_Price") in
    let* shares := lift (getitem queue_order "Qty") in
    let custom := custom_fill p shares in
    let* data_integrity :=
      if RUN_LIVE_TRADER cfg then
        let* sy := lift (getitem queue_order "Symbol") in
        let* ot := lift (getitem queue_order "Order_Type") in
        let* di := lift (getitem queue_order "Direction") in
        let* _ := warning "Order ID Not Found" [sy; ot; di] in
        ret (VStr "Assumed")
      else
        let* _ := info "Paper Trader - Sending Queue Order To PushOrder" [] in
        ret (VStr "Reliable") in
    let* _ := pushOrder queue_order custom data_integrity in
    ret tt
  else
    let new_status := dict_get spec_order "status" in
    let* order_type := lift (getitem queue_order "Order_Type") in
    let* id := lift (getitem queue_order "Order_ID") in
    if py_eq id (dict_get spec_order "orderId") then
      if py_eq new_status (VStr "FILLED") then
        let* ot := lift (getitem queue_order "Order_Type") in
        let* queue_order :=
          if py_eq ot (VStr "OCO") then
            let* children := extractOCOchildren spec_order in
            match children with
            | Some c => ret (c ∪ queue_order)
            | None => raise TypeError
            end
          else ret queue_order in
        let* _ := pushOrder queue_order spec_order (VStr "Reliable") in
        ret tt
      else if py_in_list new_status [VStr "CANCELED"; VStr "REJECTED"] then
        let* name := user_name in
        let* symbol := lift (getitem queue_order "Symbol") in
        let* strategy := lift (getitem queue_order "Strategy") in
        let* _ := modify (set_store (on_queue
          (fun c => (delete_one (key_query_acct name symbol strategy) c).1))) in
        let* symbol := lift (getitem queue_order "Symbol") in
        let* strategy := lift (getitem queue_order "Strategy") in
        let* name := user_name in
        let* now := ask (getDatetime w) in
        let other :=
          audit_record symbol order_type new_status strategy name now (account_id cfg) in
        let* _ :=
          if py_eq new_status (VStr "REJECTED")
          then modify (set_store (on_rejected (insert_one other)))
          else modify (set_store (on_canceled (insert_one other))) in
        let* symbol := lift (getitem queue_order "Symbol") in
        info "Order For" [new_status; symbol]
      else
        let* name := user_name in
        let* symbol := lift (getitem queue_order "Symbol") in
        let* strategy := lift (getitem queue_order "Strategy") in
        modify (set_store (on_queue
          (update_one_set (key_query name symbol strategy)
                          {["Order_Status"%string := new_status]} false)))
    else ret tt.

Fixpoint for_each {A} (body : A -> M unit) (l : list A) : M unit :=
  match l with
  | [] => ret tt
  | x :: l' => let* _ := body x in for_each body l'
  end.

(** The cursor of [self.queue.find] is read when the loop starts. *)
Definition updateStatus : M (option unit) :=
  exception_handler (
    let* valid := ask (checkTokenValidity w) in
    if negb valid then error "Token validity check failed in updateStatus" []
    else
      let* name := user_name in
      let* q := get (fun s => queue (store s)) in
      let queued_orders :=
        find [("Trader", CEq name); ("Order_ID", CNe VNone);
              ("account_id", CEq (account_id cfg))]%string q in
      for_each updateStatus_body queued_orders).

(* --------------------------------------------------------------------- *)
(** *** [runTrader] *)

(** [symbol in forbidden_symbols], where [forbidden_symbols] is the cursor
    of [self.mongo.forbidden.find(...)]: a cursor has no membership method,
    so Python iterates it and compares [symbol] with each document; the
    cursor keeps what it has not yet yielded. *)
Fixpoint in_cursor (x : value) (cursor : list doc) : bool * list doc :=
  match cursor with
  | [] => (false, [])
  | d :: rest => if py_eq x (VDict d) then (true, rest) else in_cursor x rest
  end.

Definition closing_pair (side position_type : value) : bool :=
  (py_eq side (VStr "BUY") && py_eq position_type (VStr "SHORT"))
  || (py_eq side (VStr "SELL") && py_eq position_type (VStr "LONG"))
  || (py_eq side (VStr "SELL_TO_CLOSE") && py_eq position_type (VStr "LONG"))
  || (py_eq side (VStr "BUY_TO_CLOSE") && py_eq position_type (VStr "SHORT")).

Definition opening_pair (side position_type : value) : bool :=
  (py_eq side (VStr "BUY") && py_eq position_type (VStr "LONG"))
  || (py_eq side (VStr "SELL") && py_eq position_type (VStr "SHORT"))
  || (py_eq side (VStr "SELL_TO_OPEN") && py_eq position_type (VStr "SHORT"))
  || (py_eq side (VStr "BUY_TO_OPEN") && py_eq position_type (VStr "LONG")).

(** The branch on [open_position] and the forbidden symbols: the direction
    to send, if any, and what is left of the cursor. *)
Definition decide_direction (open_position : option doc) (symbol side position_type : value)
    (forbidden_symbols : list doc) : option value * list doc :=
  match open_position with
  | Some _ =>
      (if closing_pair side position_type then Some (VStr "CLOSE POSITION") else None,
       forbidden_symbols)
  | None =>
      let r := in_cursor symbol forbidden_symbols in
      if negb r.1 then
        (if opening_pair side position_type then Some (VStr "OPEN POSITION") else None, r.2)
      else (None, r.2)
  end.

(** The body of the loop over the rows of [trade_data]; it returns the
    cursor for the next row. *)
Definition runTrader_body (row : doc) (forbidden_symbols : list doc) : M (list doc) :=
  let* strategy := lift (getitem row "Strategy") in
  let* symbol := lift (getitem row "Symbol") in
  let* asset_type := lift (getitem row "Asset_Type") in
  let* side := lift (getitem row "Side") in
  (* CHECK OPEN POSITIONS AND QUEUE *)
  let* name := user_name in
  let* opens := get (fun s => open_positions (store s)) in
  let open_position := find_one (key_query_acct name symbol strategy) opens in
  let* name := user_name in
  let* q := get (fun s => queue (store s)) in
  let queued := find_one (key_query_acct name symbol strategy) q in
  let strategy_query : query :=
    [("Strategy", CEq strategy); ("account_id", CEq (account_id cfg))]%string in
  let* strats := get (fun s => strategies (store s)) in
  let* strategy_object :=
    match find_one strategy_query strats with
    | Some so => ret (Some so)
    | None =>
        let* _ := addNewStrategy strategy asset_type in
        let* strats := get (fun s => strategies (store s)) in
        ret (find_one [("account_id", CEq (account_id cfg)); ("Strategy", CEq strategy)]%string
                      strats)
    end in
  let* strategy_object :=
    lift (match strategy_object with Some so => Ok so | None => Raise TypeError end) in
  let* position_type := lift (getitem strategy_object "Position_Type") in
  let row := <["Position_Type" := position_type]> row in
  match queued with
  | Some _ => ret forbidden_symbols
  | None =>
      let d := decide_direction open_position symbol side position_type forbidden_symbols in
      match d.1 with
      | None => ret d.2
      | Some direction =>
          let* _ :=
            sendOrder (match open_position with
                       | None => row
                       | Some op => op ∪ row
                       end)
                      strategy_object direction in
          ret d.2
      end
  end.

Fixpoint runTrader_loop (trade_data : list doc) (forbidden_symbols : list doc) : M unit :=
  match trade_data with
  | [] => ret tt
  | row :: rest =>
      let* cursor := runTrader_body row forbidden_symbols in
      runTrader_loop rest cursor
  end.

Definition runTrader (trade_data : list doc) : M (option unit) :=
  exception_handler (
    let* valid := ask (checkTokenValidity w) in
    if negb valid then error "Token validity check failed in runTrader" []
    else
      let* _ := info "RUN TRADER" [] in
      let* _ := updateStatus in
      (* Update user info from DB *)
      let* name := user_name in
      let* us := get (fun s => users (store s)) in
      let* _ :=
        modify (set_self_user
          (match find_one [("Name"%string, CEq name)] us with
           | Some u => VDict u
           | None => VNone
           end)) in
      (* FORBIDDEN SYMBOLS *)
      let* f := get (fun s => forbidden (store s)) in
      let forbidden_symbols :=
        find [("account_id"%string, CEq (VStr (account_id_str cfg)))] f in
      runTrader_loop trade_data forbidden_symbols).

End Trader.

(* ===================================================================== *)
(** ** Concrete scenarios                                                 *)
(* ===================================================================== *)

Module Scenario.

Local Open Scope string_scope.

(** The float that the decimal [q] denotes, and the exact value of a
    finite float. *)
Definition flt (q : Q) : value := VFloat (b64 q).

Definition exact (f : float) : Q :=
  match f with
  | Fin q => q
  | _ => 0
  end.

Definition quote_reply (sym : string) (bid ask : Q) : doc :=
  {[ sym := VDict {[ "quote" :=
       VDict (<["askPrice" := flt ask]> {[ "bidPrice" := flt bid ]}) ]} ]}.

Definition reply (status : Z) (body : res value) (location : option string) : response :=
  {| status_code := status; resp_json := body;
     header := fun k => if bool_decide (k = "Location") then location else None |}.

Fixpoint zeros (n : nat) : string :=
  match n with
  | O => ""
  | S n' => "0" ++ zeros n'
  end.

(** A stand-in for [OptionSymbol(...).build()]: it refuses a strike that is
    not a positive number, as the library does, and lays the symbol out as
    underlying, expiration, right and the strike in thousandths on eight
    digits; every scenario expires on 2025-09-26. *)
Definition occ_symbol (underlying expiration right strike : value) : res string :=
  match underlying, right, strike with
  | VStr u, VStr r, VStr k =>
      match parse_decimal (list_ascii_of_string k) with
      | Some q =>
          let thousandths := Qfloor (q * 1000) in
          if (0 <? thousandths)%Z
          then let digits := pretty thousandths in
               Ok (u ++ "   250926" ++ r ++ zeros (8 - String.length digits)%nat ++ digits)
          else Raise ValueError
      | None => Raise ValueError
      end
  | _, _, _ => Raise ValueError
  end.

(** A broker that quotes [bid]/[ask] for every symbol, answers every order
    placement with [placement] and every status request with [order]. *)
Definition broker (bid ask : Q) (placement : response) (order : doc) : world :=
  {| checkTokenValidity := fun _ => true;
     OptionSymbol_build := occ_symbol;
     client_quote := fun _ sym => Ok (quote_reply sym bid ask);
     client_account_linked := fun _ => Ok (VList [VDict {[ "hashValue" := VStr "HASH" ]}]);
     client_order_place := fun _ _ _ => Ok placement;
     schwab_get_order := fun _ _ => Ok order;
     getDatetime := fun t => VDate (Z.of_nat t);
     random := fun _ => 0 |}.

Definition accepted : response :=
  reply 201 (Raise ValueError) (Some "https://api.schwabapi.com/trader/v1/accounts/HASH/orders/1001").

Definition not_found : doc := {[ "error" := VStr "Order not found" ]}.

Definition account (live : bool) : config :=
  {| account_id := VStr "A1"; account_id_str := "A1"; RUN_LIVE_TRADER := live;
     TAKE_PROFIT_PERCENTAGE := b64 (11 # 10); STOP_LOSS_PERCENTAGE := b64 (9 # 10) |}.

Definition trader : doc := {[ "Name" := VStr "Trey" ]}.

Definition strategy_doc (name : string) (active : bool) (order_type : string) (size : Z)
    (position_type : string) : doc :=
  list_to_map
    [("Active", VBool active); ("Order_Type", VStr order_type); ("Asset_Type", VStr "OPTION");
     ("Position_Size", VInt size); ("Position_Type", VStr position_type);
     ("account_id", VStr "A1"); ("Strategy", VStr name)].

Definition empty_db : db :=
  {| open_positions := []; closed_positions := []; queue := []; rejected := [];
     canceled := []; strategies := []; forbidden := []; users := [trader] |}.

Definition fresh (d : db) : state :=
  {| store := d; self_user := VDict trader; self_order := init_order;
     self_obj := init_obj (VStr "Trey") (VStr "A1");
     logged := []; pushed := []; placed := []; clock := 0 |}.

(** The signal shown in the comment of [standardOrder]. *)
Definition option_signal (side : string) : doc :=
  list_to_map
    [("Symbol", VStr "SPY"); ("Side", VStr side); ("Strategy", VStr "SPY_SCAN_OPT_SELL");
     ("Asset_Type", VStr "OPTION"); ("Pre_Symbol", VStr "SPY_092625P569");
     ("Exp_Date", VDate 20250926); ("Option_Type", VStr "PUT")].

(** The same signal for the strike 9.5. *)
Definition half_strike_signal (side : string) : doc :=
  <["Pre_Symbol" := VStr "SPY_092625P9.5"]> (option_signal side).

(** The equity signal of the scenario in section 8 of the specification. *)
Definition equity_signal : doc :=
  list_to_map
    [("Symbol", VStr "SPY"); ("Side", VStr "BUY"); ("Strategy", VStr "S1");
     ("Asset_Type", VStr "EQUITY")].

(** An open position of the strategy above, as [pushOrder] stores it; the
    strike is 569.5. *)
Definition held_position : doc :=
  list_to_map
    [("Symbol", VStr "SPY"); ("Strategy", VStr "SPY_SCAN_OPT_SELL");
     ("Position_Size", VInt 500); ("Position_Type", VStr "LONG");
     ("Data_Integrity", VStr "Reliable"); ("Trader", VStr "Trey");
     ("account_id", VStr "A1"); ("Asset_Type", VStr "OPTION");
     ("Account_Position", VStr "Live"); ("Order_Type", VStr "STANDARD");
     ("Pre_Symbol", VStr "SPY   250926P00569500"); ("Exp_Date", VDate 20250926);
     ("Option_Type", VStr "PUT"); ("Qty", VInt 4); ("Entry_Price", flt (5 # 4));
     ("Entry_Date", VDate 1)].

(** The record that [sendOrder] queues for the opening order of that
    position, with the id the broker gave it. *)
Definition queued_order : doc :=
  list_to_map
    [("Symbol", VStr "SPY"); ("Qty", VInt 4); ("Position_Size", VInt 500);
     ("Strategy", VStr "SPY_SCAN_OPT_SELL"); ("Trader", VStr "Trey");
     ("Order_ID", VInt 1001); ("Order_Status", VStr "QUEUED"); ("Side", VStr "BUY_TO_OPEN");
     ("Asset_Type", VStr "OPTION"); ("account_id", VStr "A1");
     ("Position_Type", VStr "LONG"); ("Direction", VStr "OPEN POSITION");
     ("Order_Type", VStr "STANDARD"); ("Pre_Symbol", VStr "SPY   250926P00569500");
     ("Exp_Date", VDate 20250926); ("Option_Type", VStr "PUT");
     ("Entry_Price", flt (12345 # 10000)); ("Entry_Date", VDate 1);
     ("Account_Position", VStr "Live")].

(** The record that [sendOrder] queues for the order that closes that
    position, here for 4 contracts at 1.30. *)
Definition queued_close : doc :=
  list_to_map
    [("Symbol", VStr "SPY"); ("Qty", VInt 4); ("Position_Size", VInt 500);
     ("Strategy", VStr "SPY_SCAN_OPT_SELL"); ("Trader", VStr "Trey");
     ("Order_ID", VInt 1002); ("Order_Status", VStr "QUEUED"); ("Side", VStr "SELL_TO_CLOSE");
     ("Asset_Type", VStr "OPTION"); ("account_id", VStr "A1");
     ("Position_Type", VStr "LONG"); ("Direction", VStr "CLOSE POSITION");
     ("Order_Type", VStr "STANDARD"); ("Pre_Symbol", VStr "SPY   250926P00569500");
     ("Exp_Date", VDate 20250926); ("Option_Type", VStr "PUT");
     ("Entry_Price", flt (5 # 4)); ("Entry_Date", VDate 1);
     ("Exit_Price", flt (13 # 10)); ("Exit_Date", VDate 2);
     ("Account_Position", VStr "Live")].

(** A child order of a bracket, as the broker reports it. *)
Definition child (id : Z) (instruction : string) (price_key : string) (p : Q)
    (status : string) : value :=
  VDict (list_to_map
    [("orderId", VInt id); ("status", VStr status); (price_key, flt p);
     ("orderLegCollection", VList [VDict {[ "instruction" := VStr instruction ]}])]).

(** The broker's answer for the filled bracket order 1001: a take-profit
    LIMIT child and a stop-loss STOP child. *)
Definition filled_bracket : doc :=
  list_to_map
    [("orderId", VInt 1001); ("status", VStr "FILLED"); ("quantity", flt 4);
     ("orderActivityCollection",
      VList [VDict {[ "executionLegs" := VList [VDict {[ "price" := flt (5 # 4) ]}] ]}]);
     ("childOrderStrategies",
      VList [VDict {[ "childOrderStrategies" :=
        VList [child 1002 "SELL_TO_CLOSE" "price" (11 # 8) "WORKING";
               child 1003 "SELL_TO_CLOSE" "stopPrice" (9 # 8) "WORKING"] ]}])].

(** The broker's answer for an order that is still working. *)
Definition working : doc := <["orderId" := VInt 1001]> {[ "status" := VStr "WORKING" ]}.

Definition with_strategies (l : list doc) (d : db) : db := on_strategies (fun _ => l) d.
Definition with_open_positions (l : list doc) (d : db) : db := on_open_positions (fun _ => l) d.
Definition with_queue (l : list doc) (d : db) : db := on_queue (fun _ => l) d.

Definition with_forbidden (l : list doc) (d : db) : db :=
  {| open_positions := open_positions d; closed_positions := closed_positions d;
     queue := queue d; rejected := rejected d; canceled := canceled d;
     strategies := strategies d; forbidden := l; users := users d |}.

(** What the properties look at in a collection. *)
Definition keys_of (c : list doc) : list (option value * option value * option value) :=
  map (fun d => (d !! "Symbol", d !! "Strategy", d !! "Direction")) c.

End Scenario.

(* ===================================================================== *)
(** ** Vocabulary of the properties                                       *)
(* ===================================================================== *)

(** [wp m Q s]: running [m] from [s] ends, normally or by an exception, in
    a result and a state that satisfy [Q]. *)
Definition wp {A} (m : M A) (Q : res A -> state -> Prop) (s : state) : Prop :=
  Q (m s).1 (m s).2.

(** A signal without the option fields, such as a plain equity signal. *)
Definition lacks_option_metadata (trade_data : doc) : Prop :=
  trade_data !! "Pre_Symbol"%string = None /\
  trade_data !! "Exp_Date"%string = None /\
  trade_data !! "Option_Type"%string = None.

(** [y] is [x] rounded to [n] decimal places: the double nearest to a
    decimal [k / 10^n] that lies within half a unit of its last place of
    [x]. *)
Definition rounded_to (n : nat) (x : Q) (y : float) : Prop :=
  exists k : Z,
    (Qabs (x * inject_Z (10 ^ Z.of_nat n) - inject_Z k) <= 1 # 2)%Q /\
    y = b64 (Qmake k (Z.to_pos (10 ^ Z.of_nat n))).

(** What a method leaves alone when it only prepares an order. *)
Definition same_outside (s s' : state) : Prop :=
  store s' = store s /\ placed s' = placed s /\ pushed s' = pushed s /\
  self_user s' = self_user s.

(** A broker status that does not end the life of a queued order. *)
Definition nonterminal (status : value) : Prop :=
  py_eq status (VStr "FILLED") = false /\
  py_eq status (VStr "CANCELED") = false /\
  py_eq status (VStr "REJECTED") = false.

(** Two readings of a queued record that agree on what a poll reads of it
    when the broker knows the order. *)
Definition same_order (q q' : doc) : Prop :=
  q' !! "Order_ID"%string = q !! "Order_ID"%string /\
  q' !! "Order_Type"%string = q !! "Order_Type"%string /\
  q' !! "Symbol"%string = q !! "Symbol"%string /\
  q' !! "Strategy"%string = q !! "Strategy"%string.

(** Every collection but the queue is the same in [d] and [d']. *)
Definition only_queue_differs (d d' : db) : Prop :=
  open_positions d' = open_positions d /\
  closed_positions d' = closed_positions d /\
  rejected d' = rejected d /\
  canceled d' = canceled d /\
  strategies d' = strategies d /\
  forbidden d' = forbidden d /\
  users d' = users d.

(** What a poll does to the queue when the broker reports a status that is
    not terminal: the status of the first record with the key is set. *)
Definition status_update (q r : doc) (user : value) (c : list doc) : list doc :=
  match getitem q "Order_ID", getitem q "Order_Type", subscript user "Name",
        getitem q "Symbol", getitem q "Strategy" with
  | Ok id, Ok _, Ok name, Ok symbol, Ok strategy =>
      if py_eq id (dict_get r "orderId")
      then update_one_set (key_query name symbol strategy)
             {["Order_Status"%string := dict_get r "status"]} false c
      else c
  | _, _, _, _, _ => c
  end.

(** The collections that [pushOrder] never writes, and the attributes of
    the instance it leaves alone. *)
Definition resolve_frame (s s' : state) : Prop :=
  rejected (store s') = rejected (store s) /\
  canceled (store s') = canceled (store s) /\
  strategies (store s') = strategies (store s) /\
  forbidden (store s') = forbidden (store s) /\
  users (store s') = users (store s) /\
  self_user s' = self_user s /\ self_obj s' = self_obj s /\
  self_order s' = self_order s /\ placed s' = placed s.

(** The position written when an opening order is resolved with the fill
    [(p, n)] and the marker [di]. *)
Definition opened_with (q : doc) (name p di : value) (n : Z) (s s' : state) : Prop :=
  exists rec,
    open_positions (store s') = open_positions (store s) ++ [rec] /\
    closed_positions (store s') = closed_positions (store s) /\
    rec !! "Symbol"%string = q !! "Symbol"%string /\
    rec !! "Strategy"%string = q !! "Strategy"%string /\
    rec !! "account_id"%string = q !! "account_id"%string /\
    rec !! "Trader"%string = Some name /\
    rec !! "Qty"%string = Some (VInt n) /\
    rec !! "Entry_Price"%string = Some p /\
    rec !! "Data_Integrity"%string = Some di /\
    rec !! "childOrderStrategies"%string = None.

(** The position moved when a closing order is resolved at the price [p]
    with the marker [di]: the first open position of the key leaves the
    open positions and a record with its quantity and entry goes to the
    closed ones. *)
Definition closed_with (q : doc) (name symbol strategy p di : value) (s s' : state) : Prop :=
  exists rec pos,
    find_one (key_query name symbol strategy) (open_positions (store s)) = Some pos /\
    open_positions (store s') =
      (delete_one (key_query name symbol strategy) (open_positions (store s))).1 /\
    closed_positions (store s') = closed_positions (store s) ++ [rec] /\
    rec !! "Symbol"%string = q !! "Symbol"%string /\
    rec !! "Strategy"%string = q !! "Strategy"%string /\
    rec !! "account_id"%string = q !! "account_id"%string /\
    rec !! "Trader"%string = Some name /\
    rec !! "Qty"%string = pos !! "Qty"%string /\
    rec !! "Entry_Price"%string = pos !! "Entry_Price"%string /\
    rec !! "Entry_Date"%string = pos !! "Entry_Date"%string /\
    rec !! "Exit_Price"%string = Some p /\
    rec !! "Data_Integrity"%string = Some di /\
    rec !! "childOrderStrategies"%string = None.

(** What [pushOrder] has done when it returns without having raised. *)
Definition resolved (cfg : config) (q spec : doc) (di : value) (s s' : state) : Prop :=
  exists name symbol strategy direction p n p',
    subscript (self_user s) "Name" = Ok name /\
    q !! "Symbol"%string = Some symbol /\
    q !! "Strategy"%string = Some strategy /\
    q !! "Direction"%string = Some direction /\
    fill_of q spec = Ok (p, n) /\
    resolve_price p = Ok p' /\
    queue (store s') =
      (delete_one (key_query_acct cfg name symbol strategy) (queue (store s))).1 /\
    length (pushed s') = S (length (pushed s)) /\
    if py_eq direction (VStr "OPEN POSITION") then opened_with q name p' di n s s'
    else if py_eq direction (VStr "CLOSE POSITION")
         then closed_with q name symbol strategy p' di s s'
         else open_positions (store s') = open_positions (store s) /\
              closed_positions (store s') = closed_positions (store s).

(** The fields of a queued record that [pushOrder] reads, and those it
    reads besides when the asset is an option. *)
Definition queued_fields : list string :=
  ["Symbol"; "Strategy"; "Side"; "account_id"; "Position_Size"; "Asset_Type";
   "Position_Type"; "Direction"; "Account_Position"; "Order_Type"]%string.

Definition option_fields : list string := ["Pre_Symbol"; "Exp_Date"; "Option_Type"]%string.

Definition has_fields (ks : list string) (d : doc) : Prop :=
  Forall (fun k => is_Some (d !! k)) ks.

Definition queued_complete (q : doc) : Prop :=
  has_fields queued_fields q /\
  forall a, q !! "Asset_Type"%string = Some a -> py_eq a (VStr "OPTION") = true ->
            has_fields option_fields q.

(** The fields of an open position that closing it reads. *)
Definition position_complete (pos : doc) : Prop :=
  has_fields ["Qty"; "Entry_Price"; "Entry_Date"]%string pos.

(** The marker that a poll gives to an order the broker does not know. *)
Definition integrity_of (cfg : config) : value :=
  VStr (if RUN_LIVE_TRADER cfg then "Assumed" else "Reliable").

(** The price field of a queued record that stands for the fill. *)
Definition snapshot_price_field (direction : value) : string :=
  if py_eq direction (VStr "OPEN POSITION") then "Entry_Price" else "Exit_Price".

(** A value that is a number. *)
Definition is_number (v : value) : Prop :=
  match v with
  | VBool _ | VInt _ | VFloat _ => True
  | _ => False
  end.

(** [p'] is the price written for a fill at the price [p]: a float is
    rounded to two decimal places from 1 up and to four below 1, an
    infinity or a not-a-number stays, and an integer is written as it is. *)
Definition fill_price (p p' : value) : Prop :=
  match p with
  | VFloat (Fin x) =>
      exists y, p' = VFloat y /\ rounded_to (if Qle_bool 1 x then 2 else 4) x y
  | VFloat f => p' = VFloat f
  | VInt z => p' = VInt z
  | VBool b => p' = VInt (if b then 1 else 0)
  | _ => False
  end.

(** What the entry of one bracket leg has to say: the id of the child
    order, its instruction, its exit price, its status, and whether the
    child carries a stop price. *)
Record leg_facts := {
  lf_id : value;
  lf_side : value;
  lf_exit : value;
  lf_status : value;
  lf_stop : bool;
}.

(** [child] is a child order of the broker's answer with these facts: a
    dict with an [orderId], a first leg with an [instruction], a [status],
    and either a [stopPrice] or, without one, a [price]. *)
Definition describes (child : value) (f : leg_facts) : Prop :=
  exists (d l0 : doc) (rest : list value),
    child = VDict d /\
    d !! "orderId"%string = Some (lf_id f) /\
    d !! "orderLegCollection"%string = Some (VList (VDict l0 :: rest)) /\
    l0 !! "instruction"%string = Some (lf_side f) /\
    d !! "status"%string = Some (lf_status f) /\
    if lf_stop f
    then d !! "stopPrice"%string = Some (lf_exit f)
    else d !! "stopPrice"%string = None /\ d !! "price"%string = Some (lf_exit f).

(** The entry expected for a leg. *)
Definition entry_of (f : leg_facts) : value :=
  VDict (list_to_map
    [("Side", lf_side f); ("Exit_Price", lf_exit f);
     ("Exit_Type", VStr (if lf_stop f then "STOP LOSS" else "TAKE PROFIT"));
     ("Order_Status", lf_status f)]%string).

(** The items expected for the legs [fs]: one per leg, under its id, in the
    order of the legs. *)
Definition entries (fs : list leg_facts) : list (value * value) :=
  (fun f => (lf_id f, entry_of f)) <$> fs.

(** The ids can be keys, and no two of them are equal. *)
Fixpoint distinct_ids (ids : list value) : bool :=
  match ids with
  | [] => true
  | x :: rest =>
      hashable x && forallb (fun y => negb (py_eq x y)) rest && distinct_ids rest
  end.

(** No record that is in [c'] and was not in [c] has the field [k]. *)
Definition adds_without (k : string) (c c' : list doc) : Prop :=
  forall rec, rec ∈ c' -> rec ∈ c \/ rec !! k = None.

(** The key of a record: its symbol and its strategy, when both are
    strings; the trader is the third part of the key. *)
Definition str_field (d : doc) (k : string) : option string :=
  match d !! k with
  | Some (VStr x) => Some x
  | _ => None
  end.

Definition doc_key (d : doc) : option (string * string) :=
  match str_field d "Symbol", str_field d "Strategy" with
  | Some a, Some b => Some (a, b)
  | _, _ => None
  end.

(** A record of the trader [name] on the account [acct] that has a key. *)
Definition owned (name : string) (acct : value) (d : doc) : Prop :=
  d !! "Trader"%string = Some (VStr name) /\
  d !! "account_id"%string = Some acct /\
  is_Some (doc_key d).

(** The key [k] is in the collection [c]. *)
Definition holds_key (k : string * string) (c : list doc) : Prop :=
  Some k ∈ (doc_key <$> c).

Definition keys (c : list doc) : list (option (string * string)) := doc_key <$> c.

(** All records belong to the trader and no key is there twice. *)
Definition well_keyed (name : string) (acct : value) (c : list doc) : Prop :=
  Forall (owned name acct) c /\ NoDup (keys c).

(** Fields that are not part of the key, of the ownership or of the
    direction. *)
Definition inert (F : doc) : Prop :=
  F !! "Trader"%string = None /\ F !! "account_id"%string = None /\
  F !! "Symbol"%string = None /\ F !! "Strategy"%string = None /\
  F !! "Direction"%string = None.

(** [m] only moves the state along [R]. *)
Definition frames {A} (R : state -> state -> Prop) (m : M A) : Prop :=
  forall s, R s (m s).2.

(** The fields [ks] of [self.obj] are the same in [s] and [s'], and so is
    everything outside [self.obj], [self.order], the log and the clock. *)
Definition obj_keeps (ks : list string) (s s' : state) : Prop :=
  same_outside s s' /\ Forall (fun k => self_obj s' !! k = self_obj s !! k) ks.

(** [self.obj] describes the signal [td] sent in the direction [dir]. *)
Definition obj_describes (td : doc) (dir : value) (s' : state) : Prop :=
  self_obj s' !! "Symbol"%string = td !! "Symbol"%string /\
  self_obj s' !! "Strategy"%string = td !! "Strategy"%string /\
  self_obj s' !! "Direction"%string = Some dir.

(** What [sendOrder] may write: Rejected and the queue. *)
Definition send_frame (s s' : state) : Prop :=
  open_positions (store s') = open_positions (store s) /\
  closed_positions (store s') = closed_positions (store s) /\
  canceled (store s') = canceled (store s) /\
  strategies (store s') = strategies (store s) /\
  forbidden (store s') = forbidden (store s) /\
  users (store s') = users (store s) /\
  self_user s' = self_user s /\
  self_obj s' !! "Trader"%string = self_obj s !! "Trader"%string /\
  self_obj s' !! "account_id"%string = self_obj s !! "account_id"%string.

(** The queue after [place_and_queue]: as before, or with [self.obj]
    upserted under the key of the trader, of its symbol and of its
    strategy. *)
Definition queued_from (obj : doc) (s s' : state) : Prop :=
  queue (store s') = queue (store s) \/
  exists n sym strat obj',
    subscript (self_user s) "Name" = Ok n /\
    obj !! "Symbol"%string = Some sym /\
    obj !! "Strategy"%string = Some strat /\
    queue (store s') = update_one_set (key_query n sym strat) obj' true (queue (store s)) /\
    Forall (fun k => obj' !! k = obj !! k)
      ["Trader"; "account_id"; "Symbol"; "Strategy"; "Direction"]%string.

(** The queue after [sendOrder]: as before, or with a record upserted that
    carries the symbol and the strategy of the signal and the direction. *)
Definition queued_signal (td : doc) (dir : value) (s s' : state) : Prop :=
  queue (store s') = queue (store s) \/
  exists n sym strat obj',
    subscript (self_user s) "Name" = Ok n /\
    td !! "Symbol"%string = Some sym /\
    td !! "Strategy"%string = Some strat /\
    queue (store s') = update_one_set (key_query n sym strat) obj' true (queue (store s)) /\
    obj' !! "Trader"%string = self_obj s !! "Trader"%string /\
    obj' !! "account_id"%string = self_obj s !! "account_id"%string /\
    obj' !! "Symbol"%string = Some sym /\
    obj' !! "Strategy"%string = Some strat /\
    obj' !! "Direction"%string = Some dir.

(** A record that opens, and one that closes, a position. *)
Definition opening (d : doc) : Prop := d !! "Direction"%string = Some (VStr "OPEN POSITION").
Definition closing (d : doc) : Prop := d !! "Direction"%string = Some (VStr "CLOSE POSITION").

(** No record queued to open a position has its key among the open
    positions. *)
Definition exclusive (q o : list doc) : Prop :=
  forall d k, d ∈ q -> opening d -> doc_key d = Some k -> ~ holds_key k o.

(** Every record queued to close a position has its key among the open
    positions. *)
Definition held (q o : list doc) : Prop :=
  forall d k, d ∈ q -> closing d -> doc_key d = Some k -> holds_key k o.

(** [self.user], when it has a name, has the name [name]. *)
Definition user_ok (name : string) (u : value) : Prop :=
  forall n, subscript u "Name" = Ok n -> n = VStr name.

(** A user document whose name, if it has one, is a string. *)
Definition str_named (u : doc) : bool :=
  match u !! "Name"%string with
  | Some (VStr _) | None => true
  | Some _ => false
  end.

(** What every state of the trader [name] keeps. *)
Record Inv (cfg : config) (name : string) (s : state) : Prop := {
  inv_user : user_ok name (self_user s);
  inv_users : forallb str_named (users (store s)) = true;
  inv_trader : self_obj s !! "Trader"%string = Some (VStr name);
  inv_acct : self_obj s !! "account_id"%string = Some (account_id cfg);
  inv_queue : well_keyed name (account_id cfg) (queue (store s));
  inv_open : well_keyed name (account_id cfg) (open_positions (store s));
  inv_excl : exclusive (queue (store s)) (open_positions (store s));
  inv_dir : Forall (fun d => opening d \/ closing d) (queue (store s));
  inv_held : held (queue (store s)) (open_positions (store s));
}.

(** [q] can be resolved in [s]: it is a record of this trader and, when it
    opens a position, its key has no open position yet. *)
Definition ready (cfg : config) (name : string) (q : doc) (s : state) : Prop :=
  owned name (account_id cfg) q /\
  (opening q -> forall k, doc_key q = Some k -> ~ holds_key k (open_positions (store s))).

(** Only the key of [q] may have come to the open positions. *)
Definition grows_by (q : doc) (s s' : state) : Prop :=
  forall k, holds_key k (open_positions (store s')) ->
            holds_key k (open_positions (store s)) \/ doc_key q = Some k.

(** The state that the trader reaches when [runTrader] is called with one
    batch of signals after the other. *)
Definition runs (w : world) (cfg : config) (batches : list (list doc)) (s : state) : state :=
  foldl (fun s rows => (runTrader w cfg rows s).2) s batches.

(** A signal with a symbol and a strategy. *)
Definition signal_ok (row : doc) : bool := bool_decide (is_Some (doc_key row)).

(** An instance just created for the user [name] on a store without queued
    orders and open positions: [self.user] is the user's document and
    [self.obj] is as [OrderBuilder.__init__] leaves it. *)
Definition starts (cfg : config) (name : string) (s : state) : Prop :=
  (exists user, self_user s = VDict user /\ user !! "Name"%string = Some (VStr name)) /\
  self_obj s = init_obj (VStr name) (account_id cfg) /\
  queue (store s) = [] /\
  open_positions (store s) = [] /\
  forallb str_named (users (store s)) = true.

(* ===================================================================== *)
(** ** Reasoning about methods                                            *)
(* ===================================================================== *)

Lemma wp_bind {A B} (m : M A) (k : A -> M B) Q s :
  wp m (fun r s' => match r with
                    | Ok a => wp (k a) Q s'
                    | Raise e => Q (Raise e) s'
                    end) s ->
  wp (bind m k) Q s.
Proof.
  unfold wp, bind. destruct (m s) as [[a|e] s']; simpl; auto.
Qed.

Lemma wp_ret {A} (a : A) (Q : res A -> state -> Prop) s : Q (Ok a) s -> wp (ret a) Q s.
Proof. auto. Qed.

Lemma wp_raise {A} e (Q : res A -> state -> Prop) s : Q (Raise e) s -> wp (raise e) Q s.
Proof. auto. Qed.

Lemma wp_lift {A} (r : res A) (Q : res A -> state -> Prop) s : Q r s -> wp (lift r) Q s.
Proof. auto. Qed.

Lemma wp_modify f (Q : res unit -> state -> Prop) s : Q (Ok tt) (f s) -> wp (modify f) Q s.
Proof. auto. Qed.

Lemma wp_get {A} (f : state -> A) (Q : res A -> state -> Prop) s :
  Q (Ok (f s)) s -> wp (get f) Q s.
Proof. auto. Qed.

Lemma wp_ask {A} (f : nat -> A) (Q : res A -> state -> Prop) s :
  Q (Ok (f (clock s))) (tick s) -> wp (ask f) Q s.
Proof. auto. Qed.

Lemma wp_ask_res {A} (f : nat -> res A) (Q : res A -> state -> Prop) s :
  Q (f (clock s)) (tick s) -> wp (ask_res f) Q s.
Proof. auto. Qed.

Lemma wp_exception_handler {A} (m : M A) (Q : res (option A) -> state -> Prop) s :
  wp m (fun r s' => match r with
                    | Ok a => Q (Ok (Some a)) s'
                    | Raise _ => Q (Ok None) (add_log (ERROR, "exception_handler"%string, []) s')
                    end) s ->
  wp (exception_handler m) Q s.
Proof.
  unfold wp, exception_handler. destruct (m s) as [[a|e] s']; simpl; auto.
Qed.

Lemma wp_mono {A} (m : M A) (Q Q' : res A -> state -> Prop) s :
  wp m Q s -> (forall r s', Q r s' -> Q' r s') -> wp m Q' s.
Proof. unfold wp. auto. Qed.

(** One step of symbolic execution. *)
Ltac wp_step :=
  lazymatch goal with
  | |- wp (bind _ _) _ _ => apply wp_bind
  | |- wp (ret _) _ _ => apply wp_ret
  | |- wp (raise _) _ _ => apply wp_raise
  | |- wp (lift _) _ _ => apply wp_lift
  | |- wp (modify _) _ _ => apply wp_modify
  | |- wp (get _) _ _ => apply wp_get
  | |- wp (ask _) _ _ => apply wp_ask
  | |- wp (ask_res _) _ _ => apply wp_ask_res
  | |- wp (exception_handler _) _ _ => apply wp_exception_handler
  | |- wp (obj_set _ _) _ _ => unfold obj_set
  | |- wp (order_set _) _ _ => unfold order_set
  | |- wp (info _ _) _ _ => unfold info
  | |- wp (warning _ _) _ _ => unfold warning
  | |- wp (error _ _) _ _ => unfold error
  | |- wp user_name _ _ => unfold user_name
  | |- wp (format_symbol _ _ _) _ _ => unfold format_symbol
  | |- wp (if ?b then _ else _) _ _ => destruct b eqn:?
  | |- wp (match ?x with _ => _ end) _ _ => destruct x eqn:?
  | |- match ?r with Ok _ => _ | Raise _ => _ end => destruct r eqn:?
  | |- wp _ _ _ => cbv zeta
  end; cbv beta match.

(** Closes an equation between closed terms by evaluating both sides. *)
Ltac by_eval :=
  lazymatch goal with
  | |- ?a = ?b => vm_cast_no_check (@eq_refl _ b)
  end.

(** Reduces the projections of updated states, and nothing else. *)
Ltac state_simpl :=
  cbn [store self_user self_obj self_order logged pushed placed clock
       set_store set_self_user set_self_order set_self_obj add_log add_pushed
       add_placed tick open_positions closed_positions queue rejected canceled
       strategies forbidden users on_open_positions on_closed_positions on_queue
       on_rejected on_canceled on_strategies fst snd] in *.

Ltac ok_inj :=
  repeat match goal with
         | H : Ok _ = Ok _ |- _ => injection H as H; subst
         end.

Lemma getitem_Ok d k v : getitem d k = Ok v <-> d !! k = Some v.
Proof. unfold getitem. destruct (d !! k); split; congruence. Qed.

(* ===================================================================== *)
(** ** Order construction needs option metadata                           *)
(* ===================================================================== *)

Lemma standardOrder_without_Pre_Symbol w td so dir oco s :
  td !! "Pre_Symbol"%string = None ->
  standardOrder w td so dir oco s =
    (Raise (KeyError (if td !! "Symbol"%string is Some _ then "Pre_Symbol" else "Symbol")), s).
Proof.
  intros Hpre. unfold standardOrder, bind, lift, getitem.
  destruct (td !! "Symbol"%string); [ rewrite Hpre | ]; reflexivity.
Qed.

(** C10.  For a signal that lacks [Pre_Symbol], [Exp_Date] and
    [Option_Type], [standardOrder] raises a [KeyError] on its first reads
    of the signal: it returns no order, and neither [self.order],
    [self.obj], the store nor the broker has been touched. *)
Theorem C10_standardOrder_fails_without_option_metadata w td so dir oco s :
  lacks_option_metadata td ->
  exists k, standardOrder w td so dir oco s = (Raise (KeyError k), s).
Proof.
  intros (Hpre & _ & _). eexists. by apply standardOrder_without_Pre_Symbol.
Qed.

Lemma C10_witness :
  lacks_option_metadata Scenario.equity_signal /\
  exists k,
    standardOrder (Scenario.broker 100 100 Scenario.accepted Scenario.not_found)
      Scenario.equity_signal (Scenario.strategy_doc "S1" true "STANDARD" 1000 "LONG")
      (VStr "OPEN POSITION") false (Scenario.fresh Scenario.empty_db)
    = (Raise (KeyError k), Scenario.fresh Scenario.empty_db).
Proof.
  split.
  - repeat split; reflexivity.
  - apply C10_standardOrder_fails_without_option_metadata. repeat split; reflexivity.
Defined.

(* ===================================================================== *)
(** ** Rounding of prices                                                 *)
(* ===================================================================== *)

Lemma round_half_even_near (y : Q) :
  (Qabs (y - inject_Z (round_half_even y)) <= 1 # 2)%Q.
Proof.
  unfold round_half_even.
  pose proof (Qfloor_le y) as Hlo. pose proof (Qlt_floor y) as Hhi.
  rewrite inject_Z_plus in Hhi. change (inject_Z 1) with 1%Q in Hhi.
  apply Qabs_Qle_condition.
  destruct (y - inject_Z (Qfloor y) ?= 1 # 2)%Q eqn:E.
  - apply Qeq_alt in E.
    destruct (Z.even (Qfloor y)); rewrite ?inject_Z_plus;
      change (inject_Z 1) with 1%Q; split; lra.
  - apply Qlt_alt in E. split; lra.
  - apply Qgt_alt in E. rewrite inject_Z_plus. change (inject_Z 1) with 1%Q. split; lra.
Qed.

(** [round(x, n)] is [x] rounded to [n] decimal places. *)
Lemma py_round_rounded q n : rounded_to n q (py_round (Fin q) n).
Proof.
  exists (round_half_even (q * inject_Z (10 ^ Z.of_nat n))). split.
  - apply round_half_even_near.
  - reflexivity.
Qed.

(** Fill resolution: two places from 1 up, four places below 1. *)
Lemma fill_round_rounded q :
  ((1 <= q)%Q -> rounded_to 2 q (fill_round (Fin q))) /\
  ((q < 1)%Q -> rounded_to 4 q (fill_round (Fin q))).
Proof.
  unfold fill_round, float_ge. change (inject_Z 1) with 1%Q. split; intros H.
  - apply Qle_bool_iff in H. rewrite H. apply py_round_rounded.
  - destruct (Qle_bool 1 q) eqn:E.
    + apply Qle_bool_iff in E. lra.
    + apply py_round_rounded.
Qed.

(** Order construction: two places on both sides of 1. *)
Lemma builder_round_two_places p : builder_round p = py_round p 2.
Proof. unfold builder_round. by destruct (float_ge p 1). Qed.

(** C4.  At a quote of 0.1234 the price that [standardOrder] puts in the
    order is 0.12: it is rounded to two places and not to four, where the
    rule of [pushOrder] for the same price keeps the four places. *)
Theorem C4_order_price_below_one_keeps_two_places :
  let w := Scenario.broker (1234 # 10000) (1234 # 10000) Scenario.accepted Scenario.not_found in
  let built :=
    standardOrder w (Scenario.option_signal "BUY_TO_OPEN")
      (Scenario.strategy_doc "SPY_SCAN_OPT_SELL" true "STANDARD" 500 "LONG")
      (VStr "OPEN POSITION") false (Scenario.fresh Scenario.empty_db) in
  built.1 = Ok Built /\
  price (self_order built.2) = Scenario.flt (12 # 100) /\
  let quote := Scenario.exact (b64 (1234 # 10000)) in
  b64 (1234 # 10000) = Fin quote /\
  ~ rounded_to 4 quote (b64 (12 # 100)) /\
  rounded_to 4 quote (fill_round (Fin quote)) /\
  fill_round (Fin quote) = b64 (1234 # 10000).
Proof.
  intros w built. split; [ | split ].
  - by_eval.
  - by_eval.
  - intros quote. split; [ by_eval | ]. split; [ | split ].
    + intros (k & Hab & Hk).
      change (10 ^ Z.of_nat 4) with 10000 in *.
      apply Qabs_Qle_condition in Hab as [Hlo Hhi].
      let q := eval vm_compute in quote in change quote with q in Hlo, Hhi.
      unfold Qle, Qminus, Qplus, Qmult, Qopp in Hlo, Hhi. cbn in Hlo, Hhi.
      assert (k = 1234) as -> by lia.
      vm_compute in Hk. discriminate Hk.
    + apply fill_round_rounded. unfold Qlt. vm_compute. reflexivity.
    + by_eval.
Qed.

(* ===================================================================== *)
(** ** Opening a position: quantity and the no-op                         *)
(* ===================================================================== *)

(** What [standardOrder] does when asked to open a position: it writes
    neither the store nor to the broker, and when it returns the order the
    signal carried [Pre_Symbol] (so that the asset type is OPTION), the
    strategy is active, and the quantity is the positive
    [int((Position_Size / 100) / price)] of the price it stores as
    [Entry_Price]. *)
Lemma standardOrder_open_spec w td so oco s :
  wp (standardOrder w td so (VStr "OPEN POSITION") oco)
     (fun r s' =>
        same_outside s s' /\
        (r = Ok Built ->
         exists psv ps p shares av,
           is_Some (td !! "Pre_Symbol"%string) /\
           so !! "Position_Size"%string = Some psv /\ py_int psv = Ok ps /\
           so !! "Active"%string = Some av /\ truthy av = true /\
           compute_shares (VStr "OPTION") ps p = Ok shares /\ 0 < shares /\
           self_obj s' !! "Qty"%string = Some (VInt shares) /\
           self_obj s' !! "Entry_Price"%string = Some (VFloat p) /\
           quantity (orderLegCollection0 (self_order s')) = VInt shares /\
           price (self_order s') = VFloat (builder_round p))) s.
Proof.
  destruct (td !! "Pre_Symbol"%string) as [pre|] eqn:Hpre; cycle 1.
  { unfold wp. rewrite standardOrder_without_Pre_Symbol by done. simpl.
    split; [ done | discriminate ]. }
  unfold standardOrder.
  rewrite (bool_decide_eq_true_2 (is_Some (td !! "Pre_Symbol"%string)))
    by (rewrite Hpre; eauto).
  change (py_eq (VStr "OPTION") (VStr "EQUITY")) with false.
  change (py_eq (VStr "OPTION") (VStr "OPTION")) with true.
  change (py_eq (VStr "OPEN POSITION") (VStr "OPEN POSITION")) with true.
  cbv iota.
  repeat wp_step.
  all: try (split; [ done | discriminate ]).
  all: ok_inj.
  all: match goal with
       | H : truthy _ && (0 <? _) = true |- _ =>
           apply andb_true_iff in H as [? ?%Z.ltb_lt]
       end.
  all: repeat match goal with
              | H : getitem _ _ = Ok _ |- _ => apply getitem_Ok in H
              end.
  all: split; [ done | intros _ ].
  all: do 5 eexists; repeat split; eauto; simpl; by simplify_map_eq.
Qed.

Lemma same_outside_refl s : same_outside s s.
Proof. by repeat split. Qed.

Lemma same_outside_trans s1 s2 s3 :
  same_outside s1 s2 -> same_outside s2 s3 -> same_outside s1 s3.
Proof. unfold same_outside. intuition congruence. Qed.

Ltac frame_solve :=
  unfold same_outside in *; simpl in *; intuition congruence.

(** [OCOorder] inherits the guard of [standardOrder]: asked to open a
    position for an inactive strategy it returns no order. *)
Lemma OCOorder_open_spec w cfg td so s :
  wp (OCOorder w cfg td so (VStr "OPEN POSITION"))
     (fun r s' =>
        same_outside s s' /\
        (r = Ok Built -> exists av, so !! "Active"%string = Some av /\ truthy av = true)) s.
Proof.
  unfold OCOorder. apply wp_bind.
  eapply wp_mono; [ apply standardOrder_open_spec | ].
  intros r s1 [Hs Hb]. destruct r as [b|e]; [ | split; [ done | discriminate ] ].
  repeat wp_step.
  all: try (split; [ frame_solve | discriminate ]).
  all: split; [ frame_solve | intros _ ].
  all: destruct Hb as (? & ? & ? & ? & av & ? & ? & ? & ? & ? & ?); eauto.
Qed.

(** Asked to open a position for an inactive strategy, [sendOrder] places
    nothing with the broker and writes nothing to the store. *)
Lemma sendOrder_open_inactive w cfg td so s :
  (forall av, so !! "Active"%string = Some av -> truthy av = false) ->
  same_outside s (sendOrder w cfg td so (VStr "OPEN POSITION") s).2.
Proof.
  intros Hin.
  change (wp (sendOrder w cfg td so (VStr "OPEN POSITION"))
             (fun _ s' => same_outside s s') s).
  unfold sendOrder. repeat wp_step; try frame_solve.
  - eapply wp_mono; [ apply standardOrder_open_spec | ].
    intros r s1 [Hs Hb]. destruct r as [[]|e]; cbv beta.
    + destruct Hb as (? & ? & ? & ? & av & ? & ? & ? & Hav & Ht & ?); [ done | ].
      apply Hin in Hav. congruence.
    + repeat wp_step. frame_solve.
    + frame_solve.
  - eapply wp_mono; [ apply OCOorder_open_spec | ].
    intros r s1 [Hs Hb]. destruct r as [[]|e]; cbv beta.
    + destruct Hb as (av & Hav & Ht); [ done | ].
      apply Hin in Hav. congruence.
    + repeat wp_step. frame_solve.
    + frame_solve.
Qed.

(* ===================================================================== *)
(** ** The active flag                                                    *)
(* ===================================================================== *)

Lemma getitem_insert_ne (d : doc) k k' v : k <> k' -> getitem (<[k := v]> d) k' = getitem d k'.
Proof. intros H. unfold getitem. by rewrite lookup_insert_ne. Qed.

(** Closing a position never reads the [Active] field of the strategy. *)
Lemma sendOrder_close_ignores_Active w cfg td so a s :
  is_Some (so !! "Active"%string) ->
  sendOrder w cfg td (<["Active"%string := a]> so) (VStr "CLOSE POSITION") s
  = sendOrder w cfg td so (VStr "CLOSE POSITION") s.
Proof.
  intros _. unfold sendOrder, OCOorder, standardOrder.
  change (py_eq (VStr "CLOSE POSITION") (VStr "OPEN POSITION")) with false.
  cbv iota.
  by rewrite !getitem_insert_ne.
Qed.

(** C2, as stated, fails: the strategy is inactive, a position is open and
    the signal closes it; the order goes to the broker and is queued. *)
Lemma C2_counterexample :
  let strategy := Scenario.strategy_doc "SPY_SCAN_OPT_SELL" false "STANDARD" 500 "LONG" in
  let s :=
    Scenario.fresh (Scenario.with_open_positions [Scenario.held_position]
                     (Scenario.with_strategies [strategy] Scenario.empty_db)) in
  let s' :=
    (runTrader (Scenario.broker (6 # 5) (13 # 10) Scenario.accepted Scenario.not_found)
               (Scenario.account true) [Scenario.option_signal "SELL_TO_CLOSE"] s).2 in
  strategy !! "Active"%string = Some (VBool false) /\
  length (placed s') = 1%nat /\
  Scenario.keys_of (queue (store s')) =
    [(Some (VStr "SPY"), Some (VStr "SPY_SCAN_OPT_SELL"), Some (VStr "CLOSE POSITION"))].
Proof. cbv zeta. split_and!; by_eval. Qed.

(** C2, amended.  For a strategy whose [Active] flag is false and a signal
    whose direction is OPEN POSITION, [sendOrder] places no order with the
    broker and writes nothing to the store, whatever the signal and the
    order type; when the direction is CLOSE POSITION the flag is not read. *)
Theorem C2_inactive_strategy_opens_nothing w cfg td so s :
  (forall av, so !! "Active"%string = Some av -> truthy av = false) ->
  let s' := (sendOrder w cfg td so (VStr "OPEN POSITION") s).2 in
  (placed s' = placed s /\ store s' = store s) /\
  (forall a, is_Some (so !! "Active"%string) ->
     sendOrder w cfg td (<["Active"%string := a]> so) (VStr "CLOSE POSITION") s
     = sendOrder w cfg td so (VStr "CLOSE POSITION") s).
Proof.
  intros Hin. split.
  - destruct (sendOrder_open_inactive w cfg td so s Hin) as (? & ? & _). done.
  - intros a Ha. by apply sendOrder_close_ignores_Active.
Qed.

Lemma C2_witness :
  let so := Scenario.strategy_doc "SPY_SCAN_OPT_SELL" false "STANDARD" 500 "LONG" in
  let s := Scenario.fresh (Scenario.with_strategies [so] Scenario.empty_db) in
  let w := Scenario.broker (6 # 5) (13 # 10) Scenario.accepted Scenario.not_found in
  let s' := (sendOrder w (Scenario.account true) (Scenario.option_signal "BUY_TO_OPEN") so
                       (VStr "OPEN POSITION") s).2 in
  (forall av, so !! "Active"%string = Some av -> truthy av = false) /\
  placed s' = placed s /\ store s' = store s.
Proof.
  intros so s w s'.
  assert (forall av, so !! "Active"%string = Some av -> truthy av = false) as Hin.
  { intros av Hav. vm_compute in Hav. by injection Hav as <-. }
  split; [ exact Hin | ].
  exact (proj1 (C2_inactive_strategy_opens_nothing w (Scenario.account true)
                  (Scenario.option_signal "BUY_TO_OPEN") so s Hin)).
Defined.

(** C3.  On the equity signal of the specification's scenario (SPY, BUY,
    budget 1000, ask 100) no quantity is computed: [standardOrder] raises
    [KeyError] on [Pre_Symbol] and [runTrader] queues nothing, although the
    quantity rule for an equity, taken alone, gives the expected 10. *)
Theorem C3_equity_signal_gets_no_quantity :
  let so := Scenario.strategy_doc "S1" true "STANDARD" 1000 "LONG" in
  let s := Scenario.fresh (Scenario.with_strategies [so] Scenario.empty_db) in
  let w := Scenario.broker 100 100 Scenario.accepted Scenario.not_found in
  (standardOrder w Scenario.equity_signal so (VStr "OPEN POSITION") false s).1
    = Raise (KeyError "Pre_Symbol") /\
  queue (store (runTrader w (Scenario.account false) [Scenario.equity_signal] s).2) = [] /\
  placed (runTrader w (Scenario.account true) [Scenario.equity_signal] s).2 = [] /\
  compute_shares (VStr "EQUITY") 1000 (Fin 100) = Ok 10.
Proof. cbv zeta. split_and!; by_eval. Qed.

(* ===================================================================== *)
(** ** Forbidden symbols                                                  *)
(* ===================================================================== *)

(** A symbol that is a string is never found in the cursor: it is compared
    with whole documents. *)
Lemma in_cursor_string sym cursor : in_cursor (VStr sym) cursor = (false, []).
Proof. induction cursor as [|d c IH]; simpl; auto. Qed.

Lemma decide_direction_ignores_forbidden sym side position_type cursor :
  (decide_direction None (VStr sym) side position_type cursor).1
  = (decide_direction None (VStr sym) side position_type []).1.
Proof. unfold decide_direction. by rewrite in_cursor_string. Qed.

(** C9.  SPY is on the forbidden list of the account, there is neither an
    open position nor a queued order for the key, and the signal opens a
    position: the order is placed with the broker and queued. *)
Theorem C9_forbidden_symbol_is_opened :
  let so := Scenario.strategy_doc "SPY_SCAN_OPT_SELL" true "STANDARD" 500 "LONG" in
  let banned : doc := <["Symbol"%string := VStr "SPY"]> {["account_id"%string := VStr "A1"]} in
  let s :=
    Scenario.fresh (Scenario.with_forbidden [banned]
                     (Scenario.with_strategies [so] Scenario.empty_db)) in
  let s' :=
    (runTrader (Scenario.broker (6 # 5) (13 # 10) Scenario.accepted Scenario.not_found)
               (Scenario.account true) [Scenario.option_signal "BUY_TO_OPEN"] s).2 in
  find [("account_id"%string, CEq (VStr "A1"))] (forbidden (store s)) = [banned] /\
  length (placed s') = 1%nat /\
  Scenario.keys_of (queue (store s')) =
    [(Some (VStr "SPY"), Some (VStr "SPY_SCAN_OPT_SELL"), Some (VStr "OPEN POSITION"))].
Proof. cbv zeta. split_and!; by_eval. Qed.

(* ===================================================================== *)
(** ** Submitting in Live mode                                            *)
(* ===================================================================== *)

Lemma py_eq_int a b : py_eq (VInt a) (VInt b) = bool_decide (a = b).
Proof.
  simpl. destruct (decide (a = b)) as [->|Hne].
  - rewrite bool_decide_eq_true_2 by done. by apply Qeq_bool_iff.
  - rewrite bool_decide_eq_false_2 by done.
    apply not_true_is_false. intros H. apply Qeq_bool_iff in H.
    exact (Hne (proj1 (inject_Z_injective a b) H)).
Qed.

(** [status_code not in [200, 201]]. *)
Lemma status_accepted sc :
  py_in_list (VInt sc) [VInt 200; VInt 201] = bool_decide (sc = 200 \/ sc = 201).
Proof.
  unfold py_in_list, existsb. rewrite !py_eq_int, orb_false_r.
  repeat case_bool_decide; try reflexivity; exfalso; tauto.
Qed.

Lemma update_first_elem q f c c' :
  update_first q f c = Some c' -> exists d, matches q d = true /\ f d ∈ c'.
Proof.
  revert c'. induction c as [|d c IH]; intros c' H; simpl in H; [ done | ].
  destruct (matches q d) eqn:E.
  - injection H as <-. exists d. split; [ done | apply list_elem_of_here ].
  - destruct (update_first q f c) as [c0|]; [ | done ]. injection H as <-.
    destruct (IH c0 eq_refl) as (d' & ? & ?). exists d'. split; [ done | ].
    by apply list_elem_of_further.
Qed.

(** After an upsert some document of the collection carries the fields. *)
Lemma update_one_set_upsert_elem q fields c :
  exists d, d ∈ update_one_set q fields true c /\ fields ⊆ d.
Proof.
  unfold update_one_set. destruct (update_first q _ c) as [c'|] eqn:E.
  - apply update_first_elem in E as (d & _ & Hd). eexists. split; [ exact Hd | ].
    apply map_union_subseteq_l.
  - eexists. split; [ apply elem_of_app; right; apply list_elem_of_here | ].
    apply map_union_subseteq_l.
Qed.

(** The two branches of [sendOrder] on the HTTP status, in Live mode. *)
Lemma place_and_queue_live w cfg symbol strategy side s h rest hash resp name :
  RUN_LIVE_TRADER cfg = true ->
  client_account_linked w (clock s) = Ok (VList (VDict h :: rest)) ->
  h !! "hashValue"%string = Some hash ->
  client_order_place w (S (clock s)) hash (self_order s) = Ok resp ->
  subscript (self_user s) "Name" = Ok name ->
  let s' := (place_and_queue w cfg symbol strategy side s).2 in
  (status_code resp <> 200 -> status_code resp <> 201 ->
     rejected (store s') =
       rejected (store s) ++
       [audit_record symbol side (VStr "REJECTED") strategy name
          (getDatetime w (S (S (clock s)))) (account_id cfg)] /\
     queue (store s') = queue (store s) /\
     last (logged s') = Some (INFO, "Rejected"%string, [symbol; name; error_message resp])) /\
  (status_code resp = 200 \/ status_code resp = 201 ->
   forall loc id sym strat,
     header resp "Location" = Some loc ->
     parse_int (strip (last_segment "/" loc)) = Some id ->
     self_obj s !! "Symbol"%string = Some sym ->
     self_obj s !! "Strategy"%string = Some strat ->
     queue (store s') =
       update_one_set (key_query name sym strat)
         (<["Order_Status"%string := VStr "QUEUED"]>
            (<["Account_Position"%string := VStr "Live"]>
               (<["Order_ID"%string := VInt id]> (self_obj s))))
         true (queue (store s)) /\
     rejected (store s') = rejected (store s)).
Proof.
  intros Hlive Hlinked Hhash Hplace Hname.
  unfold place_and_queue. rewrite Hlive.
  unfold bind, ask_res, ask, lift, get, modify, user_name, obj_set, info, ret.
  cbn -[py_in_list queueOrder]. rewrite Hlinked. cbn -[py_in_list queueOrder].
  unfold getitem. rewrite Hhash. cbn -[py_in_list queueOrder].
  rewrite Hplace, status_accepted. split.
  - intros H200 H201. rewrite bool_decide_eq_false_2 by tauto.
    cbn. rewrite Hname. cbn. rewrite last_snoc. done.
  - intros Hok loc id sym strat Hloc Hid Hsym Hstrat.
    rewrite bool_decide_eq_true_2 by tauto.
    unfold order_id_of. rewrite Hloc, Hid.
    unfold queueOrder, exception_handler, bind, get, user_name, lift, modify, getitem.
    cbn. rewrite Hname. cbn.
    rewrite ?lookup_insert_ne by done. rewrite Hsym. cbn.
    rewrite ?lookup_insert_ne by done. rewrite Hstrat. cbn. done.
Qed.

(** C5, as stated, fails twice.  A 204 answer is a 2xx answer, and the
    order is recorded as rejected instead of queued; and the record of a
    refused order holds the symbol, the side, the status, the strategy, the
    trader, the date and the account, but not the broker's error text,
    which only reaches the log. *)
Lemma C5_counterexample :
  let so := Scenario.strategy_doc "SPY_SCAN_OPT_SELL" true "STANDARD" 500 "LONG" in
  let s := Scenario.fresh (Scenario.with_strategies [so] Scenario.empty_db) in
  let no_content :=
    Scenario.reply 204 (Raise ValueError)
      (Some "https://api.schwabapi.com/trader/v1/accounts/HASH/orders/1001"%string) in
  let refused :=
    Scenario.reply 400 (Ok (VDict {["error"%string := VStr "Insufficient funds"]})) None in
  let run placement :=
    (runTrader (Scenario.broker (6 # 5) (13 # 10) placement Scenario.not_found)
               (Scenario.account true) [Scenario.option_signal "BUY_TO_OPEN"] s).2 in
  (queue (store (run no_content)) = [] /\
   length (rejected (store (run no_content))) = 1%nat) /\
  (rejected (store (run refused)) =
     [audit_record (VStr "SPY") (VStr "BUY_TO_OPEN") (VStr "REJECTED")
        (VStr "SPY_SCAN_OPT_SELL") (VStr "Trey") (VDate 7) (VStr "A1")] /\
   last (logged (run refused)) =
     Some (INFO, "Rejected"%string, [VStr "SPY"; VStr "Trey"; VStr "Insufficient funds"])).
Proof. cbv zeta. split_and!; by_eval. Qed.

(** C5, amended.  In Live mode, when the status of the order placement is
    neither 200 nor 201, [sendOrder] appends to Rejected the record of the
    symbol, the side, the status REJECTED, the strategy, the trader, the
    date and the account, leaves the queue as it was and writes the
    broker's error text to the log only.  When the status is 200 or 201
    and the last segment of the Location header is an integer, it upserts
    [self.obj] into the queue under the key (trader, symbol, strategy) with
    that [Order_ID], [Account_Position] Live and [Order_Status] QUEUED, and
    writes nothing to Rejected. *)
Theorem C5_live_submit_by_status w cfg symbol strategy side s h rest hash resp name :
  RUN_LIVE_TRADER cfg = true ->
  client_account_linked w (clock s) = Ok (VList (VDict h :: rest)) ->
  h !! "hashValue"%string = Some hash ->
  client_order_place w (S (clock s)) hash (self_order s) = Ok resp ->
  subscript (self_user s) "Name" = Ok name ->
  let s' := (place_and_queue w cfg symbol strategy side s).2 in
  (status_code resp <> 200 -> status_code resp <> 201 ->
     rejected (store s') =
       rejected (store s) ++
       [audit_record symbol side (VStr "REJECTED") strategy name
          (getDatetime w (S (S (clock s)))) (account_id cfg)] /\
     queue (store s') = queue (store s) /\
     last (logged s') = Some (INFO, "Rejected"%string, [symbol; name; error_message resp])) /\
  (status_code resp = 200 \/ status_code resp = 201 ->
   forall loc id sym strat,
     header resp "Location" = Some loc ->
     parse_int (strip (last_segment "/" loc)) = Some id ->
     self_obj s !! "Symbol"%string = Some sym ->
     self_obj s !! "Strategy"%string = Some strat ->
     queue (store s') =
       update_one_set (key_query name sym strat)
         (<["Order_Status"%string := VStr "QUEUED"]>
            (<["Account_Position"%string := VStr "Live"]>
               (<["Order_ID"%string := VInt id]> (self_obj s))))
         true (queue (store s)) /\
     rejected (store s') = rejected (store s) /\
     exists d, d ∈ queue (store s') /\
       d !! "Order_ID"%string = Some (VInt id) /\
       d !! "Order_Status"%string = Some (VStr "QUEUED") /\
       d !! "Account_Position"%string = Some (VStr "Live")).
Proof.
  intros Hlive Hlinked Hhash Hplace Hname s'.
  destruct (place_and_queue_live w cfg symbol strategy side s h rest hash resp name
              Hlive Hlinked Hhash Hplace Hname) as [Hrej Hacc].
  split; [ exact Hrej | ].
  intros Hok loc id sym strat Hloc Hid Hsym Hstrat.
  destruct (Hacc Hok loc id sym strat Hloc Hid Hsym Hstrat) as [Hq Hr].
  split; [ exact Hq | split; [ exact Hr | ] ].
  unfold s'. rewrite Hq.
  destruct (update_one_set_upsert_elem (key_query name sym strat)
              (<["Order_Status"%string := VStr "QUEUED"]>
                 (<["Account_Position"%string := VStr "Live"]>
                    (<["Order_ID"%string := VInt id]> (self_obj s))))
              (queue (store s))) as (d & Hd & Hsub).
  exists d. split; [ exact Hd | ].
  repeat split; eapply lookup_weaken; try exact Hsub; by simplify_map_eq.
Qed.

Lemma C5_witness :
  let w := Scenario.broker (6 # 5) (13 # 10) Scenario.accepted Scenario.not_found in
  let s := Scenario.fresh Scenario.empty_db in
  let s' := (place_and_queue w (Scenario.account true) (VStr "SPY")
               (VStr "SPY_SCAN_OPT_SELL") (VStr "BUY_TO_OPEN") s).2 in
  exists d, d ∈ queue (store s') /\
    d !! "Order_ID"%string = Some (VInt 1001) /\
    d !! "Order_Status"%string = Some (VStr "QUEUED") /\
    d !! "Account_Position"%string = Some (VStr "Live").
Proof.
  intros w s s'.
  refine (proj2 (proj2 (proj2
    (C5_live_submit_by_status w (Scenario.account true) (VStr "SPY")
       (VStr "SPY_SCAN_OPT_SELL") (VStr "BUY_TO_OPEN") s
       {["hashValue"%string := VStr "HASH"]} [] (VStr "HASH") Scenario.accepted (VStr "Trey")
       eq_refl eq_refl eq_refl eq_refl eq_refl)
    (or_intror eq_refl)
    "https://api.schwabapi.com/trader/v1/accounts/HASH/orders/1001"%string 1001
    VNone VNone eq_refl _ eq_refl eq_refl))).
  vm_compute. reflexivity.
Defined.

(* ===================================================================== *)
(** ** Polling an order that is still working                             *)
(* ===================================================================== *)

Lemma holds_union_other (F d : doc) (c : string * cond) :
  F !! c.1 = None -> holds (F ∪ d) c = holds d c.
Proof.
  intros HF. unfold holds, field_eq. by rewrite (lookup_union_r F d _ HF).
Qed.

Lemma matches_union_other (F d : doc) (q : query) :
  Forall (fun c => F !! c.1 = None) q -> matches q (F ∪ d) = matches q d.
Proof.
  unfold matches. induction 1 as [|c q Hc _ IH]; simpl; [ done | ].
  by rewrite holds_union_other, IH.
Qed.

Lemma update_first_twice q f c c' :
  (forall d, matches q d = true -> matches q (f d) = true) ->
  (forall d, f (f d) = f d) ->
  update_first q f c = Some c' -> update_first q f c' = Some c'.
Proof.
  intros Hm Hf. revert c'. induction c as [|d c IH]; intros c' H; simpl in H; [ done | ].
  destruct (matches q d) eqn:E.
  - injection H as <-. simpl. by rewrite (Hm d E), Hf.
  - destruct (update_first q f c) as [c0|]; [ | done ]. injection H as <-.
    simpl. rewrite E. by rewrite (IH c0 eq_refl).
Qed.

(** Setting the same fields twice is setting them once, when the fields are
    not among those the query reads. *)
Lemma update_one_set_twice q F c :
  Forall (fun k => F !! k.1 = None) q ->
  update_one_set q F false (update_one_set q F false c) = update_one_set q F false c.
Proof.
  intros Hq. unfold update_one_set.
  destruct (update_first q (fun d => F ∪ d) c) as [c'|] eqn:E.
  - assert (update_first q (fun d => F ∪ d) c' = Some c') as ->; [ | done ].
    apply (update_first_twice q _ c c'); [ | | exact E ].
    + intros d Hd. by rewrite matches_union_other.
    + intros d. by rewrite map_union_assoc, map_union_idemp.
  - by rewrite E.
Qed.

Lemma key_query_status name symbol strategy (st : value) :
  Forall (fun k : string * cond => ({["Order_Status"%string := st]} : doc) !! k.1 = None)
         (key_query name symbol strategy).
Proof. unfold key_query. repeat constructor. Qed.

Lemma status_update_twice q q' r user c :
  same_order q q' ->
  status_update q' r user (status_update q r user c) = status_update q r user c.
Proof.
  intros (H1 & H2 & H3 & H4). unfold status_update, getitem.
  rewrite H1, H2, H3, H4.
  destruct (q !! "Order_ID"%string); [ | done ].
  destruct (q !! "Order_Type"%string); [ | done ].
  destruct (subscript user "Name"); [ | done ].
  destruct (q !! "Symbol"%string); [ | done ].
  destruct (q !! "Strategy"%string); [ | done ].
  destruct (py_eq _ _); [ | done ].
  apply update_one_set_twice, key_query_status.
Qed.

(** One poll of a queued order for which the broker reports a status that
    is not terminal. *)
Lemma updateStatus_body_nonterminal w cfg q s id r :
  q !! "Order_ID"%string = Some id ->
  schwab_get_order w (clock s) id = Ok r ->
  r !! "error"%string = None ->
  nonterminal (dict_get r "status") ->
  let s' := (updateStatus_body w cfg q s).2 in
  queue (store s') = status_update q r (self_user s) (queue (store s)) /\
  only_queue_differs (store s) (store s') /\
  self_user s' = self_user s /\ clock s' = S (clock s) /\
  logged s' = logged s /\ pushed s' = pushed s /\ placed s' = placed s.
Proof.
  intros Hid Hr Herr (Hf & Hc & Hj).
  change (wp (updateStatus_body w cfg q)
            (fun _ s' =>
               queue (store s') = status_update q r (self_user s) (queue (store s)) /\
               only_queue_differs (store s) (store s') /\
               self_user s' = self_user s /\ clock s' = S (clock s) /\
               logged s' = logged s /\ pushed s' = pushed s /\ placed s' = placed s) s).
  unfold updateStatus_body.
  apply wp_bind, wp_lift. unfold getitem at 1. rewrite Hid.
  apply wp_bind, wp_ask_res. rewrite Hr.
  rewrite bool_decide_eq_false_2 by (rewrite Herr; by intros [? ?]).
  cbv zeta. unfold py_in_list, existsb. rewrite Hf, Hc, Hj. cbn [orb].
  unfold status_update, getitem. rewrite Hid.
  repeat wp_step; ok_inj; simpl in *; unfold getitem in *;
    repeat match goal with
           | H : match ?x with Some _ => _ | None => _ end = _ |- _ =>
               destruct x eqn:?; try discriminate; ok_inj
           | H : subscript _ _ = _ |- _ => rewrite H
           | H : py_eq _ _ = _ |- _ => rewrite H
           end;
    repeat case_match; by repeat split.
Qed.

(** C7.  When the broker answers two successive polls of a queued order
    with the same status, and that status is none of FILLED, CANCELED and
    REJECTED, the second poll leaves the queue as the first one left it
    (the first one sets the status of the record); neither poll writes to
    Rejected, to Canceled or to the positions, sends a notification or
    places an order. *)
Theorem C7_poll_idempotent_when_working w cfg q q' s id r :
  q !! "Order_ID"%string = Some id ->
  same_order q q' ->
  (forall t, schwab_get_order w t id = Ok r) ->
  r !! "error"%string = None ->
  nonterminal (dict_get r "status") ->
  let s1 := (updateStatus_body w cfg q s).2 in
  let s2 := (updateStatus_body w cfg q' s1).2 in
  queue (store s1) = status_update q r (self_user s) (queue (store s)) /\
  queue (store s2) = queue (store s1) /\
  only_queue_differs (store s) (store s1) /\
  only_queue_differs (store s1) (store s2) /\
  pushed s2 = pushed s /\ placed s2 = placed s.
Proof.
  intros Hid Hsame Hr Herr Hnt s1 s2.
  destruct (updateStatus_body_nonterminal w cfg q s id r Hid (Hr _) Herr Hnt)
    as (Hq1 & Hd1 & Hu1 & _ & _ & Hp1 & Hb1).
  assert (q' !! "Order_ID"%string = Some id) as Hid'.
  { destruct Hsame as (-> & _). exact Hid. }
  destruct (updateStatus_body_nonterminal w cfg q' s1 id r Hid' (Hr _) Herr Hnt)
    as (Hq2 & Hd2 & _ & _ & _ & Hp2 & Hb2).
  fold s1 in Hq1, Hd1, Hu1, Hp1, Hb1. fold s2 in Hq2, Hd2, Hp2, Hb2.
  split_and!; try done; try congruence.
  rewrite Hq2, Hu1, Hq1. by apply status_update_twice.
Qed.

Lemma C7_witness :
  let w := Scenario.broker (6 # 5) (13 # 10) Scenario.accepted Scenario.working in
  let q := Scenario.queued_order in
  let q' := <["Order_Status"%string := VStr "WORKING"]> q in
  let s := Scenario.fresh (Scenario.with_queue [q] Scenario.empty_db) in
  let s1 := (updateStatus_body w (Scenario.account true) q s).2 in
  let s2 := (updateStatus_body w (Scenario.account true) q' s1).2 in
  queue (store s1) = [q'] /\ queue (store s2) = [q'].
Proof.
  intros w q q' s s1 s2.
  assert (same_order q q') as Hsame by (repeat split; reflexivity).
  assert (nonterminal (dict_get Scenario.working "status")) as Hnt
    by (repeat split; reflexivity).
  destruct (C7_poll_idempotent_when_working w (Scenario.account true) q q' s (VInt 1001)
              Scenario.working eq_refl Hsame (fun _ => eq_refl) eq_refl Hnt)
    as (H1 & H2 & _).
  fold s1 in H1, H2. fold s2 in H2. rewrite H2, H1. split; by_eval.
Defined.

(* ===================================================================== *)
(** ** Resolving a queued order                                           *)
(* ===================================================================== *)

Lemma delete_one_found q c d : find_one q c = Some d -> (delete_one q c).2 = 1.
Proof.
  unfold find_one, find. induction c as [|x c IH]; simpl; [ done | ].
  destruct (matches q x); simpl; auto.
Qed.

(** [pushOrder] never raises; it either completes, and then it has
    resolved the order, or it has caught an exception, and then it has
    written nothing to the store. *)
Lemma pushOrder_spec w cfg q spec di s :
  wp (pushOrder w cfg q spec di)
     (fun r s' =>
        resolve_frame s s' /\
        match r with
        | Ok (Some _) => resolved cfg q spec di s s'
        | Ok None => store s' = store s /\ pushed s' = pushed s
        | Raise _ => False
        end) s.
Proof.
  unfold pushOrder.
  repeat wp_step.
  all: try (split; [ by repeat split | by split ]).
  all: ok_inj; state_simpl.
  all: try congruence.
  all: (split; [ by repeat split | ]).
  all: repeat match goal with
              | H : getitem _ _ = Ok _ |- _ => apply getitem_Ok in H
              | p : (value * Z)%type |- _ => destruct p
              end.
  all: unfold resolved; state_simpl.
  all: repeat match goal with
              | H1 : ?x = Ok ?a, H2 : ?x = Ok ?b |- _ =>
                  rewrite H1 in H2; injection H2 as <-
              | H : match ?x with Some _ => _ | None => _ end = Ok _ |- _ =>
                  destruct x eqn:?; [ injection H as <- | discriminate H ]
              end.
  all: do 7 eexists; split_and!; try eassumption; try reflexivity.
  all: try (rewrite length_app; simpl; lia).
  all: repeat match goal with H : py_eq _ _ = _ |- _ => rewrite H end.
  all: try done.
  all: try match goal with
           | H : find_one ?q ?c = Some _, H' : ((delete_one ?q ?c).2 =? 0) = true |- _ =>
               rewrite (delete_one_found _ _ _ H) in H'; discriminate H'
           end.
  all: unfold opened_with, closed_with, insert_one; state_simpl.
  all: repeat match goal with
              | H : ?d !! ?k = Some _ |- context [?d !! ?k] => rewrite H
              end.
  all: lazymatch goal with
       | |- exists rec pos, _ =>
           eexists _, _; split; [ eassumption | ];
           split; [ reflexivity | ]; split; [ reflexivity | ];
           split_and!; by simplify_map_eq
       | |- exists rec, _ =>
           eexists; split; [ reflexivity | ]; split; [ reflexivity | ];
           split_and!; by simplify_map_eq
       end.
Qed.

Lemma has_fields_getitem ks d k :
  has_fields ks d -> k ∈ ks -> exists v, getitem d k = Ok v.
Proof.
  intros Hd Hk. unfold has_fields in Hd. rewrite Forall_forall in Hd.
  destruct (Hd k Hk) as [v Hv]. exists v. by apply getitem_Ok.
Qed.

Ltac field_absurd Hb Ho :=
  match goal with
  | H : getitem ?q ?k = Raise _ |- _ =>
      let v := fresh in let Hv := fresh in
      first
        [ destruct (has_fields_getitem _ q k Hb) as [v Hv];
          [ solve [ unfold queued_fields; repeat constructor ] | congruence ]
        | match goal with
          | Ha : q !! "Asset_Type"%string = Some ?a, Hp : py_eq ?a _ = true |- _ =>
              destruct (has_fields_getitem _ q k (Ho a Ha Hp)) as [v Hv];
              [ solve [ unfold option_fields; repeat constructor ] | congruence ]
          end ]
  end.

Lemma pushOrder_completes w cfg q spec di s name symbol strategy d p n p' :
  queued_complete q ->
  subscript (self_user s) "Name" = Ok name ->
  q !! "Symbol"%string = Some symbol ->
  q !! "Strategy"%string = Some strategy ->
  q !! "Direction"%string = Some d ->
  fill_of q spec = Ok (p, n) ->
  resolve_price p = Ok p' ->
  (py_eq d (VStr "OPEN POSITION") = false ->
   py_eq d (VStr "CLOSE POSITION") = true ->
   exists pos,
     find_one (key_query name symbol strategy) (open_positions (store s)) = Some pos /\
     position_complete pos) ->
  (pushOrder w cfg q spec di s).1 = Ok (Some tt).
Proof.
  intros [Hb Ho] Hname Hsym Hstrat Hd Hfill Hp Hpos.
  change (wp (pushOrder w cfg q spec di) (fun r _ => r = Ok (Some tt)) s).
  apply getitem_Ok in Hsym, Hstrat, Hd.
  unfold pushOrder.
  repeat wp_step.
  all: try reflexivity.
  all: repeat match goal with
              | H : getitem _ "Asset_Type"%string = Ok _ |- _ => apply getitem_Ok in H
              end.
  all: try (exfalso; field_absurd Hb Ho).
  all: state_simpl; try congruence.
  all: ok_inj; state_simpl; try congruence.
  all: match goal with
       | Hb0 : py_eq ?d _ = false, Hb1 : py_eq ?d _ = true |- _ =>
           destruct (Hpos Hb0 Hb1) as (pos & Hfind & Hpc); unfold position_complete in Hpc
       end.
  all: rewrite Hfind in *; ok_inj.
  all: exfalso; try discriminate.
  all: match goal with
       | H : getitem ?pos ?k = Raise _ |- _ =>
           destruct (has_fields_getitem _ pos k Hpc) as [? ?];
           [ solve [ repeat constructor ] | congruence ]
       end.
Qed.

(* ===================================================================== *)
(** ** An order the broker does not know                                  *)
(* ===================================================================== *)

Lemma fill_of_custom q p n :
  fill_of q (custom_fill p n) = (let+ qty := getitem q "Qty" in let+ shares := py_int qty in Ok (p, shares)).
Proof.
  unfold fill_of, custom_fill.
  rewrite bool_decide_eq_false_2 by (intros [? H]; by simplify_map_eq).
  unfold getitem at 1. by simplify_map_eq.
Qed.

Lemma pushOrder_returns w cfg q spec di s : exists o, (pushOrder w cfg q spec di s).1 = Ok o.
Proof.
  pose proof (pushOrder_spec w cfg q spec di s) as H. unfold wp in H.
  destruct (pushOrder w cfg q spec di s) as [[o|e] s']; simpl in *; [ eauto | tauto ].
Qed.

Lemma updateStatus_body_not_found w cfg q s id r d p n :
  q !! "Order_ID"%string = Some id ->
  schwab_get_order w (clock s) id = Ok r ->
  is_Some (r !! "error"%string) ->
  q !! "Direction"%string = Some d ->
  q !! snapshot_price_field d = Some p ->
  q !! "Qty"%string = Some n ->
  is_Some (q !! "Symbol"%string) -> is_Some (q !! "Order_Type"%string) ->
  exists s0,
    store s0 = store s /\ self_user s0 = self_user s /\ pushed s0 = pushed s /\
    (updateStatus_body w cfg q s).1 = Ok tt /\
    (updateStatus_body w cfg q s).2
    = (pushOrder w cfg q (custom_fill p n) (integrity_of cfg) s0).2.
Proof.
  intros Hid Hr Herr Hd Hp Hn [sy Hsy] [ot Hot].
  unfold updateStatus_body, bind, lift, ask_res, getitem. rewrite Hid. cbn -[pushOrder].
  rewrite Hr. cbn -[pushOrder]. rewrite bool_decide_eq_true_2 by done.
  rewrite Hd. unfold snapshot_price_field in Hp.
  destruct (py_eq d (VStr "OPEN POSITION")); rewrite Hp; cbn -[pushOrder];
    rewrite Hn; cbn -[pushOrder].
  all: unfold integrity_of; destruct (RUN_LIVE_TRADER cfg).
  all: rewrite ?Hsy, ?Hot; cbn -[pushOrder].
  all: match goal with
       | |- context [pushOrder ?w ?cfg ?q ?c ?di ?s0] =>
           exists s0; destruct (pushOrder_returns w cfg q c di s0) as [o Ho];
           destruct (pushOrder w cfg q c di s0) as [ro so]; simpl in Ho; subst ro
       end.
  all: by split_and!.
Qed.

Lemma opened_with_store q name p di n s0 s s' :
  store s0 = store s -> opened_with q name p di n s0 s' -> opened_with q name p di n s s'.
Proof. unfold opened_with. intros ->. done. Qed.

Lemma closed_with_store q name symbol strategy p di s0 s s' :
  store s0 = store s ->
  closed_with q name symbol strategy p di s0 s' -> closed_with q name symbol strategy p di s s'.
Proof. unfold closed_with. intros ->. done. Qed.

(* ===================================================================== *)
(** ** Keys of the records of a collection                                *)
(* ===================================================================== *)

Lemma bson_eq_str x y : bson_eq (VStr x) (VStr y) = bool_decide (x = y).
Proof. unfold bson_eq, bson_scalar_eq. simpl. by rewrite orb_false_r. Qed.

Lemma doc_key_Some d a b :
  doc_key d = Some (a, b) <->
  d !! "Symbol"%string = Some (VStr a) /\ d !! "Strategy"%string = Some (VStr b).
Proof.
  unfold doc_key, str_field.
  destruct (d !! "Symbol"%string) as [[]|]; destruct (d !! "Strategy"%string) as [[]|];
    split; try (intros [? ?]); try intros ?; simplify_eq; auto.
Qed.

Lemma matches_key_query name acct a b d :
  owned name acct d ->
  matches (key_query (VStr name) (VStr a) (VStr b)) d = bool_decide (doc_key d = Some (a, b)).
Proof.
  intros (Ht & _ & [[a' b'] Hk]).
  pose proof (proj1 (doc_key_Some d a' b') Hk) as [Hs Hg].
  unfold matches, key_query, holds, field_eq. simpl.
  rewrite Ht, Hs, Hg, !bson_eq_str, Hk.
  rewrite bool_decide_eq_true_2 by done. simpl. rewrite andb_true_r.
  repeat case_bool_decide; simplify_eq; done.
Qed.

Lemma matches_key_query_acct cfg name a b d :
  bson_eq (account_id cfg) (account_id cfg) = true ->
  owned name (account_id cfg) d ->
  matches (key_query_acct cfg (VStr name) (VStr a) (VStr b)) d
  = bool_decide (doc_key d = Some (a, b)).
Proof.
  intros Hacct Ho. unfold key_query_acct, matches.
  rewrite forallb_app. fold (matches (key_query (VStr name) (VStr a) (VStr b)) d).
  rewrite (matches_key_query name (account_id cfg)) by done.
  destruct Ho as (_ & Ha & _). simpl. unfold holds, field_eq. simpl.
  rewrite Ha, Hacct. by rewrite !andb_true_r.
Qed.

Section Keys.

Variable name : string.
Variable acct : value.

Local Abbreviation well_keyed := (well_keyed name acct).

Lemma holds_key_elem k c : holds_key k c <-> exists d, d ∈ c /\ doc_key d = Some k.
Proof.
  unfold holds_key. rewrite list_elem_of_fmap. split; intros (d & H1 & H2); eauto.
Qed.

Lemma find_one_Some q c d : find_one q c = Some d -> d ∈ c /\ matches q d = true.
Proof.
  unfold find_one, find. intros H. apply head_Some_elem_of in H.
  apply list_elem_of_In, filter_In in H as [H1 H2]. split; [ by apply list_elem_of_In | done ].
Qed.

Lemma find_one_None q c : find_one q c = None <-> Forall (fun d => matches q d = false) c.
Proof.
  unfold find_one, find. induction c as [|d c IH]; simpl.
  - split; [ constructor | done ].
  - destruct (matches q d) eqn:E; simpl.
    + split; [ done | ]. intros H. apply Forall_cons in H as [H _]. congruence.
    + rewrite IH. split; [ by constructor | ]. by intros [_ H]%Forall_cons.
Qed.

Lemma find_one_key_None q a b c :
  (forall d, owned name acct d -> matches q d = bool_decide (doc_key d = Some (a, b))) ->
  Forall (owned name acct) c ->
  find_one q c = None <-> ~ holds_key (a, b) c.
Proof.
  intros Hq Hc. rewrite find_one_None, holds_key_elem. rewrite Forall_forall in Hc.
  rewrite Forall_forall. split.
  - intros H (d & Hd & Hk). specialize (H d Hd). rewrite (Hq d (Hc d Hd)) in H.
    by rewrite bool_decide_eq_true_2 in H.
  - intros H d Hd. rewrite (Hq d (Hc d Hd)). apply bool_decide_eq_false_2.
    intros Hk. apply H. eauto.
Qed.

Lemma find_one_key_Some q a b c d :
  (forall d, owned name acct d -> matches q d = bool_decide (doc_key d = Some (a, b))) ->
  Forall (owned name acct) c ->
  find_one q c = Some d -> d ∈ c /\ doc_key d = Some (a, b).
Proof.
  intros Hq Hc H. apply find_one_Some in H as [Hd Hm]. split; [ done | ].
  rewrite Forall_forall in Hc. rewrite (Hq d (Hc d Hd)) in Hm.
  by apply bool_decide_eq_true_1 in Hm.
Qed.

Lemma delete_one_elem q c d : d ∈ (delete_one q c).1 -> d ∈ c.
Proof.
  induction c as [|x c IH]; simpl; [ done | ].
  destruct (matches q x); simpl; intros H.
  - by apply list_elem_of_further.
  - apply elem_of_cons in H as [->|H]; [ apply list_elem_of_here | ].
    apply list_elem_of_further. by apply IH.
Qed.

Lemma delete_one_keeps q c d : d ∈ c -> matches q d = false -> d ∈ (delete_one q c).1.
Proof.
  induction c as [|x c IH]; simpl; intros Hd Hm; [ done | ].
  apply elem_of_cons in Hd as [->|Hd].
  - rewrite Hm. simpl. apply list_elem_of_here.
  - destruct (matches q x); simpl; [ done | ]. apply list_elem_of_further. by apply IH.
Qed.

Lemma delete_one_Forall (P : doc -> Prop) q c : Forall P c -> Forall P (delete_one q c).1.
Proof.
  rewrite !Forall_forall. intros H d Hd. apply H. by eapply delete_one_elem.
Qed.

Lemma delete_one_NoDup q c : NoDup (keys c) -> NoDup (keys (delete_one q c).1).
Proof.
  unfold keys. induction c as [|x c IH]; simpl; [ done | ].
  rewrite NoDup_cons. intros [Hx Hc].
  destruct (matches q x); simpl; [ done | ].
  rewrite ?fmap_cons. apply NoDup_cons. split; [ | by apply IH ].
  intros H. apply Hx. apply list_elem_of_fmap in H as (d & -> & Hd).
  apply list_elem_of_fmap. exists d. split; [ done | by eapply delete_one_elem ].
Qed.

Lemma well_keyed_delete q c : well_keyed c -> well_keyed (delete_one q c).1.
Proof. intros [Ho Hn]. split; [ by apply delete_one_Forall | by apply delete_one_NoDup ]. Qed.

(** Deleting by key removes the key, when keys are not repeated. *)
Lemma delete_one_gone q a b c :
  (forall d, owned name acct d -> matches q d = bool_decide (doc_key d = Some (a, b))) ->
  well_keyed c -> ~ holds_key (a, b) (delete_one q c).1.
Proof.
  intros Hq [Ho Hn]. unfold keys in Hn.
  induction c as [|x c IH]; simpl.
  - intros H. apply holds_key_elem in H as (d & Hd & _). by apply elem_of_nil in Hd.
  - apply Forall_cons in Ho as [Hox Ho]. rewrite ?fmap_cons in Hn.
    apply NoDup_cons in Hn as [Hx Hn].
    rewrite (Hq x Hox). case_bool_decide as Hk; simpl.
    + intros H. apply Hx. rewrite Hk. exact H.
    + intros H. apply holds_key_elem in H as (d & Hd & Hd').
      apply elem_of_cons in Hd as [->|Hd]; [ done | ].
      apply (IH Ho Hn). apply holds_key_elem. eauto.
Qed.

Lemma delete_one_other q a b c k :
  (forall d, owned name acct d -> matches q d = bool_decide (doc_key d = Some (a, b))) ->
  Forall (owned name acct) c -> k <> (a, b) ->
  holds_key k (delete_one q c).1 <-> holds_key k c.
Proof.
  intros Hq Ho Hne. rewrite !holds_key_elem. split; intros (d & Hd & Hk).
  - exists d. split; [ by eapply delete_one_elem | done ].
  - exists d. split; [ | done ]. apply delete_one_keeps; [ done | ].
    rewrite Forall_forall in Ho. rewrite (Hq d (Ho d Hd)).
    apply bool_decide_eq_false_2. congruence.
Qed.

Lemma doc_key_union F d : inert F -> doc_key (F ∪ d) = doc_key d.
Proof.
  intros (_ & _ & Hs & Hg & _). unfold doc_key, str_field.
  by rewrite !lookup_union_r.
Qed.

Lemma owned_union F d : inert F -> owned name acct d -> owned name acct (F ∪ d).
Proof.
  intros HF (Ht & Ha & Hk). pose proof HF as (Hft & Hfa & _).
  unfold owned. rewrite !lookup_union_r, doc_key_union; auto.
Qed.

Lemma update_first_keys q F c c' :
  inert F -> update_first q (fun d => F ∪ d) c = Some c' -> keys c' = keys c.
Proof.
  intros HF. unfold keys. revert c'. induction c as [|x c IH]; intros c' H; simpl in H; [ done | ].
  destruct (matches q x).
  - injection H as <-. rewrite ?fmap_cons. by rewrite doc_key_union.
  - destruct (update_first q _ c) as [c0|]; [ | done ]. injection H as <-.
    rewrite ?fmap_cons. by rewrite (IH c0 eq_refl).
Qed.

Lemma update_first_elem_inv q F c c' d' :
  update_first q (fun d => F ∪ d) c = Some c' -> d' ∈ c' ->
  exists d, d ∈ c /\ (d' = d \/ d' = F ∪ d).
Proof.
  revert c'. induction c as [|x c IH]; intros c' H Hd; simpl in H; [ done | ].
  destruct (matches q x).
  - injection H as <-. apply elem_of_cons in Hd as [->|Hd].
    + exists x. split; [ apply list_elem_of_here | auto ].
    + exists d'. split; [ by apply list_elem_of_further | auto ].
  - destruct (update_first q _ c) as [c0|]; [ | done ]. injection H as <-.
    apply elem_of_cons in Hd as [->|Hd].
    + exists x. split; [ apply list_elem_of_here | auto ].
    + destruct (IH c0 eq_refl Hd) as (d & ? & ?). exists d.
      split; [ by apply list_elem_of_further | done ].
Qed.

Lemma update_one_set_inert q F c :
  inert F -> well_keyed c ->
  well_keyed (update_one_set q F false c) /\
  keys (update_one_set q F false c) = keys c /\
  (forall d', d' ∈ update_one_set q F false c ->
     exists d, d ∈ c /\ doc_key d' = doc_key d /\
               d' !! "Direction"%string = d !! "Direction"%string).
Proof.
  intros HF [Ho Hn]. unfold update_one_set.
  destruct (update_first q (fun d => F ∪ d) c) as [c'|] eqn:E.
  - pose proof (update_first_keys q F c c' HF E) as Hk. split_and!.
    + split; [ | by rewrite Hk ]. rewrite Forall_forall in Ho. apply Forall_forall.
      intros d' Hd'. destruct (update_first_elem_inv q F c c' d' E Hd') as (d & Hd & [->| ->]).
      * by apply Ho.
      * apply owned_union; [ done | by apply Ho ].
    + done.
    + intros d' Hd'. destruct (update_first_elem_inv q F c c' d' E Hd') as (d & Hd & [->| ->]).
      * eauto.
      * exists d. split_and!; [ done | by apply doc_key_union | ].
        destruct HF as (_ & _ & _ & _ & HD). by rewrite lookup_union_r.
  - split_and!; [ done | done | eauto ].
Qed.

Lemma update_one_set_insert q F c :
  find_one q c = None -> update_one_set q F true c = c ++ [F ∪ eq_fields q].
Proof.
  intros H. apply find_one_None in H. unfold update_one_set.
  assert (update_first q (fun d => F ∪ d) c = None) as ->; [ | done ].
  induction H as [|x c Hx _ IH]; simpl; [ done | ]. by rewrite Hx, IH.
Qed.

End Keys.

(** The price that [pushOrder] writes is the price of the fill rounded by
    its rule. *)
Lemma resolve_price_fill_price p p' : resolve_price p = Ok p' -> fill_price p p'.
Proof.
  destruct p as [ |b|z|[x|n| ]|?|?|?|?|?]; simpl; intros H; try discriminate H;
    injection H as <-; try reflexivity; try (by destruct n).
  exists (fill_round (Fin x)). split; [ reflexivity | ].
  unfold fill_round, float_ge. change (inject_Z 1) with 1%Q.
  destruct (Qle_bool 1 x); apply py_round_rounded.
Qed.

Lemma resolve_price_number p : is_number p -> exists p', resolve_price p = Ok p'.
Proof. destruct p; simpl; try done; eauto. Qed.

Lemma for_each_app {A} (body : A -> M unit) l1 l2 s :
  for_each body (l1 ++ l2) s =
    match for_each body l1 s with
    | (Ok _, s1) => for_each body l2 s1
    | (Raise e, s1) => (Raise e, s1)
    end.
Proof.
  revert s. induction l1 as [|x l1 IH]; intros s; simpl; [ done | ].
  unfold bind. destruct (body x s) as [[u|e] s1]; [ apply IH | done ].
Qed.

(** With a valid token [updateStatus] is the loop over the records that the
    queue holds for the trader and the account when it starts. *)
Lemma updateStatus_valid w cfg s name :
  checkTokenValidity w (clock s) = true ->
  subscript (self_user s) "Name" = Ok name ->
  updateStatus w cfg s =
    exception_handler
      (for_each (updateStatus_body w cfg)
         (find [("Trader", CEq name); ("Order_ID", CNe VNone);
                ("account_id", CEq (account_id cfg))]%string (queue (store s))))
      (tick s).
Proof.
  intros Hv Hn. unfold updateStatus, exception_handler, bind, ask, user_name, get, lift.
  rewrite Hv. simpl. rewrite Hn. reflexivity.
Qed.

Lemma updateStatus_body_keeps_user w cfg q s :
  self_user (updateStatus_body w cfg q s).2 = self_user s.
Proof.
  change (wp (updateStatus_body w cfg q) (fun _ s' => self_user s' = self_user s) s).
  unfold updateStatus_body, extractOCOchildren.
  repeat wp_step.
  all: try reflexivity.
  all: eapply wp_mono; [ apply pushOrder_spec | ].
  all: intros [[u|]|e] s2 [(_ & _ & _ & _ & _ & Hu & _) _]; exact Hu.
Qed.

Lemma for_each_keeps_user w cfg l s :
  self_user (for_each (updateStatus_body w cfg) l s).2 = self_user s.
Proof.
  revert s. induction l as [|q l IH]; intros s; simpl; [ done | ].
  unfold bind. pose proof (updateStatus_body_keeps_user w cfg q s) as Hq.
  destruct (updateStatus_body w cfg q s) as [[u|e] s1]; simpl in *; [ | done ].
  by rewrite IH.
Qed.




(* ===================================================================== *)
(** ** The children of a filled bracket                                   *)
(* ===================================================================== *)

Lemma oco_entry_describes child f :
  describes child f -> hashable (lf_id f) = true ->
  oco_entry child = Ok (lf_id f, entry_of f).
Proof.
  intros (d & l0 & rest & -> & Hid & Hlegs & Hside & Hstatus & Hstop) Hh.
  unfold oco_entry, rbind, subscript, getitem, has_key, entry_of.
  rewrite Hlegs. simpl. rewrite Hside.
  destruct (lf_stop f).
  - rewrite bool_decide_eq_true_2 by (rewrite Hstop; eauto).
    rewrite Hstop, Hstatus, Hid, Hh. done.
  - destruct Hstop as [Hnone Hprice].
    rewrite bool_decide_eq_false_2 by (rewrite Hnone; by intros [? ?]).
    rewrite Hprice, Hstatus, Hid, Hh. done.
Qed.

(** A key equal to none of the dict goes to the end. *)
Lemma items_set_fresh k x m :
  forallb (fun kv => negb (py_eq kv.1 k)) m = true -> items_set k x m = m ++ [(k, x)].
Proof.
  induction m as [|[k' y] m IH]; simpl; [ done | ].
  intros [Hk Hm]%andb_true_iff. apply negb_true_iff in Hk. rewrite Hk. by rewrite IH.
Qed.

Lemma oco_loop_describes children fs acc :
  Forall2 describes children fs ->
  distinct_ids (lf_id <$> fs) = true ->
  forallb (fun f => forallb (fun kv => negb (py_eq kv.1 (lf_id f))) acc) fs = true ->
  oco_loop children acc = Ok (acc ++ entries fs).
Proof.
  intros H. revert acc. induction H as [|c f cs fs Hc _ IH]; intros acc Hd Hacc; simpl.
  - by rewrite app_nil_r.
  - rewrite fmap_cons in Hd. simpl in Hd, Hacc.
    apply andb_true_iff in Hd as [[Hh Hf]%andb_true_iff Hd].
    apply andb_true_iff in Hacc as [Hf' Hacc].
    rewrite (oco_entry_describes c f Hc Hh), (items_set_fresh _ _ _ Hf').
    rewrite IH; [ | done | ].
    + unfold entries. rewrite ?fmap_cons. by rewrite <- app_assoc.
    + rewrite forallb_forall in Hacc, Hf. apply forallb_forall. intros g Hg.
      rewrite forallb_app, (Hacc g Hg). simpl. rewrite andb_true_r.
      apply Hf. apply in_map_iff. exists g. split; [ done | ]. exact Hg.
Qed.

Lemma extractOCOchildren_describes spec s (c0 : doc) rest0 children fs :
  spec !! "childOrderStrategies"%string = Some (VList (VDict c0 :: rest0)) ->
  c0 !! "childOrderStrategies"%string = Some (VList children) ->
  Forall2 describes children fs ->
  distinct_ids (lf_id <$> fs) = true ->
  extractOCOchildren spec s
  = (Ok (Some ({["childOrderStrategies"%string := VIdMap (entries fs)]} : doc)), s).
Proof.
  intros Hspec Hc0 Hfs Hd.
  unfold extractOCOchildren, exception_handler, bind, lift, ret, getitem.
  rewrite Hspec. simpl. unfold getitem. rewrite Hc0. simpl.
  rewrite (oco_loop_describes children fs [] Hfs Hd); [ done | ].
  apply forallb_forall. by intros.
Qed.

(** [pushOrder] does not read the map of the children. *)
Lemma pushOrder_ignores_children w cfg (c q : doc) m spec di s :
  c = {["childOrderStrategies"%string := m]} ->
  pushOrder w cfg (c ∪ q) spec di s = pushOrder w cfg q spec di s.
Proof.
  intros ->. rewrite <- insert_union_singleton_l.
  unfold pushOrder, fill_of, getitem.
  rewrite !lookup_insert_ne by done. reflexivity.
Qed.

Lemma updateStatus_body_filled_oco w cfg q s id r ot c :
  q !! "Order_ID"%string = Some id ->
  schwab_get_order w (clock s) id = Ok r ->
  r !! "error"%string = None ->
  py_eq (dict_get r "status") (VStr "FILLED") = true ->
  py_eq id (dict_get r "orderId") = true ->
  q !! "Order_Type"%string = Some ot ->
  py_eq ot (VStr "OCO") = true ->
  extractOCOchildren r (tick s) = (Ok (Some c), tick s) ->
  updateStatus_body w cfg q s
  = (Ok tt, (pushOrder w cfg (c ∪ q) r (VStr "Reliable") (tick s)).2).
Proof.
  intros Hid Hr Herr Hst Hoid Hot Hoco Hex.
  unfold updateStatus_body, bind, lift, ask_res, getitem.
  rewrite Hid. cbn -[pushOrder extractOCOchildren].
  rewrite Hr. cbn -[pushOrder extractOCOchildren].
  rewrite bool_decide_eq_false_2 by (rewrite Herr; by intros [? ?]).
  rewrite Hot. cbn -[pushOrder extractOCOchildren].
  rewrite Hoid, Hst, Hoco, Hex. cbn -[pushOrder].
  destruct (pushOrder_returns w cfg (c ∪ q) r (VStr "Reliable") (tick s)) as [o Ho].
  destruct (pushOrder w cfg (c ∪ q) r (VStr "Reliable") (tick s)) as [ro so].
  simpl in Ho. subst ro. done.
Qed.

(** When the children cannot be extracted the order is not resolved: the
    merge of [None] raises and the poll stops there. *)
Lemma updateStatus_body_oco_needs_children w cfg q s id r ot s0 :
  q !! "Order_ID"%string = Some id ->
  schwab_get_order w (clock s) id = Ok r ->
  r !! "error"%string = None ->
  py_eq (dict_get r "status") (VStr "FILLED") = true ->
  py_eq id (dict_get r "orderId") = true ->
  q !! "Order_Type"%string = Some ot ->
  py_eq ot (VStr "OCO") = true ->
  extractOCOchildren r (tick s) = (Ok None, s0) ->
  updateStatus_body w cfg q s = (Raise TypeError, s0).
Proof.
  intros Hid Hr Herr Hst Hoid Hot Hoco Hex.
  unfold updateStatus_body, bind, lift, ask_res, getitem.
  rewrite Hid. cbn -[pushOrder extractOCOchildren].
  rewrite Hr. cbn -[pushOrder extractOCOchildren].
  rewrite bool_decide_eq_false_2 by (rewrite Herr; by intros [? ?]).
  rewrite Hot. cbn -[pushOrder extractOCOchildren].
  rewrite Hoid, Hst, Hoco, Hex. reflexivity.
Qed.

(** No record that [pushOrder] writes has the map of the children. *)
Lemma pushOrder_writes_no_children w cfg q spec di s :
  let s' := (pushOrder w cfg q spec di s).2 in
  adds_without "childOrderStrategies" (queue (store s)) (queue (store s')) /\
  adds_without "childOrderStrategies" (open_positions (store s)) (open_positions (store s')) /\
  adds_without "childOrderStrategies" (closed_positions (store s))
    (closed_positions (store s')).
Proof.
  intros s'. pose proof (pushOrder_spec w cfg q spec di s) as H. unfold wp in H.
  fold s' in H. destruct H as [_ H].
  destruct (pushOrder w cfg q spec di s).1 as [[u|]|e]; [ | | done ].
  2:{ destruct H as [-> _]. split_and!; intros rec Hrec; by left. }
  destruct H as (name & symbol & strategy & d & p & n & p' & _ & _ & _ & _ & _ & _ & Hq & _ & H).
  split.
  { intros rec Hrec. left. rewrite Hq in Hrec. by eapply delete_one_elem. }
  destruct (py_eq d (VStr "OPEN POSITION")); [ | destruct (py_eq d (VStr "CLOSE POSITION")) ].
  - destruct H as (rec0 & Ho & Hc & H). split; intros rec Hrec.
    + rewrite Ho in Hrec. apply elem_of_app in Hrec as [Hrec|Hrec]; [ by left | ].
      apply list_elem_of_singleton in Hrec as ->. right. apply H.
    + left. by rewrite Hc in Hrec.
  - destruct H as (rec0 & pos & _ & Ho & Hc & H). split; intros rec Hrec.
    + left. rewrite Ho in Hrec. by eapply delete_one_elem.
    + rewrite Hc in Hrec. apply elem_of_app in Hrec as [Hrec|Hrec]; [ by left | ].
      apply list_elem_of_singleton in Hrec as ->. right. apply H.
  - destruct H as [Ho Hc]. split; intros rec Hrec; left; congruence.
Qed.



(* ===================================================================== *)
(** ** What a method leaves alone                                         *)
(* ===================================================================== *)

Section Frames.

Context {R : state -> state -> Prop} `{!PreOrder R}.

Lemma frames_bind {A B} (m : M A) (k : A -> M B) :
  frames R m -> (forall a, frames R (k a)) -> frames R (bind m k).
Proof.
  intros Hm Hk s. unfold bind. specialize (Hm s).
  destruct (m s) as [[a|e] s1]; simpl in *; [ | done ].
  etrans; [ exact Hm | apply Hk ].
Qed.

Lemma frames_ret {A} (a : A) : frames R (ret a).
Proof. intros s. reflexivity. Qed.

Lemma frames_raise {A} e : frames R (raise (A:=A) e).
Proof. intros s. reflexivity. Qed.

Lemma frames_lift {A} (r : res A) : frames R (lift r).
Proof. intros s. reflexivity. Qed.

Lemma frames_get {A} (f : state -> A) : frames R (get f).
Proof. intros s. reflexivity. Qed.

Lemma frames_modify f : (forall s, R s (f s)) -> frames R (modify f).
Proof. intros H s. apply H. Qed.

Lemma frames_ask {A} (f : nat -> A) : (forall s, R s (tick s)) -> frames R (ask f).
Proof. intros H s. apply H. Qed.

Lemma frames_ask_res {A} (f : nat -> res A) : (forall s, R s (tick s)) -> frames R (ask_res f).
Proof. intros H s. apply H. Qed.

Lemma frames_exception_handler {A} (m : M A) :
  (forall e s, R s (add_log e s)) -> frames R m -> frames R (exception_handler m).
Proof.
  intros Hl Hm s. unfold exception_handler. specialize (Hm s).
  destruct (m s) as [[a|e] s1]; simpl in *; [ done | ].
  etrans; [ exact Hm | apply Hl ].
Qed.

Lemma frames_wp {A} (m : M A) (Q : res A -> state -> Prop) s :
  frames R m -> (forall r s', R s s' -> Q r s') -> wp m Q s.
Proof. intros Hm HQ. apply HQ, Hm. Qed.

End Frames.

Global Instance obj_keeps_preorder ks : PreOrder (obj_keeps ks).
Proof.
  split.
  - intros s. split; [ apply same_outside_refl | ]. by apply Forall_forall.
  - intros s1 s2 s3 [H1 K1] [H2 K2]. split; [ by eapply same_outside_trans | ].
    rewrite Forall_forall in *. intros k Hk. rewrite (K2 k Hk). by apply K1.
Qed.

Lemma obj_keeps_tick ks s : obj_keeps ks s (tick s).
Proof. split; [ by repeat split | by apply Forall_forall ]. Qed.

Lemma obj_keeps_log ks e s : obj_keeps ks s (add_log e s).
Proof. split; [ by repeat split | by apply Forall_forall ]. Qed.

Lemma obj_keeps_order ks f s : obj_keeps ks s (set_self_order f s).
Proof. split; [ by repeat split | by apply Forall_forall ]. Qed.

Lemma obj_keeps_insert ks k v s : k ∉ ks -> obj_keeps ks s (set_self_obj (insert k v) s).
Proof.
  intros Hk. split; [ by repeat split | ]. apply Forall_forall. intros k' Hk'. simpl.
  apply lookup_insert_ne. intros ->. done.
Qed.

Ltac not_in_list :=
  let H := fresh in
  intros H;
  repeat (apply elem_of_cons in H as [H|H]; [ discriminate H | ]);
  by apply elem_of_nil in H.

(** Discharges [frames (obj_keeps ks) m] for a method that writes nothing
    but [self.order], the log and fields of [self.obj] outside [ks]. *)
Ltac frames_step :=
  lazymatch goal with
  | |- frames _ (bind _ _) => apply frames_bind; [ | intros ? ]
  | |- frames _ (ret _) => apply frames_ret
  | |- frames _ (raise _) => apply frames_raise
  | |- frames _ (lift _) => apply frames_lift
  | |- frames _ (get _) => apply frames_get
  | |- frames _ (ask _) => apply frames_ask; intros; apply obj_keeps_tick
  | |- frames _ (ask_res _) => apply frames_ask_res; intros; apply obj_keeps_tick
  | |- frames _ (obj_set _ _) =>
      apply frames_modify; intros; apply obj_keeps_insert; not_in_list
  | |- frames _ (order_set _) => apply frames_modify; intros; apply obj_keeps_order
  | |- frames _ (modify (set_self_obj (insert _ _))) =>
      apply frames_modify; intros; apply obj_keeps_insert; not_in_list
  | |- frames _ (modify (set_self_order _)) =>
      apply frames_modify; intros; apply obj_keeps_order
  | |- frames _ (modify (add_log _)) => apply frames_modify; intros; apply obj_keeps_log
  | |- frames _ (info _ _) => apply frames_modify; intros; apply obj_keeps_log
  | |- frames _ (warning _ _) => apply frames_modify; intros; apply obj_keeps_log
  | |- frames _ (error _ _) => apply frames_modify; intros; apply obj_keeps_log
  | |- frames _ user_name => unfold user_name
  | |- frames _ (format_symbol _ _ _) => unfold format_symbol
  | |- frames _ (if ?b then _ else _) => destruct b
  | |- frames _ (match ?x with _ => _ end) => destruct x
  | |- frames _ _ => cbv zeta
  end.

Lemma standardOrder_frames w td so dir oco :
  frames (obj_keeps ["Trader"; "account_id"]%string) (standardOrder w td so dir oco).
Proof.
  unfold standardOrder.
  repeat frames_step.
Qed.

Ltac wp_step_until_direction :=
  lazymatch goal with
  | |- wp (bind (obj_set "Direction"%string _) _) _ _ => fail
  | |- wp (bind (modify (set_self_obj (insert "Direction"%string _))) _) _ _ => fail
  | _ => wp_step
  end.

Lemma standardOrder_returns_obj w td so dir oco s :
  wp (standardOrder w td so dir oco)
     (fun r s' => forall b, r = Ok b -> obj_describes td dir s') s.
Proof.
  unfold standardOrder.
  repeat wp_step_until_direction.
  all: try (intros ?; discriminate).
  apply wp_bind, wp_modify.
  apply (frames_wp (R:=obj_keeps ["Symbol"; "Strategy"; "Direction"]%string)).
  - repeat frames_step.
  - intros r s' [_ Hk] b _. rewrite Forall_forall in Hk.
    ok_inj.
    repeat match goal with
           | H : getitem _ _ = Ok _ |- _ => apply getitem_Ok in H
           end.
    unfold obj_describes.
    rewrite !Hk by (repeat constructor). state_simpl. split_and!; by simplify_map_eq.
  Qed.

(* ===================================================================== *)
(** ** What sendOrder queues                                              *)
(* ===================================================================== *)

Lemma wp_conj {A} (m : M A) (Q1 Q2 : res A -> state -> Prop) s :
  wp m Q1 s -> wp m Q2 s -> wp m (fun r s' => Q1 r s' /\ Q2 r s') s.
Proof. unfold wp. auto. Qed.

Lemma OCOorder_frames w cfg td so dir :
  frames (obj_keeps ["Trader"; "account_id"]%string) (OCOorder w cfg td so dir).
Proof.
  unfold OCOorder. apply frames_bind; [ apply standardOrder_frames | intros b ].
  repeat frames_step.
Qed.

Lemma OCOorder_returns_obj w cfg td so dir s :
  wp (OCOorder w cfg td so dir)
     (fun r s' => forall b, r = Ok b -> obj_describes td dir s') s.
Proof.
  unfold OCOorder. apply wp_bind.
  eapply wp_mono; [ apply standardOrder_returns_obj | ].
  intros [b|e] s1 H; cbv beta match; [ | intros ?; discriminate ].
  specialize (H b eq_refl).
  apply (frames_wp (R:=obj_keeps ["Symbol"; "Strategy"; "Direction"]%string)).
  - repeat frames_step.
  - intros r s' [_ Hk] b' _. rewrite Forall_forall in Hk.
    destruct H as (H1 & H2 & H3). unfold obj_describes.
    rewrite !Hk by (repeat constructor). done.
Qed.

Lemma place_and_queue_spec w cfg symbol strategy side s :
  wp (place_and_queue w cfg symbol strategy side)
     (fun _ s' => send_frame s s' /\ queued_from (self_obj s) s s') s.
Proof.
  unfold place_and_queue, queueOrder.
  repeat wp_step.
  all: ok_inj; state_simpl.
  all: (split; [ unfold send_frame; state_simpl; split_and!;
                 rewrite ?lookup_insert_ne by done; reflexivity | ]).
  all: try (by left).
  all: right; apply getitem_Ok in Heqr5, Heqr6 || idtac.
  all: repeat match goal with
              | H : getitem _ _ = Ok _ |- _ => apply getitem_Ok in H
              end.
  all: repeat match goal with
              | H : <[_:=_]> _ !! _ = Some _ |- _ => rewrite lookup_insert_ne in H by done
              end.
  all: eexists _, _, _, _; split_and!; try eassumption; try reflexivity.
  all: repeat (constructor; [ by rewrite ?lookup_insert_ne by done | ]); constructor.
Qed.

Lemma send_frame_refl s : send_frame s s.
Proof. by repeat split. Qed.

Lemma send_frame_trans s1 s2 s3 : send_frame s1 s2 -> send_frame s2 s3 -> send_frame s1 s3.
Proof. unfold send_frame. intuition congruence. Qed.

Lemma obj_keeps_send_frame s s' :
  obj_keeps ["Trader"; "account_id"]%string s s' -> send_frame s s'.
Proof.
  intros [(Hst & _ & _ & Hu) Hk]. rewrite Forall_forall in Hk.
  unfold send_frame. rewrite Hst, Hu. split_and!; try done; apply Hk; repeat constructor.
Qed.

Lemma build_spec w cfg td so dir (ot : value) s :
  wp (if py_eq ot (VStr "STANDARD")
      then let* r := standardOrder w td so dir false in ret (Some r)
      else if py_eq ot (VStr "OCO")
      then let* r := OCOorder w cfg td so dir in ret (Some r)
      else ret None)
     (fun r s' => obj_keeps ["Trader"; "account_id"]%string s s' /\
                  (r = Ok (Some Built) -> obj_describes td dir s')) s.
Proof.
  destruct (py_eq ot (VStr "STANDARD")); [ | destruct (py_eq ot (VStr "OCO")) ].
  - apply wp_bind. eapply wp_mono.
    + apply wp_conj; [ apply (frames_wp _ _ _ (standardOrder_frames w td so dir false));
                       intros r s' H; exact H
                     | apply standardOrder_returns_obj ].
    + intros [b|e] s' [Hk Hd]; cbv beta match; [ | split; [ done | discriminate ] ].
      apply wp_ret. split; [ done | ]. intros _. by apply (Hd b).
  - apply wp_bind. eapply wp_mono.
    + apply wp_conj; [ apply (frames_wp _ _ _ (OCOorder_frames w cfg td so dir));
                       intros r s' H; exact H
                     | apply OCOorder_returns_obj ].
    + intros [b|e] s' [Hk Hd]; cbv beta match; [ | split; [ done | discriminate ] ].
      apply wp_ret. split; [ done | ]. intros _. by apply (Hd b).
  - apply wp_ret. split; [ reflexivity | discriminate ].
Qed.

Lemma send_frame_log e s s' : send_frame s s' -> send_frame s (add_log e s').
Proof. done. Qed.

Lemma queued_signal_log td dir e s s' :
  queued_signal td dir s s' -> queued_signal td dir s (add_log e s').
Proof. done. Qed.

Lemma sendOrder_spec w cfg td so dir s :
  wp (sendOrder w cfg td so dir)
     (fun _ s' => send_frame s s' /\ queued_signal td dir s s') s.
Proof.
  unfold sendOrder. apply wp_exception_handler, wp_bind, wp_ask. cbv beta match.
  assert (send_frame s (tick s) /\ queued_signal td dir s (tick s)) as Htick
    by (split; [ unfold send_frame; by split_and! | by left ]).
  destruct (negb (checkTokenValidity w (clock s))).
  { unfold error. apply wp_modify. exact Htick. }
  do 4 (apply wp_bind, wp_lift; cbv beta match;
        lazymatch goal with |- match ?r with _ => _ end => destruct r eqn:? end;
        [ | exact Htick ]).
  apply wp_bind. eapply wp_mono; [ apply build_spec | ].
  intros r s1 [Hk Hd]. cbv beta.
  assert (send_frame s s1) as Hf1.
  { eapply send_frame_trans; [ apply Htick | ]. by apply obj_keeps_send_frame. }
  assert (queue (store s1) = queue (store s)) as Hq1.
  { destruct Hk as [(Hst & _) _]. simpl in Hst. congruence. }
  destruct r as [[[|]|]|e]; cbv beta match.
  - eapply wp_mono; [ apply place_and_queue_spec | ].
    intros r s2 [Hf2 Hq2].
    assert (send_frame s s2 /\ queued_signal td dir s s2) as H2.
    { split; [ by eapply send_frame_trans | ].
      destruct Hq2 as [Hq2 | (n & sym & strat & obj' & Hn & Hs & Hg & Hq2 & Ho)].
      - left. congruence.
      - right. specialize (Hd eq_refl). destruct Hd as (D1 & D2 & D3).
        destruct Hf1 as (_ & _ & _ & _ & _ & _ & Hu & Ht & Ha).
        rewrite Forall_forall in Ho.
        exists n, sym, strat, obj'. rewrite Hu in Hn. rewrite Hq1 in Hq2.
        split_and!; try done; try congruence.
        all: rewrite Ho by (repeat constructor); congruence. }
    by destruct r.
  - apply wp_ret. split; [ done | by left ].
  - unfold error. apply wp_modify. split; [ done | by left ].
  - split; [ done | by left ].
Qed.

(* ===================================================================== *)
(** ** The invariant of the queue and of the open positions               *)
(* ===================================================================== *)

Lemma py_eq_str v x : py_eq v (VStr x) = true -> v = VStr x.
Proof. destruct v; simpl; try done. intros H. by apply bool_decide_eq_true_1 in H as ->. Qed.

Lemma decide_direction_Some op sym side pt f dir :
  (decide_direction op sym side pt f).1 = Some dir ->
  (op = None /\ dir = VStr "OPEN POSITION") \/
  ((exists p, op = Some p) /\ dir = VStr "CLOSE POSITION").
Proof.
  unfold decide_direction. destruct op as [p|]; simpl.
  - destruct (closing_pair side pt); [ | done ]. intros [= <-]. right. eauto.
  - destruct (negb (in_cursor sym f).1); simpl; [ | done ].
    destruct (opening_pair side pt); [ | done ]. intros [= <-]. by left.
Qed.

Section Invariant.

Variable w : world.
Variable cfg : config.
Variable name : string.
Hypothesis acct_ok : bson_eq (account_id cfg) (account_id cfg) = true.

Local Abbreviation acct := (account_id cfg).
Local Abbreviation Inv := (Inv cfg name).
Local Abbreviation ready := (ready cfg name).
Local Abbreviation runs := (runs w cfg).

Lemma Inv_same s s' :
  Inv s ->
  self_user s' = self_user s -> users (store s') = users (store s) ->
  self_obj s' !! "Trader"%string = self_obj s !! "Trader"%string ->
  self_obj s' !! "account_id"%string = self_obj s !! "account_id"%string ->
  queue (store s') = queue (store s) ->
  open_positions (store s') = open_positions (store s) ->
  Inv s'.
Proof.
  intros [] Hu Hus Ht Ha Hq Ho. split; rewrite ?Hu, ?Hus, ?Ht, ?Ha, ?Hq, ?Ho; done.
Qed.

Lemma holds_key_app k c d : holds_key k (c ++ [d]) <-> holds_key k c \/ doc_key d = Some k.
Proof.
  unfold holds_key. rewrite fmap_app, elem_of_app. simpl. rewrite list_elem_of_singleton.
  split; intros [H|H]; auto. 
Qed.

Lemma well_keyed_snoc c d :
  well_keyed name acct c -> owned name acct d ->
  (forall k, doc_key d = Some k -> ~ holds_key k c) ->
  well_keyed name acct (c ++ [d]).
Proof.
  intros [Ho Hn] Hd Hk. split.
  - apply Forall_app. split; [ done | by apply Forall_singleton ].
  - unfold keys in *. rewrite fmap_app. apply NoDup_app. split_and!; [ done | | ].
    + intros x Hx Hx'. simpl in Hx'. apply list_elem_of_singleton in Hx'. subst x.
      destruct Hd as (_ & _ & [k Hk']). apply (Hk k Hk'). unfold holds_key. by rewrite <- Hk'.
    + simpl. apply NoDup_singleton.
Qed.

(** What the upsert of [queueOrder] adds when the key is new. *)
Lemma queued_doc obj' a b :
  obj' !! "Trader"%string = Some (VStr name) ->
  obj' !! "account_id"%string = Some acct ->
  obj' !! "Symbol"%string = Some (VStr a) ->
  obj' !! "Strategy"%string = Some (VStr b) ->
  let d := obj' ∪ eq_fields (key_query (VStr name) (VStr a) (VStr b)) in
  owned name acct d /\ doc_key d = Some (a, b) /\
  d !! "Direction"%string = obj' !! "Direction"%string.
Proof.
  intros Ht Ha Hs Hg d.
  assert (doc_key d = Some (a, b)) as Hk.
  { apply doc_key_Some. unfold d. split; by apply lookup_union_Some_l. }
  split_and!.
  - split_and!; [ by apply lookup_union_Some_l | by apply lookup_union_Some_l | by rewrite Hk ].
  - done.
  - unfold d. destruct (obj' !! "Direction"%string) as [v|] eqn:E.
    + by apply lookup_union_Some_l.
    + rewrite lookup_union_r by done. reflexivity.
Qed.

Lemma user_name_ok s n : Inv s -> subscript (self_user s) "Name" = Ok n -> n = VStr name.
Proof. intros [] H. by apply inv_user0. Qed.

Lemma find_one_acct_None a b c :
  Forall (owned name acct) c ->
  find_one (key_query_acct cfg (VStr name) (VStr a) (VStr b)) c = None <-> ~ holds_key (a, b) c.
Proof.
  apply (find_one_key_None name acct). intros d Hd. by apply matches_key_query_acct.
Qed.

Lemma find_one_key_None' a b c :
  Forall (owned name acct) c ->
  find_one (key_query (VStr name) (VStr a) (VStr b)) c = None <-> ~ holds_key (a, b) c.
Proof.
  apply (find_one_key_None name acct). intros d Hd. by apply (matches_key_query name acct).
Qed.

Lemma send_step s row' so dir op f a b side pt :
  Inv s ->
  op = find_one (key_query_acct cfg (VStr name) (VStr a) (VStr b)) (open_positions (store s)) ->
  find_one (key_query_acct cfg (VStr name) (VStr a) (VStr b)) (queue (store s)) = None ->
  row' !! "Symbol"%string = Some (VStr a) ->
  row' !! "Strategy"%string = Some (VStr b) ->
  (decide_direction op (VStr a) side pt f).1 = Some dir ->
  wp (sendOrder w cfg (match op with Some p => p ∪ row' | None => row' end) so dir)
     (fun _ s' => Inv s') s.
Proof.
  intros HI Hop Hq Hsym Hstrat Hdir.
  eapply wp_mono; [ apply sendOrder_spec | ].
  intros _ s' [Hf Hs]. cbv beta.
  destruct Hf as (Fo & Fc & Fx & Fs & Ff & Fu & Fsu & Ft & Fa).
  destruct Hs as [Hs | (n & sym & strat & obj' & Hn & Hs & Hg & Hq' & Ot & Oa & Os & Og & Od)].
  { by apply (Inv_same s). }
  pose proof (user_name_ok s n HI Hn) as ->.
  pose proof HI as [Iu Ius It Ia [Iqo Iqn] [Ioo Ion] Ie Id Ih].
  apply find_one_acct_None in Hq; [ | done ].
  assert (sym = VStr a /\ strat = VStr b) as [-> ->].
  { destruct op as [p|].
    - symmetry in Hop. apply find_one_key_Some with (name:=name) (acct:=acct) (a:=a) (b:=b) in Hop
        as [_ Hk]; [ | intros d Hd; by apply matches_key_query_acct | done ].
      apply doc_key_Some in Hk as [K1 K2].
      rewrite (lookup_union_Some_l _ _ _ _ K1) in Hs.
      rewrite (lookup_union_Some_l _ _ _ _ K2) in Hg. by simplify_eq.
    - by simplify_eq. }
  rewrite update_one_set_insert in Hq' by (by apply find_one_key_None').
  rewrite It in Ot. rewrite Ia in Oa.
  destruct (queued_doc obj' a b Ot Oa Os Og) as (Do & Dk & Dd).
  set (d := obj' ∪ eq_fields (key_query (VStr name) (VStr a) (VStr b))) in *.
  apply decide_direction_Some in Hdir as [[Hnone ->] | [Hpos ->]].
  all: split; rewrite ?Fsu, ?Fu, ?Ft, ?Fa, ?Fo, ?Hq'; try done.
  all: try (apply well_keyed_snoc; [ done | done | intros k Hk; by simplify_eq ]).
  all: try (apply Forall_app; split; [ done | apply Forall_singleton; unfold opening, closing;
                                             rewrite Dd, Od; auto ]).
  - intros d' k Hd' Hopen Hk. apply elem_of_app in Hd' as [Hd'|Hd']; [ by eapply Ie | ].
    apply list_elem_of_singleton in Hd'. subst d'. simplify_eq.
    apply find_one_acct_None; [ done | ]. congruence.
  - intros d' k Hd' Hclose Hk. apply elem_of_app in Hd' as [Hd'|Hd']; [ by eapply Ih | ].
    apply list_elem_of_singleton in Hd'. subst d'. unfold closing in Hclose.
    rewrite Dd, Od in Hclose. discriminate Hclose.
  - intros d' k Hd' Hopen Hk. apply elem_of_app in Hd' as [Hd'|Hd']; [ by eapply Ie | ].
    apply list_elem_of_singleton in Hd'. subst d'. unfold opening in Hopen.
    rewrite Dd, Od in Hopen. discriminate Hopen.
  - intros d' k Hd' Hclose Hk. apply elem_of_app in Hd' as [Hd'|Hd']; [ by eapply Ih | ].
    apply list_elem_of_singleton in Hd'. subst d'. rewrite Dk in Hk. injection Hk as <-.
    destruct Hpos as [p Hp]. rewrite Hp in Hop. symmetry in Hop.
    apply find_one_key_Some with (name:=name) (acct:=acct) (a:=a) (b:=b) in Hop
      as [Hin Hk']; [ | intros x Hx; by apply matches_key_query_acct | done ].
    apply holds_key_elem. eauto.
Qed.

Lemma runTrader_body_inv row f s :
  is_Some (doc_key row) -> Inv s ->
  wp (runTrader_body w cfg row f) (fun _ s' => Inv s') s.
Proof.
  intros [[a b] Hrow] HI. apply doc_key_Some in Hrow as [Hsym Hstrat].
  unfold runTrader_body, addNewStrategy.
  unfold getitem at 1 2. rewrite Hsym, Hstrat.
  do 2 (apply wp_bind, wp_lift; cbv beta match).
  repeat wp_step.
  all: ok_inj.
  all: try done.
  all: try (by apply (Inv_same s)).
  all: match goal with H : subscript _ _ = Ok _ |- _ => pose proof (user_name_ok _ _ HI H) as -> end.
  all: (eapply wp_mono;
        [ eapply send_step; try eassumption; try reflexivity
        | intros [] ? ?; done ]).
  all: try (by rewrite lookup_insert_ne).
  all: by apply (Inv_same s).
Qed.

Lemma runTrader_loop_inv rows f s :
  forallb (fun row => bool_decide (is_Some (doc_key row))) rows = true -> Inv s ->
  wp (runTrader_loop w cfg rows f) (fun _ s' => Inv s') s.
Proof.
  revert f s. induction rows as [|row rows IH]; intros f s Hrows HI; simpl.
  - by apply wp_ret.
  - simpl in Hrows. apply andb_true_iff in Hrows as [Hrow Hrows].
    apply bool_decide_eq_true_1 in Hrow.
    apply wp_bind. eapply wp_mono; [ by apply runTrader_body_inv | ].
    intros [c|e] s' HI'; cbv beta match; [ by apply IH | done ].
Qed.

Lemma grows_by_refl q s : grows_by q s s.
Proof. intros k. auto. Qed.

Lemma holds_key_delete k q c : holds_key k (delete_one q c).1 -> holds_key k c.
Proof.
  rewrite !holds_key_elem. intros (d & Hd & Hk). exists d. split; [ by eapply delete_one_elem | done ].
Qed.

Lemma exclusive_delete_queue q c o : exclusive c o -> exclusive (delete_one q c).1 o.
Proof. intros H d k Hd. apply H. by eapply delete_one_elem. Qed.

Lemma exclusive_delete_open q c o : exclusive c o -> exclusive c (delete_one q o).1.
Proof. intros H d k Hd Ho Hk Hh. apply (H d k Hd Ho Hk). by eapply holds_key_delete. Qed.

Lemma pushOrder_inv q spec di s :
  Inv s -> ready q s ->
  wp (pushOrder w cfg q spec di) (fun _ s' => Inv s' /\ grows_by q s s') s.
Proof.
  intros HI [Hown Hfree].
  eapply wp_mono; [ apply pushOrder_spec | ].
  intros r s' [Hf Hr]. cbv beta.
  destruct Hf as (_ & _ & _ & _ & Fu & Fsu & Fobj & _ & _).
  pose proof HI as [Iu Ius It Ia Iq Io Ie Id Ih].
  destruct r as [[u|]|e]; [ | | done ].
  2:{ destruct Hr as [Hst _]. split; [ | intros k; rewrite Hst; auto ].
      apply (Inv_same s); by rewrite ?Hst, ?Fobj. }
  destruct Hr as (n & symbol & strategy & direction & p & sh & p' &
                  Hn & Hs & Hg & Hd & _ & _ & Hq & _ & Hcase).
  pose proof (user_name_ok s n HI Hn) as ->.
  pose proof Hown as (Qt & Qa & [[a b] Qk]).
  pose proof (proj1 (doc_key_Some q a b) Qk) as [Qs Qg].
  assert (symbol = VStr a) as -> by congruence.
  assert (strategy = VStr b) as -> by congruence.
  assert (~ holds_key (a, b) (queue (store s'))) as Hgone.
  { rewrite Hq. apply (delete_one_gone name acct); [ | done ].
    intros d Hd'. by apply matches_key_query_acct. }
  assert (well_keyed name acct (queue (store s'))) as Hwq
    by (rewrite Hq; by apply well_keyed_delete).
  assert (Forall (fun d => opening d \/ closing d) (queue (store s'))) as Hdq
    by (rewrite Hq; by apply delete_one_Forall).
  destruct (py_eq direction (VStr "OPEN POSITION")) eqn:E1;
    [ | destruct (py_eq direction (VStr "CLOSE POSITION")) eqn:E2 ].
  - apply py_eq_str in E1 as ->.
    destruct Hcase as (rec & Ho & _ & Rs & Rg & Ra & Rt & _).
    assert (owned name acct rec /\ doc_key rec = Some (a, b)) as [Ro Rk].
    { assert (doc_key rec = Some (a, b)) as Rk by (apply doc_key_Some; split; congruence).
      split; [ | done ]. split_and!; [ done | congruence | by rewrite Rk ]. }
    split.
    + split; rewrite ?Fsu, ?Fu, ?Fobj, ?Ho; try done.
      * apply well_keyed_snoc; try done. intros k Hk. apply Hfree; [ done | congruence ].
      * intros d k Hd' Hop Hk Hh. apply holds_key_app in Hh as [Hh|Hh].
        -- rewrite Hq in Hd'. apply delete_one_elem in Hd'. by apply (Ie d k).
        -- apply Hgone. apply holds_key_elem. exists d. split; [ done | congruence ].
      * intros d k Hd' Hcl Hk. apply holds_key_app. left.
        rewrite Hq in Hd'. apply delete_one_elem in Hd'. by apply (Ih d k).
    + intros k Hk. rewrite Ho in Hk. apply holds_key_app in Hk as [Hk|Hk]; [ by left | ].
      right. congruence.
  - destruct Hcase as (rec & pos & _ & Ho & _).
    split.
    + split; rewrite ?Fsu, ?Fu, ?Fobj, ?Ho; try done.
      * by apply well_keyed_delete.
      * rewrite Hq. by apply exclusive_delete_open, exclusive_delete_queue.
      * intros d k Hd' Hcl Hk.
        assert (k <> (a, b)) as Hne.
        { intros ->. apply Hgone. apply holds_key_elem. eauto. }
        apply (delete_one_other name acct _ a b); [ | by destruct Io | done | ].
        -- intros x Hx. by apply (matches_key_query name acct).
        -- rewrite Hq in Hd'. apply delete_one_elem in Hd'. by apply (Ih d k).
    + intros k Hk. rewrite Ho in Hk. left. by eapply holds_key_delete.
  - destruct Hcase as [Ho _].
    split.
    + split; rewrite ?Fsu, ?Fu, ?Fobj, ?Ho; try done.
      * rewrite Hq. by apply exclusive_delete_queue.
      * intros d k Hd' Hcl Hk. rewrite Hq in Hd'. apply delete_one_elem in Hd'.
        by apply (Ih d k).
    + intros k. rewrite Ho. auto.
Qed.

Lemma extractOCOchildren_spec r s :
  wp (extractOCOchildren r)
     (fun x s' =>
        (s' = s \/ exists e, s' = add_log e s) /\
        forall c, x = Ok (Some c) -> exists m, c = {[ "childOrderStrategies"%string := m ]}) s.
Proof.
  unfold extractOCOchildren. repeat wp_step.
  all: split; [ eauto | ]; intros c Hc; try discriminate Hc.
  injection Hc as <-. eauto.
Qed.

Lemma Inv_queue s s' :
  Inv s ->
  self_user s' = self_user s -> users (store s') = users (store s) ->
  self_obj s' !! "Trader"%string = self_obj s !! "Trader"%string ->
  self_obj s' !! "account_id"%string = self_obj s !! "account_id"%string ->
  open_positions (store s') = open_positions (store s) ->
  well_keyed name acct (queue (store s')) ->
  (forall d', d' ∈ queue (store s') ->
     exists d, d ∈ queue (store s) /\ doc_key d' = doc_key d /\
               d' !! "Direction"%string = d !! "Direction"%string) ->
  Inv s'.
Proof.
  intros [] Hu Hus Ht Ha Ho Hq Hd. split; rewrite ?Hu, ?Hus, ?Ht, ?Ha, ?Ho; try done.
  - intros d' k Hd' Hop Hk. destruct (Hd d' Hd') as (d & Hin & Hk' & Hdir).
    apply (inv_excl0 d k Hin); unfold opening in *; congruence.
  - apply Forall_forall. intros d' Hd'. destruct (Hd d' Hd') as (d & Hin & _ & Hdir).
    rewrite Forall_forall in inv_dir0. unfold opening, closing in *. rewrite Hdir.
    by apply inv_dir0.
  - intros d' k Hd' Hcl Hk. destruct (Hd d' Hd') as (d & Hin & Hk' & Hdir).
    apply (inv_held0 d k Hin); unfold closing in *; congruence.
Qed.

Lemma inert_status v : inert {[ "Order_Status"%string := v ]}.
Proof. unfold inert. split_and!; by apply lookup_singleton_ne. Qed.

Lemma inert_children m : inert {[ "childOrderStrategies"%string := m ]}.
Proof. unfold inert. split_and!; by apply lookup_singleton_ne. Qed.

Lemma ready_union F q s : inert F -> ready q s -> ready (F ∪ q) s.
Proof.
  intros HF [Ho Hf]. split; [ by apply owned_union | ].
  unfold opening. rewrite doc_key_union by done.
  destruct HF as (_ & _ & _ & _ & HD). rewrite lookup_union_r by done. exact Hf.
Qed.

Lemma Inv_delete qy s s' :
  Inv s ->
  self_user s' = self_user s -> users (store s') = users (store s) ->
  self_obj s' !! "Trader"%string = self_obj s !! "Trader"%string ->
  self_obj s' !! "account_id"%string = self_obj s !! "account_id"%string ->
  open_positions (store s') = open_positions (store s) ->
  queue (store s') = (delete_one qy (queue (store s))).1 ->
  Inv s'.
Proof.
  intros HI Hu Hus Ht Ha Ho Hq. apply (Inv_queue s); try done; rewrite Hq.
  - apply well_keyed_delete. by destruct HI.
  - intros d' Hd'. exists d'. split; [ by eapply delete_one_elem | done ].
Qed.

Lemma Inv_status qy v s s' :
  Inv s ->
  self_user s' = self_user s -> users (store s') = users (store s) ->
  self_obj s' !! "Trader"%string = self_obj s !! "Trader"%string ->
  self_obj s' !! "account_id"%string = self_obj s !! "account_id"%string ->
  open_positions (store s') = open_positions (store s) ->
  queue (store s') = update_one_set qy {[ "Order_Status"%string := v ]} false (queue (store s)) ->
  Inv s'.
Proof.
  intros HI Hu Hus Ht Ha Ho Hq.
  destruct (update_one_set_inert name acct qy _ (queue (store s)) (inert_status v))
    as (Hw & _ & He); [ by destruct HI | ].
  apply (Inv_queue s); try done; by rewrite Hq.
Qed.

Ltac quiet_step HI :=
  split; [ by apply (Inv_same _ _ HI) | intros k Hk; left; exact Hk ].

Lemma updateStatus_body_inv q s :
  Inv s -> ready q s ->
  wp (updateStatus_body w cfg q) (fun _ s' => Inv s' /\ grows_by q s s') s.
Proof.
  intros HI Hrdy.
  unfold updateStatus_body.
  repeat wp_step.
  all: try quiet_step HI.
  all: try (eapply wp_mono;
            [ apply pushOrder_inv; [ by apply (Inv_same _ _ HI) | exact Hrdy ] | ];
            intros [?|?] s2 [H1 H2]; cbv beta match; try apply wp_ret;
            (split; [ exact H1 | exact H2 ])).
  - eapply wp_mono; [ apply extractOCOchildren_spec | ].
    intros r s1 [Hs1 Hc]. cbv beta.
    assert (Inv s1 /\ grows_by q s s1 /\ ready q s1) as (HI1 & Hg1 & Hr1).
    { destruct Hs1 as [-> | [e ->]];
        (split_and!; [ by apply (Inv_same _ _ HI) | intros k Hk; left; exact Hk | exact Hrdy ]). }
    destruct r as [[c|]|e]; cbv beta match; [ | by apply wp_raise | done ].
    destruct (Hc c eq_refl) as [m ->]. apply wp_ret, wp_bind.
    eapply wp_mono; [ apply pushOrder_inv; [ exact HI1 | apply ready_union;
                                                        [ apply inert_children | exact Hr1 ] ] | ].
    intros r s2 [H1 H2].
    assert (grows_by q s s2) as Hg2.
    { intros k Hk. destruct (H2 k Hk) as [H|H]; [ by apply Hg1 | ].
      right. by rewrite doc_key_union in H by apply inert_children. }
    destruct r; cbv beta match; try apply wp_ret; by split.
  - split; [ | intros k Hk; left; exact Hk ].
    eapply (Inv_delete _ s); [ exact HI | state_simpl; reflexivity .. ].
  - split; [ | intros k Hk; left; exact Hk ].
    eapply (Inv_delete _ s); [ exact HI | state_simpl; reflexivity .. ].
  - split; [ | intros k Hk; left; exact Hk ].
    eapply (Inv_delete _ s); [ exact HI | state_simpl; reflexivity .. ].
  - split; [ | intros k Hk; left; exact Hk ].
    eapply (Inv_status _ _ s); [ exact HI | state_simpl; reflexivity .. ].
Qed.

Lemma find_elem qy c d : d ∈ find qy c -> d ∈ c.
Proof. unfold find. intros H. apply list_elem_of_In, filter_In in H as [H _]. by apply list_elem_of_In. Qed.

Lemma find_NoDup qy c : NoDup (keys c) -> NoDup (keys (find qy c)).
Proof.
  unfold keys, find. induction c as [|x c IH]; simpl; [ done | ].
  rewrite ?fmap_cons. rewrite NoDup_cons. intros [Hx Hc].
  destruct (matches qy x); [ | by apply IH ].
  rewrite ?fmap_cons. apply NoDup_cons. split; [ | by apply IH ].
  intros H. apply Hx. apply list_elem_of_fmap in H as (d & -> & Hd).
  apply list_elem_of_fmap. exists d. split; [ done | ].
  by apply (find_elem qy).
Qed.

(** The loop of [updateStatus] over the records it read when it started. *)
Lemma for_each_updateStatus_inv l s :
  Inv s -> Forall (fun q => ready q s) l -> NoDup (keys l) ->
  wp (for_each (updateStatus_body w cfg) l) (fun _ s' => Inv s') s.
Proof.
  revert s. induction l as [|q l IH]; intros s HI Hr Hn; simpl.
  - by apply wp_ret.
  - apply Forall_cons in Hr as [Hq Hr]. unfold keys in Hn. rewrite ?fmap_cons in Hn.
    apply NoDup_cons in Hn as [Hq' Hn].
    apply wp_bind. eapply wp_mono; [ by apply updateStatus_body_inv | ].
    intros [u|e] s' [HI' Hg]; cbv beta match; [ | done ].
    apply IH; [ done | | done ].
    rewrite Forall_forall in Hr. apply Forall_forall. intros q2 Hq2.
    destruct (Hr q2 Hq2) as [Ho Hf]. split; [ done | ].
    intros Hop k Hk Hh. destruct (Hg k Hh) as [Hh'|Hh']; [ by apply (Hf Hop k) | ].
    apply Hq'. rewrite Hh', <- Hk. apply list_elem_of_fmap. eauto.
Qed.

Lemma updateStatus_inv s :
  Inv s -> wp (updateStatus w cfg) (fun _ s' => Inv s') s.
Proof.
  intros HI. unfold updateStatus.
  apply wp_exception_handler, wp_bind, wp_ask. cbv beta match.
  destruct (negb (checkTokenValidity w (clock s))).
  { unfold error. apply wp_modify. by apply (Inv_same s). }
  unfold user_name. repeat wp_step.
  2:{ by apply (Inv_same s). }
  eapply wp_mono.
  - apply for_each_updateStatus_inv.
    + by apply (Inv_same s).
    + apply Forall_forall. intros q Hq. apply find_elem in Hq. state_simpl.
      pose proof HI as [_ _ _ _ [Ho _] _ He _ _]. rewrite Forall_forall in Ho.
      split; [ by apply Ho | ]. intros Hop k Hk. by apply (He q k).
    + apply find_NoDup. state_simpl. by destruct HI as [_ _ _ _ [_ Hn] _ _ _ _].
  - intros [u|e] s' H; cbv beta match; [ done | ]. by apply (Inv_same s').
Qed.

Lemma find_one_elem qy c d : find_one qy c = Some d -> d ∈ c /\ matches qy d = true.
Proof. apply find_one_Some. Qed.

Lemma str_named_user us u :
  forallb str_named us = true ->
  find_one [("Name"%string, CEq (VStr name))] us = Some u ->
  user_ok name (VDict u).
Proof.
  intros Hus Hu. apply find_one_Some in Hu as [Hin Hm].
  rewrite forallb_forall in Hus. apply list_elem_of_In in Hin. specialize (Hus u Hin).
  unfold matches in Hm. simpl in Hm. rewrite andb_true_r in Hm.
  unfold holds, field_eq, str_named in *. simpl in Hm.
  intros n Hn. simpl in Hn. apply getitem_Ok in Hn. rewrite Hn in Hm, Hus.
  destruct n; try discriminate Hus. rewrite bson_eq_str in Hm.
  by apply bool_decide_eq_true_1 in Hm as ->.
Qed.

Lemma runTrader_inv rows s :
  forallb (fun row => bool_decide (is_Some (doc_key row))) rows = true -> Inv s ->
  Inv (runTrader w cfg rows s).2.
Proof.
  intros Hrows HI. change (wp (runTrader w cfg rows) (fun _ s' => Inv s') s).
  unfold runTrader.
  apply wp_exception_handler, wp_bind, wp_ask. cbv beta match.
  destruct (negb (checkTokenValidity w (clock s))).
  { unfold error. apply wp_modify. by apply (Inv_same s). }
  apply wp_bind. unfold info at 1. apply wp_modify. cbv beta match.
  apply wp_bind. eapply wp_mono; [ apply updateStatus_inv; by apply (Inv_same s) | ].
  intros r s1 HI1. destruct r as [u|e]; cbv beta match; [ | by apply (Inv_same s1) ].
  unfold user_name. repeat wp_step.
  2:{ by apply (Inv_same s1). }
  pose proof (user_name_ok s1 a HI1 Heqr) as ->.
  eapply wp_mono.
  - apply runTrader_loop_inv; [ exact Hrows | ].
    pose proof HI1 as [Iu Ius It Ia Iq Io Ie Id Ih].
    split; state_simpl; try done.
    destruct (find_one _ (users (store s1))) as [u0|] eqn:E.
    + by eapply str_named_user.
    + intros n Hn. discriminate Hn.
  - intros [?|?] s2 H; cbv beta match; [ done | by apply (Inv_same s2) ].
Qed.

Lemma runs_inv batches s :
  forallb (forallb (fun row => bool_decide (is_Some (doc_key row)))) batches = true ->
  Inv s -> Inv (runs batches s).
Proof.
  revert s. induction batches as [|rows batches IH]; intros s Hb HI; simpl; [ done | ].
  simpl in Hb. apply andb_true_iff in Hb as [Hrows Hb].
  apply IH; [ done | ]. by apply runTrader_inv.
Qed.

End Invariant.

Lemma starts_Inv cfg name s : starts cfg name s -> Inv cfg name s.
Proof.
  intros ((user & Hu & Hn) & Ho & Hq & Hp & Hus).
  split; rewrite ?Hq, ?Hp, ?Ho; try done.
  - intros n. rewrite Hu. simpl. unfold getitem. rewrite Hn. by intros [= <-].
  - split; [ constructor | apply NoDup_nil_2 ].
  - split; [ constructor | apply NoDup_nil_2 ].
  - intros d k Hd. by apply elem_of_nil in Hd.
  - intros d k Hd. by apply elem_of_nil in Hd.
Qed.

Lemma pushOrder_resolves_key w cfg name q a b spec di s :
  bson_eq (account_id cfg) (account_id cfg) = true ->
  Inv cfg name s ->
  doc_key q = Some (a, b) ->
  (pushOrder w cfg q spec di s).1 = Ok (Some tt) ->
  let s' := (pushOrder w cfg q spec di s).2 in
  ~ holds_key (a, b) (queue (store s')) /\
  (opening q -> holds_key (a, b) (open_positions (store s'))) /\
  (closing q -> holds_key (a, b) (closed_positions (store s')) /\
                ~ holds_key (a, b) (open_positions (store s'))).
Proof.
  intros Hacct HI Hk Hdone s'.
  pose proof (pushOrder_spec w cfg q spec di s) as H. unfold wp in H.
  fold s' in H. rewrite Hdone in H. destruct H as [_ H].
  destruct H as (n & symbol & strategy & d & p & sh & p' &
                 Hn & Hs & Hg & Hd & _ & _ & Hq & _ & Hcase).
  pose proof (user_name_ok cfg name s n HI Hn) as ->.
  apply doc_key_Some in Hk as [Qs Qg].
  assert (symbol = VStr a) as -> by congruence.
  assert (strategy = VStr b) as -> by congruence.
  pose proof HI as [_ _ _ _ Iq Io _ _ _].
  split_and!.
  - rewrite Hq. apply (delete_one_gone name (account_id cfg)); [ | done ].
    intros x Hx. by apply matches_key_query_acct.
  - intros Hop. unfold opening in Hop. rewrite Hop in Hd. injection Hd as <-.
    change (py_eq (VStr "OPEN POSITION") (VStr "OPEN POSITION")) with true in Hcase.
    destruct Hcase as (rec & Ho & _ & Rs & Rg & _).
    rewrite Ho. apply holds_key_app. right. apply doc_key_Some. split; congruence.
  - intros Hcl. unfold closing in Hcl. rewrite Hcl in Hd. injection Hd as <-.
    change (py_eq (VStr "CLOSE POSITION") (VStr "OPEN POSITION")) with false in Hcase.
    change (py_eq (VStr "CLOSE POSITION") (VStr "CLOSE POSITION")) with true in Hcase.
    destruct Hcase as (rec & pos & _ & Ho & Hc & Rs & Rg & _).
    split.
    + rewrite Hc. apply holds_key_app. right. apply doc_key_Some. split; congruence.
    + rewrite Ho. apply (delete_one_gone name (account_id cfg)); [ | done ].
      intros x Hx. by apply (matches_key_query name (account_id cfg)).
Qed.

(** C1.  An opening order is filled and a closing signal arrives for the
    position: the closing order waits in the queue while the position it
    closes is open, so that the key is in the queue and in the open
    positions at once. *)
Lemma C1_counterexample :
  let w := Scenario.broker (6 # 5) (13 # 10) Scenario.accepted Scenario.not_found in
  let cfg := Scenario.account true in
  let s0 := Scenario.fresh Scenario.empty_db in
  let s := runs w cfg [[Scenario.half_strike_signal "BUY_TO_OPEN"];
                       [Scenario.half_strike_signal "SELL_TO_CLOSE"]] s0 in
  starts cfg "Trey" s0 /\
  Scenario.keys_of (queue (store s))
    = [(Some (VStr "SPY"), Some (VStr "SPY_SCAN_OPT_SELL"), Some (VStr "CLOSE POSITION"))] /\
  Scenario.keys_of (open_positions (store s))
    = [(Some (VStr "SPY"), Some (VStr "SPY_SCAN_OPT_SELL"), None)].
Proof.
  cbv zeta. split_and!.
  - split_and!; try reflexivity. eexists. split; reflexivity.
  - vm_compute. reflexivity.
  - vm_compute. reflexivity.
Qed.

(** C1.  In every state that the trader reaches from a fresh instance by
    calls of [runTrader] on signals with a symbol and a strategy, every
    queued record has a key and either opens a position, and then its key
    has no open position, or closes one, and then its key has an open
    position, which stays until the order is resolved; no key is twice in
    the queue or twice in the open positions.  When [pushOrder] completes for a record with a key, the
    key has left the queue; if the record opens a position the key is in
    the open positions, and if it closes one the key is in the closed
    positions and not in the open ones. *)
Theorem C1_queued_opening_excludes_position w cfg name s0 batches :
  bson_eq (account_id cfg) (account_id cfg) = true ->
  starts cfg name s0 ->
  forallb (forallb signal_ok) batches = true ->
  let s := runs w cfg batches s0 in
  (forall q, q ∈ queue (store s) ->
     exists k, doc_key q = Some k /\
               ((opening q /\ ~ holds_key k (open_positions (store s))) \/
                (closing q /\ holds_key k (open_positions (store s))))) /\
  NoDup (keys (queue (store s))) /\
  NoDup (keys (open_positions (store s))) /\
  (forall q k spec di,
     doc_key q = Some k ->
     (pushOrder w cfg q spec di s).1 = Ok (Some tt) ->
     let s' := (pushOrder w cfg q spec di s).2 in
     ~ holds_key k (queue (store s')) /\
     (opening q -> holds_key k (open_positions (store s'))) /\
     (closing q -> holds_key k (closed_positions (store s')) /\
                   ~ holds_key k (open_positions (store s')))).
Proof.
  intros Hacct Hstart Hb s.
  assert (Inv cfg name s) as HI.
  { apply runs_inv; [ done | exact Hb | by apply starts_Inv ]. }
  pose proof HI as [_ _ _ _ [Iqo Iqn] [_ Ion] Ie Id Ih].
  split_and!; [ | done | done | ].
  - intros q Hq. rewrite Forall_forall in Iqo, Id.
    destruct (Iqo q Hq) as (_ & _ & [k Hk]). exists k. split; [ done | ].
    destruct (Id q Hq) as [Hop|Hcl]; [ left | right ].
    + split; [ done | by apply (Ie q k) ].
    + split; [ done | by apply (Ih q k) ].
  - intros q [a b] spec di Hk Hdone. by apply (pushOrder_resolves_key w cfg name).
Qed.

Lemma C1_witness :
  let w := Scenario.broker (6 # 5) (13 # 10) Scenario.accepted Scenario.not_found in
  let cfg := Scenario.account true in
  let s := runs w cfg [[Scenario.half_strike_signal "BUY_TO_OPEN"]; [];
                       [Scenario.half_strike_signal "SELL_TO_CLOSE"]]
             (Scenario.fresh Scenario.empty_db) in
  (forall q, q ∈ queue (store s) ->
     exists k, doc_key q = Some k /\
               ((opening q /\ ~ holds_key k (open_positions (store s))) \/
                (closing q /\ holds_key k (open_positions (store s))))) /\
  NoDup (keys (queue (store s))) /\
  NoDup (keys (open_positions (store s))) /\
  (forall q k spec di,
     doc_key q = Some k ->
     (pushOrder w cfg q spec di s).1 = Ok (Some tt) ->
     let s' := (pushOrder w cfg q spec di s).2 in
     ~ holds_key k (queue (store s')) /\
     (opening q -> holds_key k (open_positions (store s'))) /\
     (closing q -> holds_key k (closed_positions (store s')) /\
                   ~ holds_key k (open_positions (store s')))).
Proof.
  intros w cfg.
  apply (C1_queued_opening_excludes_position w cfg "Trey").
  - reflexivity.
  - split_and!; try reflexivity. eexists. split; reflexivity.
  - reflexivity.
Defined.
